(** * Subscription and entitlement engine of the barbershop backend

    A shallow embedding of [services/subscriptionService.js] and
    [controllers/subscriptionController.js]: the pricing tier selector, the
    subscription state derived from the stored period boundaries, the
    30-day renewal, the enforcement gate and the three payment rails
    (one-off PayPal order, recurring PayPal subscription, manual transfer).

    Conventions of the embedding:
    - a JavaScript [Date] is its millisecond count, a [Z];
    - a table is the list of its rows, in storage order; [SELECT ... LIMIT 1]
      is [find], [UPDATE ... WHERE] is [map] over the matching rows,
      [INSERT] appends;
    - a handler takes the committed database and returns the database that
      is committed when it ends together with the HTTP response; [ROLLBACK]
      returns the database the handler started from;
    - every reply of the payment provider and every reading of the clock is
      an explicit argument;
    - counts and identifiers are integers, dates stay within the range of
      [Date], and a statement sent to the database succeeds. *)

From Stdlib Require Import ZArith List String Ascii Bool Lia.
Import ListNotations.
Local Open Scope string_scope.
Local Open Scope Z_scope.

(** ** JavaScript values used by the controllers *)

Module JS.

(** [x || y] on values that are either absent or a string: the empty
    string is falsy as well. *)
Definition truthy (v : option string) : bool :=
  match v with
  | None => false
  | Some s => negb (String.eqb s "")
  end.

Definition or_else (v w : option string) : option string :=
  if truthy v then v else w.

(** [String(v || '')] *)
Definition to_string (v : option string) : string :=
  match or_else v None with
  | Some s => s
  | None => ""
  end.

(** [s || null] for a string [s] *)
Definition or_null (s : string) : option string :=
  if String.eqb s "" then None else Some s.

Definition lower_ascii (c : ascii) : ascii :=
  let n := nat_of_ascii c in
  if (Nat.leb 65 n && Nat.leb n 90)%bool then ascii_of_nat (n + 32) else c.

Definition upper_ascii (c : ascii) : ascii :=
  let n := nat_of_ascii c in
  if (Nat.leb 97 n && Nat.leb n 122)%bool then ascii_of_nat (n - 32) else c.

Fixpoint map_string (f : ascii -> ascii) (s : string) : string :=
  match s with
  | EmptyString => EmptyString
  | String c r => String (f c) (map_string f r)
  end.

(** [toLowerCase] and [toUpperCase] on the ASCII letters (role names,
    provider statuses and event types are ASCII). *)
Definition toLowerCase : string -> string := map_string lower_ascii.
Definition toUpperCase : string -> string := map_string upper_ascii.

Definition includes (hay needle : string) : bool :=
  match index 0 needle hay with
  | Some _ => true
  | None => false
  end.

Definition startsWith (s p : string) : bool := prefix p s.

Definition is_space (c : ascii) : bool :=
  let n := nat_of_ascii c in
  (Nat.eqb n 32 || (Nat.leb 9 n && Nat.leb n 13))%bool.

Fixpoint trim_start (s : string) : string :=
  match s with
  | EmptyString => EmptyString
  | String c r => if is_space c then trim_start r else s
  end.

Fixpoint rev_string (acc s : string) : string :=
  match s with
  | EmptyString => acc
  | String c r => rev_string (String c acc) r
  end.

(** [trim] on ASCII white space. *)
Definition trim (s : string) : string :=
  rev_string "" (trim_start (rev_string "" (trim_start s))).

End JS.

(** ** Pricing tiers ([PLAN_TIERS], [selectTierForUsage],
       [computeMonthlyPriceDop]) *)

Record limits := { shops : Z; professionals : Z }.

Record plan_tier := {
  code : string;
  name : string;
  priceDop : Z;
  tier_limits : limits
}.

Definition PLAN_TIERS : list plan_tier :=
  [ {| code := "basic_1"; name := "Básico 1"; priceDop := 1000;
       tier_limits := {| shops := 1; professionals := 2 |} |};
    {| code := "basic_2"; name := "Básico 2"; priceDop := 1500;
       tier_limits := {| shops := 1; professionals := 3 |} |};
    {| code := "pro"; name := "Pro"; priceDop := 2000;
       tier_limits := {| shops := 2; professionals := 6 |} |};
    {| code := "premium"; name := "Premium"; priceDop := 2500;
       tier_limits := {| shops := 3; professionals := 12 |} |} ].

(** The result of [computeOwnerUsageCounts]. *)
Record usage_counts := {
  shopCount : Z;
  professionalCount : Z;
  barbersCount : Z;
  ownerCountsAsProfessional : bool
}.

(** The predicate passed to [PLAN_TIERS.find]. *)
Definition accommodates (s p : Z) (t : plan_tier) : bool :=
  (s <=? shops (tier_limits t)) && (p <=? professionals (tier_limits t)).

Record tier_selection := {
  sel_tier : option plan_tier;
  sel_isOverLimit : bool;
  sel_overage : limits;
  sel_normalized : Z * Z
}.

(** [PLAN_TIERS[PLAN_TIERS.length - 1]] *)
Definition maxTier : plan_tier :=
  last PLAN_TIERS
    {| code := ""; name := ""; priceDop := 0;
       tier_limits := {| shops := 0; professionals := 0 |} |}.

Definition selectTierForUsage (sc pc : Z) : tier_selection :=
  let s := Z.max 0 sc in
  let p := Z.max 0 pc in
  let tier := find (accommodates s p) PLAN_TIERS in
  let overShops := Z.max 0 (s - shops (tier_limits maxTier)) in
  let overProfessionals := Z.max 0 (p - professionals (tier_limits maxTier)) in
  let isOverLimit :=
    match tier with
    | None => (0 <? overShops) || (0 <? overProfessionals)
    | Some _ => false
    end in
  {| sel_tier := tier;
     sel_isOverLimit := isOverLimit;
     sel_overage := {| shops := overShops; professionals := overProfessionals |};
     sel_normalized := (s, p) |}.

Record pricing := {
  currency : string;
  tier : option plan_tier;
  total : option Z;
  isOverLimit : bool;
  overage : limits
}.

Definition computeMonthlyPriceDop (u : usage_counts) : pricing :=
  let usage := selectTierForUsage (shopCount u) (professionalCount u) in
  match sel_tier usage, sel_isOverLimit usage with
  | None, true =>
      {| currency := "DOP"; tier := None; total := None;
         isOverLimit := true; overage := sel_overage usage |}
  | t, _ =>
      let tr := match t with
                | Some x => x
                | None => hd maxTier PLAN_TIERS
                end in
      {| currency := "DOP"; tier := Some tr; total := Some (priceDop tr);
         isOverLimit := false; overage := sel_overage usage |}
  end.

(** [getTierForCode] and [VALID_PLAN_CODES] of the controller. *)
Definition getTierForCode (planCode : option string) : option plan_tier :=
  let c := JS.trim (JS.to_string planCode) in
  find (fun t => String.eqb (code t) c) PLAN_TIERS.

Definition VALID_PLAN_CODES : list string :=
  ["basic_1"; "basic_2"; "pro"; "premium"].

Definition valid_plan_code (c : string) : bool :=
  existsb (String.eqb c) VALID_PLAN_CODES.

(** ** The tables *)

(** A timestamp column as JavaScript sees it: [null], a [Date] with its
    millisecond count, or a [Date] whose [getTime()] is [NaN]. *)
Inductive tsval :=
| TsNull
| TsDate (ms : Z)
| TsInvalid.

Definition DAY : Z := 24 * 60 * 60 * 1000.

Record shop_row := {
  shop_id : Z;
  shop_owner_id : option Z;
  shop_deleted_at : option Z
}.

Record user_row := {
  user_id : Z;
  user_role : option string;
  user_shop_id : option Z;
  user_deleted_at : option Z
}.

Record subscription := {
  owner_id : Z;
  status : string;
  current_period_start : tsval;
  current_period_end : tsval;
  grace_period_end : tsval;
  last_alert_sent_at : tsval;
  billing_provider : option string;
  plan_code : option string;
  paypal_subscription_id : option string;
  paypal_subscription_status : option string;
  pending_plan_code : option string;
  pending_plan_effective_at : tsval;
  updated_at : tsval
}.

(** The [metadata] blob of a ledger row, by the rail that wrote it. *)
Inductive payment_metadata :=
| MetaWebhook (eventType subscriptionId : string)
| MetaOrder (orderId : string) (captureId : option string)
| MetaManual (reportId : Z) (referenceText proofUrl : option string)
             (approvedBy : option Z).

(** [amount] keeps the decimal literal the provider sent ([Number(amount)]
    is not evaluated). *)
Record payment := {
  pay_owner_id : Z;
  provider : string;
  pay_status : string;
  amount : option string;
  pay_currency : option string;
  provider_payment_id : option string;
  metadata : payment_metadata;
  paid_at : Z
}.

Record manual_payment_report := {
  report_id : Z;
  report_owner_id : Z;
  report_amount : option string;
  report_currency : option string;
  reference_text : option string;
  proof_url : option string;
  report_status : string;
  approved_by : option Z;
  rejected_by : option Z;
  decided_at : option Z;
  report_updated_at : option Z
}.

Record notification := {
  notif_user_id : Z;
  notif_type : string;
  notif_status : string;
  notif_periodEnd : option Z;
  notif_graceEnd : option Z;
  notif_created_at : Z
}.

Record database := {
  barber_shops : list shop_row;
  users : list user_row;
  subscriptions : list subscription;
  payments : list payment;
  manual_payment_reports : list manual_payment_report;
  notifications : list notification
}.

Definition with_subscriptions (d : database) (s : list subscription) : database :=
  {| barber_shops := barber_shops d; users := users d; subscriptions := s;
     payments := payments d;
     manual_payment_reports := manual_payment_reports d;
     notifications := notifications d |}.

Definition with_payments (d : database) (p : list payment) : database :=
  {| barber_shops := barber_shops d; users := users d;
     subscriptions := subscriptions d; payments := p;
     manual_payment_reports := manual_payment_reports d;
     notifications := notifications d |}.

Definition with_reports (d : database) (r : list manual_payment_report) : database :=
  {| barber_shops := barber_shops d; users := users d;
     subscriptions := subscriptions d; payments := payments d;
     manual_payment_reports := r;
     notifications := notifications d |}.

Definition with_notifications (d : database) (n : list notification) : database :=
  {| barber_shops := barber_shops d; users := users d;
     subscriptions := subscriptions d; payments := payments d;
     manual_payment_reports := manual_payment_reports d;
     notifications := n |}.

(** [UPDATE subscriptions SET ... WHERE owner_id = $1]: [f] is the [SET]
    list. *)
Definition update_owner (ownerId : Z) (f : subscription -> subscription)
  (d : database) : database :=
  with_subscriptions d
    (map (fun r => if owner_id r =? ownerId then f r else r) (subscriptions d)).

(** [SELECT * FROM subscriptions WHERE owner_id = $1 LIMIT 1] *)
Definition select_owner (ownerId : Z) (d : database) : option subscription :=
  find (fun r => owner_id r =? ownerId) (subscriptions d).

(** ** [services/subscriptionService.js] *)

Definition parsePgTimestamp (v : tsval) : option Z :=
  match v with
  | TsNull => None
  | TsDate ms => Some ms
  | TsInvalid => None
  end.

Definition opt_eqb (a : option Z) (b : Z) : bool :=
  match a with
  | Some x => x =? b
  | None => false
  end.

Definition is_null {A} (a : option A) : bool :=
  match a with
  | Some _ => false
  | None => true
  end.

Definition role_is (r : option string) (want : string) : bool :=
  match r with
  | Some s => String.eqb (JS.toLowerCase s) want
  | None => false
  end.

Definition computeOwnerUsageCounts (d : database) (ownerId : Z) : usage_counts :=
  let owned := fun s => opt_eqb (shop_owner_id s) ownerId && is_null (shop_deleted_at s) in
  let shopIds := map shop_id (filter owned (barber_shops d)) in
  let in_shops := fun u =>
    match user_shop_id u with
    | Some sid => existsb (Z.eqb sid) shopIds
    | None => false
    end in
  let barbers :=
    match shopIds with
    | [] => 0
    | _ => Z.of_nat (List.length (filter
             (fun u => is_null (user_deleted_at u) && role_is (user_role u) "barber"
                       && in_shops u) (users d)))
    end in
  let ownerPro :=
    existsb (fun u => (user_id u =? ownerId) && is_null (user_deleted_at u)
                      && in_shops u) (users d) in
  {| shopCount := Z.of_nat (List.length shopIds);
     professionalCount := barbers + (if ownerPro then 1 else 0);
     barbersCount := barbers;
     ownerCountsAsProfessional := ownerPro |}.

(** Modelled from the spec: the DDL of [subscriptions] is not in the
    repository; the columns an [INSERT] does not list take [NULL]
    ("nullable unless billing_provider = paypal"). *)
Definition inserted_subscription (ownerId : Z) (st : string)
  (pstart pend gend : Z) : subscription :=
  {| owner_id := ownerId; status := st;
     current_period_start := TsDate pstart;
     current_period_end := TsDate pend;
     grace_period_end := TsDate gend;
     last_alert_sent_at := TsNull;
     billing_provider := None; plan_code := None;
     paypal_subscription_id := None; paypal_subscription_status := None;
     pending_plan_code := None; pending_plan_effective_at := TsNull;
     updated_at := TsNull |}.

(** [now] is the [new Date()] read when the row has to be created. *)
Definition getOrCreateOwnerSubscription (now : Z) (ownerId : Z) (d : database)
  : database * subscription :=
  match select_owner ownerId d with
  | Some r => (d, r)
  | None =>
      let periodEnd := now + 30 * DAY in
      let graceEnd := periodEnd + 5 * DAY in
      let r := inserted_subscription ownerId "active" now periodEnd graceEnd in
      (with_subscriptions d (subscriptions d ++ [r]), r)
  end.

Record subscription_state := {
  st_now : Z;
  periodEnd : option Z;
  graceEnd : option Z;
  isActive : bool;
  isInGrace : bool;
  isBlocked : bool
}.

Definition date_leb (now : Z) (d : option Z) : bool :=
  match d with
  | Some t => now <=? t
  | None => false
  end.

Definition computeSubscriptionState (now : Z) (row : subscription)
  : subscription_state :=
  let pe := parsePgTimestamp (current_period_end row) in
  let ge := parsePgTimestamp (grace_period_end row) in
  let active := negb (is_null pe) && date_leb now pe in
  let grace := negb active && negb (is_null ge) && date_leb now ge in
  let blocked := negb active && negb grace in
  {| st_now := now; periodEnd := pe; graceEnd := ge;
     isActive := active; isInGrace := grace; isBlocked := blocked |}.

(** A template literal with a date rendered as [YYYY-MM-DD] keeps the
    date; a plain message is its text. *)
Inductive message :=
| Msg (text : string)
| MsgSince (before : string) (date : Z) (after : string).

Record error_details := {
  det_ownerId : Z;
  det_periodEnd : option Z;
  det_graceEnd : option Z
}.

(** An [Error] with the [status] and [details] attached before [throw]. *)
Record js_error := {
  err_message : message;
  err_status : option Z;
  err_details : option error_details
}.

Inductive result (A : Type) :=
| Returns (a : A)
| Throws (e : js_error).
Arguments Returns {A} a.
Arguments Throws {A} e.

(** [toISOString().slice(0, 10)]: the UTC calendar day. *)
Definition dayKey (ms : Z) : Z := ms / DAY.

Definition same_day (last : option Z) (today : Z) : bool :=
  match last with
  | Some l => dayKey l =? dayKey today
  | None => false
  end.

(** [notifications.user_id INTEGER NOT NULL REFERENCES users(id)]
    ([server.js]): the row of a soft-deleted user still satisfies it. *)
Definition has_user (d : database) (userId : Z) : bool :=
  existsb (fun u => user_id u =? userId) (users d).

Definition quoted (s : string) : string :=
  String "034"%char s ++ String "034"%char EmptyString.

(** The error the driver raises for a statement the database refuses: an
    [Error] with the database's message and no [status]. *)
Definition foreign_key_error (table key : string) : js_error :=
  {| err_message :=
       Msg ("insert or update on table " ++ quoted table
            ++ " violates foreign key constraint " ++ quoted key);
     err_status := None; err_details := None |}.

(** [now] is read by the inner [computeSubscriptionState], [sql_now] is
    the [NOW()] of the statements. The [INSERT] comes first: when the
    owner has no row in [users] it raises and nothing is written. *)
Definition ensureDailySubscriptionExpiredNotification (now sql_now : Z)
  (ownerId : Z) (row : subscription) (d : database) : database * result unit :=
  let state := computeSubscriptionState now row in
  if is_null (periodEnd state) then (d, Returns tt)
  else if isActive state then (d, Returns tt)
  else if same_day (parsePgTimestamp (last_alert_sent_at row)) (st_now state)
  then (d, Returns tt)
  else if negb (has_user d ownerId) then
    (d, Throws (foreign_key_error "notifications" "notifications_user_id_fkey"))
  else
    let n := {| notif_user_id := ownerId; notif_type := "SUBSCRIPTION_EXPIRED";
                notif_status := "PENDING";
                notif_periodEnd := periodEnd state;
                notif_graceEnd := graceEnd state;
                notif_created_at := sql_now |} in
    let d1 := with_notifications d (notifications d ++ [n]) in
    (update_owner ownerId
      (fun r => {| owner_id := owner_id r; status := status r;
                   current_period_start := current_period_start r;
                   current_period_end := current_period_end r;
                   grace_period_end := grace_period_end r;
                   last_alert_sent_at := TsDate sql_now;
                   billing_provider := billing_provider r;
                   plan_code := plan_code r;
                   paypal_subscription_id := paypal_subscription_id r;
                   paypal_subscription_status := paypal_subscription_status r;
                   pending_plan_code := pending_plan_code r;
                   pending_plan_effective_at := pending_plan_effective_at r;
                   updated_at := TsDate sql_now |}) d1, Returns tt).

Record gate_pass := {
  gp_ownerId : Z;
  gp_subscription : subscription;
  gp_state : subscription_state
}.

(** The clock readings of one gate call, in the order they are taken. *)
Record gate_clock := {
  at_create : Z;
  at_state : Z;
  at_notify : Z;
  at_sql : Z
}.

Definition blocked_error (withDate without : string * string) (ownerId : Z)
  (state : subscription_state) : js_error :=
  {| err_message :=
       match graceEnd state with
       | Some g => MsgSince (fst withDate) g (snd withDate)
       | None => Msg (fst without)
       end;
     err_status := Some 402;
     err_details := Some {| det_ownerId := ownerId;
                            det_periodEnd := periodEnd state;
                            det_graceEnd := graceEnd state |} |}.

Definition plain_error (text : string) (st : Z) : js_error :=
  {| err_message := Msg text; err_status := Some st; err_details := None |}.

Definition enforceOwnerSubscriptionForManagement (c : gate_clock)
  (ownerId : option Z) (d : database) : database * result gate_pass :=
  match ownerId with
  | None => (d, Throws (plain_error "ownerId requerido" 400))
  | Some o =>
      let (d1, sub) := getOrCreateOwnerSubscription (at_create c) o d in
      let state := computeSubscriptionState (at_state c) sub in
      match ensureDailySubscriptionExpiredNotification
              (at_notify c) (at_sql c) o sub d1 with
      | (d2, Throws e) => (d2, Throws e)
      | (d2, Returns _) =>
        if isBlocked state then
          (d2, Throws (blocked_error
                         ("Tu plan está vencido. Renueva (bloqueado desde ", ").")
                         ("Tu plan está vencido. Renueva para continuar.", "")
                         o state))
        else
          (d2, Returns {| gp_ownerId := o; gp_subscription := sub;
                          gp_state := state |})
      end
  end.

Definition enforceShopSubscriptionForBooking (c : gate_clock)
  (shopId : Z) (d : database) : database * result gate_pass :=
  match find (fun s => (shop_id s =? shopId) && is_null (shop_deleted_at s))
             (barber_shops d) with
  | None => (d, Throws (plain_error "Barbería no encontrada" 404))
  | Some shop =>
      match shop_owner_id shop with
      | None => (d, Throws (plain_error "La barbería no tiene dueño asignado" 409))
      | Some o =>
          let (d1, sub) := getOrCreateOwnerSubscription (at_create c) o d in
          let state := computeSubscriptionState (at_state c) sub in
          match ensureDailySubscriptionExpiredNotification
                  (at_notify c) (at_sql c) o sub d1 with
          | (d2, Throws e) => (d2, Throws e)
          | (d2, Returns _) =>
            if isBlocked state then
              (d2, Throws (blocked_error
                   ("Este negocio tiene el plan vencido. El propietario debe renovar (bloqueado desde ", ").")
                   ("Este negocio tiene el plan vencido. El propietario debe renovar.", "")
                   o state))
            else
              (d2, Returns {| gp_ownerId := o; gp_subscription := sub;
                              gp_state := state |})
          end
      end
  end.

(** ** [controllers/subscriptionController.js]: configuration and provider *)

(** [process.env], the variables the controller reads. *)
Record environment := {
  PAYPAL_PLAN_ID_BASIC_1 : option string;
  PAYPAL_PLAN_ID_BASIC_2 : option string;
  PAYPAL_PLAN_ID_PRO : option string;
  PAYPAL_PLAN_ID_PREMIUM : option string;
  PAYPAL_WEBHOOK_ID : option string;
  PAYPAL_CLIENT_ID : option string;
  PAYPAL_CLIENT_SECRET : option string;
  PAYPAL_CURRENCY : option string
}.

Definition env_string (v : option string) : string := JS.trim (JS.to_string v).

Definition getPaypalPlanIdForCode (env : environment) (planCode : option string)
  : option string :=
  let c := JS.trim (JS.to_string planCode) in
  if negb (valid_plan_code c) then None
  else
    let v :=
      if String.eqb c "basic_1" then PAYPAL_PLAN_ID_BASIC_1 env
      else if String.eqb c "basic_2" then PAYPAL_PLAN_ID_BASIC_2 env
      else if String.eqb c "pro" then PAYPAL_PLAN_ID_PRO env
      else PAYPAL_PLAN_ID_PREMIUM env in
    JS.or_null (env_string v).

(** What a property read [obj[key]] on an object literal can give: the
    string stored under an own key, or a member the literal inherits from
    [Object.prototype]. *)
Inductive looked_up :=
| OwnCode (code : string)
| Inherited (member : string).

(** The members of [Object.prototype]; each is a function, except
    [__proto__], whose getter gives [Object.prototype] itself. All are
    truthy. *)
Definition Object_prototype : list string :=
  [ "constructor"; "__defineGetter__"; "__defineSetter__"; "hasOwnProperty";
    "__lookupGetter__"; "__lookupSetter__"; "isPrototypeOf";
    "propertyIsEnumerable"; "toString"; "valueOf"; "__proto__";
    "toLocaleString" ].

(** The text the driver binds for a query parameter: a string as it is, a
    function through [toString()], an object through [JSON.stringify]. *)
Definition sql_text (v : looked_up) : string :=
  match v with
  | OwnCode c => c
  | Inherited m =>
      if String.eqb m "__proto__" then "{}"
      else if String.eqb m "constructor" then "function Object() { [native code] }"
      else "function " ++ m ++ "() { [native code] }"
  end.

(** The object literal [reverse]: a later computed key overwrites an equal
    earlier one, so the lookup takes the last matching entry; a key that
    is not an own key is looked up in [Object.prototype]. *)
Definition getPlanCodeForPaypalPlanId (env : environment)
  (paypalPlanId : option string) : option looked_up :=
  let pid := JS.trim (JS.to_string paypalPlanId) in
  if String.eqb pid "" then None
  else
    let reverse :=
      [ (env_string (PAYPAL_PLAN_ID_BASIC_1 env), "basic_1");
        (env_string (PAYPAL_PLAN_ID_BASIC_2 env), "basic_2");
        (env_string (PAYPAL_PLAN_ID_PRO env), "pro");
        (env_string (PAYPAL_PLAN_ID_PREMIUM env), "premium") ] in
    match find (fun kv => String.eqb (fst kv) pid) (rev reverse) with
    | Some kv => Some (OwnCode (snd kv))
    | None =>
        if existsb (String.eqb pid) Object_prototype
        then Some (Inherited pid)
        else None
    end.

(** What [fetch] gave: [res.ok] and the parsed JSON body, [None] when
    [res.json()] failed. *)
Record fetch_reply (A : Type) := {
  ok : bool;
  data : option A
}.
Arguments ok {A} f.
Arguments data {A} f.

Record token_data := {
  access_token : option string;
  error_description : option string;
  token_message : option string
}.

(** The body of a provider subscription ([links] reduced to the [href] of
    the first link whose [rel] is [approve]). *)
Record paypal_subscription := {
  pp_id : option string;
  pp_status : option string;
  pp_plan_id : option string;
  pp_approve_href : option string;
  pp_next_billing_time : tsval;
  pp_message : option string
}.

Definition field {A B} (d : option A) (f : A -> option B) : option B :=
  match d with
  | Some x => f x
  | None => None
  end.

Definition upstream_error {A} (d : option A) (msg : A -> option string)
  (fallback : string) : js_error :=
  {| err_message := Msg (match JS.or_else (field d msg) None with
                         | Some m => m
                         | None => fallback
                         end);
     err_status := Some 502;
     err_details := None |}.

Definition assertPaypalConfigured (env : environment) : result unit :=
  if negb (JS.truthy (PAYPAL_CLIENT_ID env)) || negb (JS.truthy (PAYPAL_CLIENT_SECRET env))
  then Throws (plain_error
    "PayPal no está configurado (faltan PAYPAL_CLIENT_ID / PAYPAL_CLIENT_SECRET)" 500)
  else Returns tt.

Definition getPaypalAccessToken (env : environment) (r : fetch_reply token_data)
  : result string :=
  match assertPaypalConfigured env with
  | Throws e => Throws e
  | Returns _ =>
      if negb (ok r) then
        Throws (upstream_error (data r)
                  (fun t => JS.or_else (error_description t) (token_message t))
                  "Error obteniendo access token PayPal")
      else
        match JS.or_else (field (data r) access_token) None with
        | Some t => Returns t
        | None => Throws (plain_error
                    "Respuesta inválida de PayPal (sin access_token)" 502)
        end
  end.

(** ** HTTP requests and responses *)

Record auth_user := {
  userId : option Z;
  role : option string
}.

Definition normalizeRole (r : option string) : string :=
  JS.toLowerCase (JS.to_string r).

Definition user_role_of (u : option auth_user) : string :=
  normalizeRole (field u role).

(** [!ownerId]: absent or [0]. *)
Definition authenticated (u : option auth_user) : option Z :=
  match field u userId with
  | Some 0 => None
  | Some i => Some i
  | None => None
  end.

Definition may_pay (u : option auth_user) : bool :=
  JS.includes (user_role_of u) "admin" || JS.includes (user_role_of u) "owner".

Definition requireAdmin (u : option auth_user) : result unit :=
  if negb (JS.includes (user_role_of u) "admin")
  then Throws (plain_error "Acceso denegado: solo admin" 403)
  else Returns tt.

Inductive body :=
| BodyMessage (m : message)
| BodyReceived (renewed : option bool)
| BodySuccess
| BodyApproval (id approvalUrl : string)
| BodyCaptured (sub : option subscription)
| BodyReport (r : option manual_payment_report) (sub : option (option subscription)).

Record response := {
  http_status : Z;
  res_body : body
}.

Definition json (b : body) : response := {| http_status := 200; res_body := b |}.

Definition reply (st : Z) (text : string) : response :=
  {| http_status := st; res_body := BodyMessage (Msg text) |}.

(** The [catch] block of every handler:
    [res.status(error.status || 500).json({ message: error.message })]. *)
Definition catch_reply (e : js_error) : response :=
  {| http_status := match err_status e with
                    | Some 0 => 500
                    | Some s => s
                    | None => 500
                    end;
     res_body := BodyMessage (err_message e) |}.

(** ** The renewal operation *)

(** The clock readings of one renewal: [new Date()] of the lazy creation,
    [new Date()] of the renewal, [NOW()] of its [UPDATE]. *)
Record renew_clock := {
  rn_create : Z;
  rn_now : Z;
  rn_sql : Z
}.

(** [currentEnd && currentEnd > now ? currentEnd : now]; an invalid date
    compares false. *)
Definition renewal_start (now : Z) (currentEnd : tsval) : Z :=
  match currentEnd with
  | TsDate e => if now <? e then e else now
  | TsNull => now
  | TsInvalid => now
  end.

(** [COALESCE($n, plan_code)] *)
Definition coalesce (v old : option string) : option string :=
  match v with
  | Some c => Some c
  | None => old
  end.

Definition set_renewed (start : Z) (planCode : option string) (sql_now : Z)
  (r : subscription) : subscription :=
  {| owner_id := owner_id r; status := "active";
     current_period_start := TsDate start;
     current_period_end := TsDate (start + 30 * DAY);
     grace_period_end := TsDate (start + 30 * DAY + 5 * DAY);
     last_alert_sent_at := last_alert_sent_at r;
     billing_provider := billing_provider r;
     plan_code := coalesce planCode (plan_code r);
     paypal_subscription_id := paypal_subscription_id r;
     paypal_subscription_status := paypal_subscription_status r;
     pending_plan_code := pending_plan_code r;
     pending_plan_effective_at := pending_plan_effective_at r;
     updated_at := TsDate sql_now |}.

(** [sub.pending_plan_code || sub.plan_code || pricing.tier.code || null] *)
Definition renewal_plan_code (sub : subscription) (p : pricing) : option string :=
  JS.or_else (pending_plan_code sub)
    (JS.or_else (plan_code sub)
       (JS.or_else (option_map code (tier p)) None)).

(** The controller with the recurring rail. [RETURNING *] is read back as
    the first row of the owner. *)
Definition renewSubscription30Days (c : renew_clock) (ownerId : Z) (d : database)
  : database * option subscription :=
  let (d1, sub) := getOrCreateOwnerSubscription (rn_create c) ownerId d in
  let usage := computeOwnerUsageCounts d1 ownerId in
  let pricing := computeMonthlyPriceDop usage in
  let planCode := renewal_plan_code sub pricing in
  let start := renewal_start (rn_now c) (current_period_end sub) in
  let d2 := update_owner ownerId (set_renewed start planCode (rn_sql c)) d1 in
  (d2, select_owner ownerId d2).

Module Legacy.

(** [src/controllers/subscriptionController.js], the controller without
    the recurring rail: the renewal does not write [plan_code]. *)
Definition renewSubscription30Days (c : renew_clock) (ownerId : Z) (d : database)
  : database * option subscription :=
  let (d1, sub) := getOrCreateOwnerSubscription (rn_create c) ownerId d in
  let start := renewal_start (rn_now c) (current_period_end sub) in
  let d2 := update_owner ownerId (set_renewed start None (rn_sql c)) d1 in
  (d2, select_owner ownerId d2).

End Legacy.

(** ** Recurring rail: create and confirm *)

Definition set_pending (sid : string) (st : string) (planCode : string) (sql_now : Z)
  (r : subscription) : subscription :=
  {| owner_id := owner_id r; status := status r;
     current_period_start := current_period_start r;
     current_period_end := current_period_end r;
     grace_period_end := grace_period_end r;
     last_alert_sent_at := last_alert_sent_at r;
     billing_provider := Some "paypal";
     plan_code := plan_code r;
     paypal_subscription_id := Some sid;
     paypal_subscription_status := Some st;
     pending_plan_code := Some planCode;
     pending_plan_effective_at := TsNull;
     updated_at := TsDate sql_now |}.

Record create_request := {
  cr_user : option auth_user;
  cr_planCode : option string;
  cr_token : fetch_reply token_data;
  cr_created : fetch_reply paypal_subscription;
  cr_now : Z;
  cr_sql : Z
}.

Definition over_limit_message : string :=
  "Tu cuenta excede los límites del plan. Ajusta negocios/profesionales o contacta al administrador.".

Definition paypalCreateSubscription (env : environment) (q : create_request)
  (d : database) : database * response :=
  match authenticated (cr_user q) with
  | None => (d, reply 401 "Authentication required")
  | Some ownerId =>
    if negb (may_pay (cr_user q)) then (d, reply 403 "Acceso denegado") else
    let c := JS.trim (JS.to_string (cr_planCode q)) in
    if negb (valid_plan_code c) then (d, reply 400 "planCode inválido") else
    match getPaypalPlanIdForCode env (Some c) with
    | None => (d, reply 500 ("Falta configurar PAYPAL_PLAN_ID_* para planCode=" ++ c))
    | Some planId =>
      let usage := computeOwnerUsageCounts d ownerId in
      let pricing := computeMonthlyPriceDop usage in
      if isOverLimit pricing then (d, reply 400 over_limit_message) else
      if match tier pricing with
         | Some t => (shops (tier_limits t) <? shopCount usage)
                     || (professionals (tier_limits t) <? professionalCount usage)
         | None => false
         end
      then (d, reply 400
              "Tu uso actual excede el plan seleccionado. Elige un plan superior.")
      else
      match getPaypalAccessToken env (cr_token q) with
      | Throws e => (d, catch_reply e)
      | Returns _ =>
        if negb (ok (cr_created q)) then
          (d, catch_reply (upstream_error (data (cr_created q)) pp_message
                             "Error creando suscripción de PayPal"))
        else
        match JS.or_else (field (data (cr_created q)) pp_id) None,
              JS.or_else (field (data (cr_created q)) pp_approve_href) None with
        | Some sid, Some url =>
            let (d1, _) := getOrCreateOwnerSubscription (cr_now q) ownerId d in
            let d2 := update_owner ownerId
                        (set_pending sid
                           (JS.to_string (field (data (cr_created q)) pp_status))
                           c (cr_sql q)) d1 in
            (d2, json (BodyApproval sid url))
        | _, _ => (d, reply 502 "Respuesta inválida de PayPal creando suscripción")
        end
      end
    end
  end.

Record confirm_request := {
  cf_user : option auth_user;
  cf_subscriptionId : option string;
  cf_token : fetch_reply token_data;
  cf_fetched : fetch_reply paypal_subscription;
  cf_create : Z;
  cf_now : Z;
  cf_sql : Z
}.

(** The [UPDATE] of the branch [status !== 'ACTIVE']. *)
Definition set_provider_status (st : string) (sql_now : Z) (r : subscription)
  : subscription :=
  {| owner_id := owner_id r; status := status r;
     current_period_start := current_period_start r;
     current_period_end := current_period_end r;
     grace_period_end := grace_period_end r;
     last_alert_sent_at := last_alert_sent_at r;
     billing_provider := Some "paypal";
     plan_code := plan_code r;
     paypal_subscription_id := paypal_subscription_id r;
     paypal_subscription_status := Some st;
     pending_plan_code := pending_plan_code r;
     pending_plan_effective_at := pending_plan_effective_at r;
     updated_at := TsDate sql_now |}.

(** The [UPDATE] of the branch [status === 'ACTIVE']. *)
Definition set_confirmed (resolved : option string) (st : string)
  (now pend sql_now : Z) (r : subscription) : subscription :=
  {| owner_id := owner_id r; status := "active";
     current_period_start := TsDate now;
     current_period_end := TsDate pend;
     grace_period_end := TsDate (pend + 5 * DAY);
     last_alert_sent_at := last_alert_sent_at r;
     billing_provider := Some "paypal";
     plan_code := coalesce resolved (plan_code r);
     paypal_subscription_id := paypal_subscription_id r;
     paypal_subscription_status := Some st;
     pending_plan_code := None;
     pending_plan_effective_at := TsNull;
     updated_at := TsDate sql_now |}.

(** [String(ppData?.status || '').toUpperCase()] *)
Definition provider_status (f : fetch_reply paypal_subscription) : string :=
  JS.toUpperCase (JS.to_string (field (data f) pp_status)).

Definition paypalConfirmSubscription (env : environment) (q : confirm_request)
  (d : database) : database * response :=
  match authenticated (cf_user q) with
  | None => (d, reply 401 "Authentication required")
  | Some ownerId =>
    if negb (may_pay (cf_user q)) then (d, reply 403 "Acceso denegado") else
    match JS.or_else (cf_subscriptionId q) None with
    | None => (d, reply 400 "subscriptionId requerido")
    | Some subscriptionId =>
      match getPaypalAccessToken env (cf_token q) with
      | Throws e => (d, catch_reply e)
      | Returns _ =>
        if negb (ok (cf_fetched q)) then
          (d, catch_reply (upstream_error (data (cf_fetched q)) pp_message
                             "Error consultando suscripción de PayPal"))
        else
        let st := provider_status (cf_fetched q) in
        if String.eqb st "" then (d, reply 502 "Respuesta inválida de PayPal") else
        let planCodeFromPaypal :=
          getPlanCodeForPaypalPlanId env (field (data (cf_fetched q)) pp_plan_id) in
        let (d1, sub) := getOrCreateOwnerSubscription (cf_create q) ownerId d in
        if negb (String.eqb (JS.to_string (paypal_subscription_id sub)) subscriptionId)
        then (d, reply 400 "subscriptionId no coincide con el owner")
        else if negb (String.eqb st "ACTIVE") then
          (update_owner ownerId (set_provider_status st (cf_sql q)) d1,
           json BodySuccess)
        else
          let resolved :=
            match planCodeFromPaypal with
            | Some v => Some (sql_text v)
            | None =>
                JS.or_else (pending_plan_code sub)
                  (JS.or_else (plan_code sub) None)
            end in
          let pend :=
            match field (data (cf_fetched q))
                        (fun p => Some (pp_next_billing_time p)) with
            | Some (TsDate t) => t
            | _ => cf_now q + 30 * DAY
            end in
          (update_owner ownerId
             (set_confirmed resolved st (cf_now q) pend (cf_sql q)) d1,
           json BodySuccess)
      end
    end
  end.

(** ** Recurring rail: webhook *)

Record webhook_headers := {
  transmission_id : option string;
  transmission_time : option string;
  transmission_sig : option string;
  cert_url : option string;
  auth_algo : option string
}.

Record verify_data := {
  verification_status : option string;
  verify_message : option string
}.

Definition verifyPaypalWebhookSignature (env : environment)
  (h : webhook_headers) (tok : fetch_reply token_data)
  (r : fetch_reply verify_data) : result bool :=
  if String.eqb (env_string (PAYPAL_WEBHOOK_ID env)) "" then
    Throws (plain_error
      "Falta PAYPAL_WEBHOOK_ID para verificar webhooks de PayPal" 500)
  else if negb (JS.truthy (transmission_id h) && JS.truthy (transmission_time h)
                && JS.truthy (transmission_sig h) && JS.truthy (cert_url h)
                && JS.truthy (auth_algo h)) then
    Throws (plain_error "Headers de webhook PayPal incompletos" 400)
  else
    match getPaypalAccessToken env tok with
    | Throws e => Throws e
    | Returns _ =>
        if negb (ok r) then
          Throws (upstream_error (data r) verify_message
                    "No se pudo verificar firma de webhook PayPal")
        else
          Returns (String.eqb
                     (JS.toUpperCase (JS.to_string (field (data r) verification_status)))
                     "SUCCESS")
    end.

(** [event.resource], the fields the handler reads ([amount.*] flattened;
    a time is [TsNull] when absent and [TsInvalid] when it does not parse). *)
Record webhook_resource := {
  billing_agreement_id : option string;
  res_id : option string;
  subscription_id : option string;
  sale_id : option string;
  transaction_id : option string;
  res_status : option string;
  amount_total : option string;
  amount_value : option string;
  amount_amount : option string;
  amount_currency : option string;
  amount_currency_code : option string;
  amount_currencyCode : option string;
  res_time : tsval;
  res_create_time : tsval
}.

Record webhook_request := {
  wh_headers : webhook_headers;
  wh_event_type : option string;
  wh_resource : option webhook_resource;
  wh_verify_token : fetch_reply token_data;
  wh_verify : fetch_reply verify_data;
  wh_sync_token : fetch_reply token_data;
  wh_sync : fetch_reply paypal_subscription;
  wh_renew : renew_clock;
  wh_now : Z
}.

Definition isPaymentSuccessEvent (eventType : string) : bool :=
  String.eqb eventType "BILLING.SUBSCRIPTION.PAYMENT.SUCCEEDED"
  || String.eqb eventType "PAYMENT.CAPTURE.COMPLETED"
  || String.eqb eventType "PAYMENT.SALE.COMPLETED"
  || (JS.includes eventType "PAYMENT"
      && negb (JS.includes eventType "FAILED")
      && negb (JS.includes eventType "DENIED")
      && negb (JS.includes eventType "REVERSED")
      && negb (JS.includes eventType "REFUNDED")).

Definition set_plan_code (pc : option string) (sql_now : Z) (r : subscription)
  : subscription :=
  {| owner_id := owner_id r; status := status r;
     current_period_start := current_period_start r;
     current_period_end := current_period_end r;
     grace_period_end := grace_period_end r;
     last_alert_sent_at := last_alert_sent_at r;
     billing_provider := billing_provider r;
     plan_code := coalesce pc (plan_code r);
     paypal_subscription_id := paypal_subscription_id r;
     paypal_subscription_status := paypal_subscription_status r;
     pending_plan_code := pending_plan_code r;
     pending_plan_effective_at := pending_plan_effective_at r;
     updated_at := TsDate sql_now |}.

Definition set_active_paypal (sql_now : Z) (r : subscription) : subscription :=
  {| owner_id := owner_id r; status := "active";
     current_period_start := current_period_start r;
     current_period_end := current_period_end r;
     grace_period_end := grace_period_end r;
     last_alert_sent_at := last_alert_sent_at r;
     billing_provider := Some "paypal";
     plan_code := plan_code r;
     paypal_subscription_id := paypal_subscription_id r;
     paypal_subscription_status := paypal_subscription_status r;
     pending_plan_code := pending_plan_code r;
     pending_plan_effective_at := pending_plan_effective_at r;
     updated_at := TsDate sql_now |}.

(** [a || b] on two times. *)
Definition ts_or (a b : tsval) : tsval :=
  match a with
  | TsNull => b
  | _ => a
  end.

(** [paidAt ? new Date(paidAt).toISOString() : new Date().toISOString()];
    [toISOString] of an invalid date throws a [RangeError]. *)
Definition paid_at_of (paidAt : tsval) (now : Z) : result Z :=
  match paidAt with
  | TsNull => Returns now
  | TsDate ms => Returns ms
  | TsInvalid => Throws {| err_message := Msg "Invalid time value";
                           err_status := None; err_details := None |}
  end.

Definition opt_string_eqb (a : option string) (b : string) : bool :=
  match a with
  | Some x => String.eqb x b
  | None => false
  end.

(** [SELECT 1 FROM payments WHERE provider = $p AND provider_payment_id = $1] *)
Definition payment_exists (prov tx : string) (d : database) : bool :=
  existsb (fun p => String.eqb (provider p) prov
                    && opt_string_eqb (provider_payment_id p) tx) (payments d).

Definition insert_payment (p : payment) (d : database) : database :=
  with_payments d (payments d ++ [p]).

Definition is_some {A} (a : option A) : bool := negb (is_null a).

(** [resource?.billing_agreement_id || resource?.id ||
    resource?.subscription_id || null] *)
Definition webhook_subscriptionId (res : option webhook_resource) : option string :=
  JS.or_else (field res billing_agreement_id)
    (JS.or_else (field res res_id)
       (JS.or_else (field res subscription_id) None)).

(** [resource?.id || resource?.sale_id || resource?.transaction_id || null] *)
Definition webhook_transactionId (res : option webhook_resource) : option string :=
  JS.or_else (field res res_id)
    (JS.or_else (field res sale_id)
       (JS.or_else (field res transaction_id) None)).

(** What a payment event syncs from the provider: the value the reverse
    table gives for the re-fetched [plan_id], when the token exchange and
    the re-fetch succeed (a failure is caught and ignored). *)
Definition webhook_synced_plan (env : environment) (q : webhook_request)
  : option looked_up :=
  match getPaypalAccessToken env (wh_sync_token q) with
  | Throws _ => None
  | Returns _ =>
      if ok (wh_sync q)
      then getPlanCodeForPaypalPlanId env (field (data (wh_sync q)) pp_plan_id)
      else None
  end.

Definition paypalWebhook (env : environment) (q : webhook_request) (d : database)
  : database * response :=
  match verifyPaypalWebhookSignature env (wh_headers q) (wh_verify_token q)
          (wh_verify q) with
  | Throws e => (d, catch_reply e)
  | Returns false => (d, reply 400 "Firma de webhook inválida")
  | Returns true =>
    let eventType := JS.toUpperCase (JS.to_string (wh_event_type q)) in
    let res := wh_resource q in
    let subscriptionId := webhook_subscriptionId res in
    let transactionId := webhook_transactionId res in
    match subscriptionId with
    | None => (d, json (BodyReceived None))
    | Some sid =>
      match find (fun r => opt_string_eqb (paypal_subscription_id r) sid)
                 (subscriptions d) with
      | None => (d, json (BodyReceived None))
      | Some subRow =>
        let ownerId := owner_id subRow in
        let sql := rn_sql (wh_renew q) in
        let d1 :=
          if JS.startsWith eventType "BILLING.SUBSCRIPTION." then
            let newStatus :=
              match JS.or_null (JS.toUpperCase (JS.to_string (field res res_status))) with
              | Some s => s
              | None => eventType
              end in
            update_owner ownerId (set_provider_status newStatus sql) d
          else d in
        match (if isPaymentSuccessEvent eventType then transactionId else None) with
        | None => (d1, json (BodyReceived None))
        | Some tx =>
          let d2 :=
            match webhook_synced_plan env q with
            | Some pc => update_owner ownerId (set_plan_code (Some (sql_text pc)) sql) d1
            | None => d1
            end in
          if payment_exists "paypal_subscription" tx d2 then
            (d2, json (BodyReceived None))
          else
            let (d3, renewed) := renewSubscription30Days (wh_renew q) ownerId d2 in
            let amount :=
              JS.or_else (field res amount_total)
                (JS.or_else (field res amount_value)
                   (JS.or_else (field res amount_amount) None)) in
            let cur :=
              JS.or_else (field res amount_currency)
                (JS.or_else (field res amount_currency_code)
                   (JS.or_else (field res amount_currencyCode) None)) in
            let paidAt :=
              match res with
              | Some r => ts_or (res_time r) (res_create_time r)
              | None => TsNull
              end in
            match paid_at_of paidAt (wh_now q) with
            | Throws e => (d, catch_reply e)
            | Returns paid =>
              let row :=
                {| pay_owner_id := ownerId; provider := "paypal_subscription";
                   pay_status := "confirmed"; amount := amount;
                   pay_currency := option_map JS.toUpperCase cur;
                   provider_payment_id := Some tx;
                   metadata := MetaWebhook eventType sid;
                   paid_at := paid |} in
              let d4 := insert_payment row d3 in
              let d5 := update_owner ownerId (set_active_paypal sql) d4 in
              (d5, json (BodyReceived (Some (is_some renewed))))
            end
        end
      end
    end
  end.

(** ** One-off order rail: capture *)

(** [ppData.purchase_units[0].payments.captures[0]] *)
Record capture_data := {
  cap_id : option string;
  cap_amount_value : option string;
  cap_currency_code : option string;
  cap_create_time : tsval
}.

Record order_data := {
  ord_status : option string;
  ord_capture : option capture_data;
  ord_message : option string
}.

Record capture_request := {
  cp_user : option auth_user;
  cp_orderId : option string;
  cp_token : fetch_reply token_data;
  cp_captured : fetch_reply order_data;
  cp_renew : renew_clock;
  cp_now : Z
}.

Definition paypalCaptureOrder (env : environment) (q : capture_request)
  (d : database) : database * response :=
  match authenticated (cp_user q) with
  | None => (d, reply 401 "Authentication required")
  | Some ownerId =>
    if negb (may_pay (cp_user q)) then (d, reply 403 "Acceso denegado") else
    match JS.or_else (cp_orderId q) None with
    | None => (d, reply 400 "orderId requerido")
    | Some orderId =>
      match getPaypalAccessToken env (cp_token q) with
      | Throws e => (d, catch_reply e)
      | Returns _ =>
        if negb (ok (cp_captured q)) then
          (d, catch_reply (upstream_error (data (cp_captured q)) ord_message
                             "Error capturando orden de PayPal"))
        else
        let st := JS.toUpperCase (JS.to_string (field (data (cp_captured q)) ord_status)) in
        if negb (String.eqb st "COMPLETED") then
          (d, reply 400 ("Pago no completado (status="
                         ++ (if String.eqb st "" then "N/A" else st) ++ ")"))
        else
        let capture := field (data (cp_captured q)) ord_capture in
        let captureId := JS.or_else (field capture cap_id) None in
        let amount := JS.or_else (field capture cap_amount_value) None in
        let cur :=
          match JS.or_else (field capture cap_currency_code) None with
          | Some c => c
          | None => JS.toUpperCase
                      (match JS.or_else (PAYPAL_CURRENCY env) None with
                       | Some c => c
                       | None => "DOP"
                       end)
          end in
        let paidAt :=
          match capture with
          | Some c => cap_create_time c
          | None => TsNull
          end in
        let (d1, renewed) := renewSubscription30Days (cp_renew q) ownerId d in
        match paid_at_of paidAt (cp_now q) with
        | Throws e => (d, catch_reply e)
        | Returns paid =>
          let row :=
            {| pay_owner_id := ownerId; provider := "paypal";
               pay_status := "confirmed"; amount := amount;
               pay_currency := Some cur;
               provider_payment_id :=
                 Some (match captureId with
                       | Some c => c
                       | None => orderId
                       end);
               metadata := MetaOrder orderId captureId;
               paid_at := paid |} in
          (insert_payment row d1, json (BodyCaptured renewed))
        end
      end
    end
  end.

(** ** Manual-transfer rail: the decision of a report *)

Record decision_request := {
  dc_user : option auth_user;
  dc_id : Z;
  dc_renew : renew_clock
}.

(** [SELECT * FROM manual_payment_reports WHERE id = $1 FOR UPDATE] *)
Definition select_report (id : Z) (d : database) : option manual_payment_report :=
  find (fun r => report_id r =? id) (manual_payment_reports d).

Definition update_report (id : Z)
  (f : manual_payment_report -> manual_payment_report) (d : database) : database :=
  with_reports d
    (map (fun r => if report_id r =? id then f r else r) (manual_payment_reports d)).

Definition set_approved (by_ : option Z) (sql_now : Z) (r : manual_payment_report)
  : manual_payment_report :=
  {| report_id := report_id r; report_owner_id := report_owner_id r;
     report_amount := report_amount r; report_currency := report_currency r;
     reference_text := reference_text r; proof_url := proof_url r;
     report_status := "approved";
     approved_by := by_; rejected_by := rejected_by r;
     decided_at := Some sql_now; report_updated_at := Some sql_now |}.

Definition set_rejected (by_ : option Z) (sql_now : Z) (r : manual_payment_report)
  : manual_payment_report :=
  {| report_id := report_id r; report_owner_id := report_owner_id r;
     report_amount := report_amount r; report_currency := report_currency r;
     reference_text := reference_text r; proof_url := proof_url r;
     report_status := "rejected";
     approved_by := approved_by r; rejected_by := by_;
     decided_at := Some sql_now; report_updated_at := Some sql_now |}.

Definition is_pending (r : manual_payment_report) : bool :=
  String.eqb (JS.toLowerCase (report_status r)) "pending".

Definition approveManualPaymentReport (q : decision_request) (d : database)
  : database * response :=
  match requireAdmin (dc_user q) with
  | Throws e => (d, catch_reply e)
  | Returns _ =>
    let requesterId := field (dc_user q) userId in
    match select_report (dc_id q) d with
    | None => (d, reply 404 "Reporte no encontrado")
    | Some report =>
      if negb (is_pending report) then (d, reply 400 "Este reporte ya fue procesado")
      else
        let ownerId := report_owner_id report in
        let sql := rn_sql (dc_renew q) in
        let (d1, renewed) := renewSubscription30Days (dc_renew q) ownerId d in
        let row :=
          {| pay_owner_id := ownerId; provider := "manual";
             pay_status := "confirmed"; amount := report_amount report;
             pay_currency := report_currency report;
             provider_payment_id := None;
             metadata := MetaManual (report_id report) (reference_text report)
                           (proof_url report) requesterId;
             paid_at := sql |} in
        let d2 := insert_payment row d1 in
        let d3 := update_report (dc_id q) (set_approved requesterId sql) d2 in
        (d3, json (BodyReport (select_report (dc_id q) d3) (Some renewed)))
    end
  end.

Definition rejectManualPaymentReport (q : decision_request) (d : database)
  : database * response :=
  match requireAdmin (dc_user q) with
  | Throws e => (d, catch_reply e)
  | Returns _ =>
    let requesterId := field (dc_user q) userId in
    match select_report (dc_id q) d with
    | None => (d, reply 404 "Reporte no encontrado")
    | Some report =>
      if negb (is_pending report) then (d, reply 400 "Este reporte ya fue procesado")
      else
        let sql := rn_sql (dc_renew q) in
        let d1 := update_report (dc_id q) (set_rejected requesterId sql) d in
        (d1, json (BodyReport (select_report (dc_id q) d1) None))
    end
  end.

(** ** Vocabulary of the properties *)

(** A tier accommodates a usage when both counts are within its limits. *)
Definition fits (s p : Z) (t : plan_tier) : Prop :=
  s <= shops (tier_limits t) /\ p <= professionals (tier_limits t).

(** A subscription row with the given boundaries and nothing else set. *)
Definition row_with (owner : Z) (pend gend : tsval) : subscription :=
  {| owner_id := owner; status := "active";
     current_period_start := TsNull;
     current_period_end := pend;
     grace_period_end := gend;
     last_alert_sent_at := TsNull;
     billing_provider := None; plan_code := None;
     paypal_subscription_id := None; paypal_subscription_status := None;
     pending_plan_code := None; pending_plan_effective_at := TsNull;
     updated_at := TsNull |}.

(** What a gate call must give for owner [o], the row [sub] it fetched or
    created and the state [st] derived from it: a thrown error with status
    402 and the owner id and both boundaries as details when [st] is
    Blocked, the triple [{ownerId, subscription, state}] otherwise. *)
Definition gate_outcome (o : Z) (sub : subscription) (st : subscription_state)
  (res : result gate_pass) : Prop :=
  if isBlocked st then
    exists m, res = Throws {| err_message := m; err_status := Some 402;
                              err_details :=
                                Some {| det_ownerId := o;
                                        det_periodEnd := periodEnd st;
                                        det_graceEnd := graceEnd st |} |}
  else
    (isActive st = true \/ isInGrace st = true)
    /\ res = Returns {| gp_ownerId := o; gp_subscription := sub; gp_state := st |}.

(** The shop a booking names resolves to owner [o]. *)
Definition shop_resolves (d : database) (shopId o : Z) : Prop :=
  exists shop,
    find (fun s => (shop_id s =? shopId) && is_null (shop_deleted_at s))
         (barber_shops d) = Some shop
    /\ shop_owner_id shop = Some o.

(** The resource carries no subscription identifier: none of the three
    fields the handler reads is a non-empty string. *)
Definition no_subscription_identifier (res : option webhook_resource) : Prop :=
  forall r, res = Some r ->
    JS.truthy (billing_agreement_id r) = false
    /\ JS.truthy (res_id r) = false
    /\ JS.truthy (subscription_id r) = false.

(** The identifier [sid] is the one the resource carries and no stored row
    has it as [paypal_subscription_id]. *)
Definition unknown_subscription (res : option webhook_resource) (d : database) : Prop :=
  exists sid, webhook_subscriptionId res = Some sid
              /\ forall r, In r (subscriptions d) ->
                           paypal_subscription_id r <> Some sid.

(** [r'] is [r] up to the provider linkage the status sync writes
    ([paypal_subscription_status], [billing_provider], [updated_at]). *)
Definition same_but_provider_status (r r' : subscription) : Prop :=
  owner_id r' = owner_id r
  /\ plan_code r' = plan_code r
  /\ pending_plan_code r' = pending_plan_code r
  /\ current_period_start r' = current_period_start r
  /\ current_period_end r' = current_period_end r
  /\ grace_period_end r' = grace_period_end r
  /\ status r' = status r
  /\ pending_plan_effective_at r' = pending_plan_effective_at r
  /\ paypal_subscription_id r' = paypal_subscription_id r
  /\ last_alert_sent_at r' = last_alert_sent_at r.

(** The plan code a renewal leaves on a row [s], by priority: the pending
    plan code, then the plan code already on the row, then the code of the
    tier the usage selects; with none of them the column keeps its value. *)
Definition resolved_plan_code (s : subscription) (usage_tier : option plan_tier)
  : option string :=
  if JS.truthy (pending_plan_code s) then pending_plan_code s
  else if JS.truthy (plan_code s) then plan_code s
  else match usage_tier with
       | Some t => Some (code t)
       | None => plan_code s
       end.

(** The same priority when the payment event has first synced the plan
    code from the provider: the synced code stands for the plan code of
    the row. *)
Definition resolved_after_sync (s : subscription) (synced : option string)
  (usage_tier : option plan_tier) : option string :=
  if JS.truthy (pending_plan_code s) then pending_plan_code s
  else match synced with
       | Some pc => Some pc
       | None => resolved_plan_code s usage_tier
       end.

(** The two decisions an admin takes on a manual report, and the handler,
    final status and deciding-admin column of each. *)
Inductive decision := Approve | Reject.

Definition decide (k : decision) : decision_request -> database -> database * response :=
  match k with
  | Approve => approveManualPaymentReport
  | Reject => rejectManualPaymentReport
  end.

Definition decided_status (k : decision) : string :=
  match k with
  | Approve => "approved"
  | Reject => "rejected"
  end.

Definition decided_by (k : decision) (r : manual_payment_report) : option Z :=
  match k with
  | Approve => approved_by r
  | Reject => rejected_by r
  end.

(** [r'] has the entitlement of [r]: the same owner, status, period
    boundaries and pending plan. *)
Definition same_period (r r' : subscription) : Prop :=
  owner_id r' = owner_id r
  /\ status r' = status r
  /\ current_period_start r' = current_period_start r
  /\ current_period_end r' = current_period_end r
  /\ grace_period_end r' = grace_period_end r
  /\ pending_plan_code r' = pending_plan_code r
  /\ paypal_subscription_id r' = paypal_subscription_id r.

(** ** Sample data *)

Module Sample.

Definition env : environment :=
  {| PAYPAL_PLAN_ID_BASIC_1 := Some "P-BASIC1";
     PAYPAL_PLAN_ID_BASIC_2 := Some "P-BASIC2";
     PAYPAL_PLAN_ID_PRO := Some "P-PRO";
     PAYPAL_PLAN_ID_PREMIUM := Some "P-PREMIUM";
     PAYPAL_WEBHOOK_ID := Some "WH-1";
     PAYPAL_CLIENT_ID := Some "client";
     PAYPAL_CLIENT_SECRET := Some "secret";
     PAYPAL_CURRENCY := Some "USD" |}.

Definition token : fetch_reply token_data :=
  {| ok := true;
     data := Some {| access_token := Some "A21AA"; error_description := None;
                     token_message := None |} |}.

Definition owner (id : Z) : option auth_user :=
  Some {| userId := Some id; role := Some "owner" |}.

Definition admin (id : Z) : option auth_user :=
  Some {| userId := Some id; role := Some "admin" |}.

Definition shop (id o : Z) : shop_row :=
  {| shop_id := id; shop_owner_id := Some o; shop_deleted_at := None |}.

Definition barber (id s : Z) : user_row :=
  {| user_id := id; user_role := Some "barber"; user_shop_id := Some s;
     user_deleted_at := None |}.

(** The account of an owner: a user who works in no shop. *)
Definition owner_account (id : Z) : user_row :=
  {| user_id := id; user_role := Some "owner"; user_shop_id := None;
     user_deleted_at := None |}.

(** Owner 1 runs two shops with five barbers: the usage of tier [pro]. *)
Definition shops_of_1 : list shop_row := [shop 10 1; shop 11 1].
Definition staff_of_1 : list user_row :=
  [barber 101 10; barber 102 10; barber 103 10; barber 104 11; barber 105 11].

(** A row of owner 1 paid until day 100, linked to the provider
    subscription [I-SUB1]. *)
Definition sub1 (plan pending : option string) : subscription :=
  {| owner_id := 1; status := "active";
     current_period_start := TsDate (70 * DAY);
     current_period_end := TsDate (100 * DAY);
     grace_period_end := TsDate (105 * DAY);
     last_alert_sent_at := TsNull;
     billing_provider := Some "paypal"; plan_code := plan;
     paypal_subscription_id := Some "I-SUB1";
     paypal_subscription_status := Some "APPROVAL_PENDING";
     pending_plan_code := pending; pending_plan_effective_at := TsNull;
     updated_at := TsNull |}.

Definition report1 : manual_payment_report :=
  {| report_id := 7; report_owner_id := 1;
     report_amount := Some "1500"; report_currency := Some "DOP";
     reference_text := Some "TRX-77"; proof_url := None;
     report_status := "pending";
     approved_by := None; rejected_by := None;
     decided_at := None; report_updated_at := None |}.

Definition db (plan pending : option string) : database :=
  {| barber_shops := shops_of_1; users := owner_account 1 :: staff_of_1;
     subscriptions := [sub1 plan pending];
     payments := [];
     manual_payment_reports := [report1];
     notifications := [] |}.

(** The same tables after the account of owner 1 is gone from [users]:
    [barber_shops.owner_id] is a plain [INTEGER], so the shops keep naming
    owner 1 ([scripts/resetDb.js] counts such shops). *)
Definition orphaned : database :=
  {| barber_shops := shops_of_1; users := staff_of_1;
     subscriptions := [sub1 None None];
     payments := [];
     manual_payment_reports := [report1];
     notifications := [] |}.

(** Readings of the clock on day 80, before the period end. *)
Definition clock (day : Z) : renew_clock :=
  {| rn_create := day * DAY; rn_now := day * DAY; rn_sql := day * DAY |}.

Definition headers : webhook_headers :=
  {| transmission_id := Some "t-1"; transmission_time := Some "2026-01-01T00:00:00Z";
     transmission_sig := Some "sig"; cert_url := Some "https://api.paypal.com/cert";
     auth_algo := Some "SHA256withRSA" |}.

Definition verified : fetch_reply verify_data :=
  {| ok := true;
     data := Some {| verification_status := Some "SUCCESS";
                     verify_message := None |} |}.

Definition provider_sub (st : string) (plan : option string)
  : fetch_reply paypal_subscription :=
  {| ok := true;
     data := Some {| pp_id := Some "I-SUB1"; pp_status := Some st;
                     pp_plan_id := plan;
                     pp_approve_href := Some "https://paypal.com/approve";
                     pp_next_billing_time := TsNull;
                     pp_message := None |} |}.

(** A sale of the subscription [agreement], transaction [SALE-1]. *)
Definition sale (agreement : option string) : webhook_resource :=
  {| billing_agreement_id := agreement; res_id := Some "SALE-1";
     subscription_id := None; sale_id := None; transaction_id := None;
     res_status := None;
     amount_total := Some "35.00"; amount_value := None; amount_amount := None;
     amount_currency := Some "usd"; amount_currency_code := None;
     amount_currencyCode := None;
     res_time := TsNull; res_create_time := TsDate (80 * DAY) |}.

Definition sale_event (res : option webhook_resource)
  (sync : fetch_reply paypal_subscription) : webhook_request :=
  {| wh_headers := headers;
     wh_event_type := Some "PAYMENT.SALE.COMPLETED";
     wh_resource := res;
     wh_verify_token := token; wh_verify := verified;
     wh_sync_token := token; wh_sync := sync;
     wh_renew := clock 80; wh_now := 80 * DAY |}.

Definition confirm (st : string) : confirm_request :=
  {| cf_user := owner 1; cf_subscriptionId := Some "I-SUB1";
     cf_token := token; cf_fetched := provider_sub st (Some "P-PRO");
     cf_create := 80 * DAY; cf_now := 80 * DAY; cf_sql := 80 * DAY |}.

Definition create (plan : string) : create_request :=
  {| cr_user := owner 1; cr_planCode := Some plan;
     cr_token := token;
     cr_created := {| ok := true;
                      data := Some {| pp_id := Some "I-NEW";
                                      pp_status := Some "APPROVAL_PENDING";
                                      pp_plan_id := None;
                                      pp_approve_href := Some "https://paypal.com/approve";
                                      pp_next_billing_time := TsNull;
                                      pp_message := None |} |};
     cr_now := 80 * DAY; cr_sql := 80 * DAY |}.

Definition capture : capture_request :=
  {| cp_user := owner 1; cp_orderId := Some "ORDER-1";
     cp_token := token;
     cp_captured :=
       {| ok := true;
          data := Some {| ord_status := Some "COMPLETED";
                          ord_capture :=
                            Some {| cap_id := Some "CAP-1";
                                    cap_amount_value := Some "35.00";
                                    cap_currency_code := Some "USD";
                                    cap_create_time := TsDate (80 * DAY) |};
                          ord_message := None |} |};
     cp_renew := clock 80; cp_now := 80 * DAY |}.

Definition decision (u : option auth_user) : decision_request :=
  {| dc_user := u; dc_id := 7; dc_renew := clock 80 |}.

Definition gate_at (day : Z) : gate_clock :=
  {| at_create := day * DAY; at_state := day * DAY; at_notify := day * DAY;
     at_sql := day * DAY |}.

End Sample.

(** * The rest of the controller and the callers of the gate *)

(** ** Recurring rail: cancel and change of plan *)

(** An element of the [availability] array of a request. *)
Record availability_item := {
  it_day : option string;
  it_startTime : option string;
  it_endTime : option string
}.

(** The body of an answer of the handlers below. *)
Inductive payload :=
| PMessage (m : message)
| PSuccess (approvalUrl : option string)
| PReport (r : option manual_payment_report)
| PSubscription (s : option subscription)
| PAvailability (barberId : Z) (items : list availability_item).

Record answer := {
  ans_status : Z;
  ans_payload : payload
}.

Definition say (st : Z) (text : string) : answer :=
  {| ans_status := st; ans_payload := PMessage (Msg text) |}.

(** [res.status(error.status || 500).json({ message: error.message })] *)
Definition catch_answer (e : js_error) : answer :=
  {| ans_status := http_status (catch_reply e);
     ans_payload := PMessage (err_message e) |}.

Record cancel_request := {
  cn_user : option auth_user;
  cn_token : fetch_reply token_data;
  cn_cancelled : fetch_reply paypal_subscription;
  cn_now : Z;
  cn_sql : Z
}.

Definition set_cancelled (sql_now : Z) (r : subscription) : subscription :=
  {| owner_id := owner_id r; status := status r;
     current_period_start := current_period_start r;
     current_period_end := current_period_end r;
     grace_period_end := grace_period_end r;
     last_alert_sent_at := last_alert_sent_at r;
     billing_provider := billing_provider r;
     plan_code := plan_code r;
     paypal_subscription_id := paypal_subscription_id r;
     paypal_subscription_status := Some "CANCELLED";
     pending_plan_code := pending_plan_code r;
     pending_plan_effective_at := pending_plan_effective_at r;
     updated_at := TsDate sql_now |}.

(** The handler opens no transaction: what [getOrCreateOwnerSubscription]
    inserted stays when the handler then fails. *)
Definition paypalCancelSubscription (env : environment) (q : cancel_request)
  (d : database) : database * answer :=
  match authenticated (cn_user q) with
  | None => (d, say 401 "Authentication required")
  | Some ownerId =>
    if negb (may_pay (cn_user q)) then (d, say 403 "Acceso denegado") else
    let (d1, sub) := getOrCreateOwnerSubscription (cn_now q) ownerId d in
    match JS.or_else (paypal_subscription_id sub) None with
    | None => (d1, say 400 "No hay suscripción PayPal activa")
    | Some _ =>
      match getPaypalAccessToken env (cn_token q) with
      | Throws e => (d1, catch_answer e)
      | Returns _ =>
        if negb (ok (cn_cancelled q)) then
          (d1, catch_answer (upstream_error (data (cn_cancelled q)) pp_message
                               "Error cancelando suscripción PayPal"))
        else
          (update_owner ownerId (set_cancelled (cn_sql q)) d1,
           {| ans_status := 200; ans_payload := PSuccess None |})
      end
    end
  end.

Record change_request := {
  ch_user : option auth_user;
  ch_planCode : option string;
  ch_token : fetch_reply token_data;
  ch_revised : fetch_reply paypal_subscription;
  ch_now : Z;
  ch_sql : Z
}.

Definition set_pending_plan (planCode : string) (sql_now : Z) (r : subscription)
  : subscription :=
  {| owner_id := owner_id r; status := status r;
     current_period_start := current_period_start r;
     current_period_end := current_period_end r;
     grace_period_end := grace_period_end r;
     last_alert_sent_at := last_alert_sent_at r;
     billing_provider := billing_provider r;
     plan_code := plan_code r;
     paypal_subscription_id := paypal_subscription_id r;
     paypal_subscription_status := paypal_subscription_status r;
     pending_plan_code := Some planCode;
     pending_plan_effective_at := TsNull;
     updated_at := TsDate sql_now |}.

Definition paypalChangeSubscriptionPlan (env : environment) (q : change_request)
  (d : database) : database * answer :=
  match authenticated (ch_user q) with
  | None => (d, say 401 "Authentication required")
  | Some ownerId =>
    if negb (may_pay (ch_user q)) then (d, say 403 "Acceso denegado") else
    let c := JS.trim (JS.to_string (ch_planCode q)) in
    if negb (valid_plan_code c) then (d, say 400 "planCode inválido") else
    match getPaypalPlanIdForCode env (Some c) with
    | None => (d, say 500 ("Falta configurar PAYPAL_PLAN_ID_* para planCode=" ++ c))
    | Some _ =>
      let (d1, sub) := getOrCreateOwnerSubscription (ch_now q) ownerId d in
      match JS.or_else (paypal_subscription_id sub) None with
      | None => (d1, say 400 "No hay suscripción PayPal existente para cambiar de plan")
      | Some _ =>
        match getPaypalAccessToken env (ch_token q) with
        | Throws e => (d1, catch_answer e)
        | Returns _ =>
          if negb (ok (ch_revised q)) then
            (d1, catch_answer (upstream_error (data (ch_revised q)) pp_message
                                 "Error cambiando plan de suscripción PayPal"))
          else
            (update_owner ownerId (set_pending_plan c (ch_sql q)) d1,
             {| ans_status := 200;
                ans_payload :=
                  PSuccess (JS.or_else (field (data (ch_revised q)) pp_approve_href)
                              None) |})
        end
      end
    end
  end.

(** ** Manual-transfer rail: the report, and the activation by an admin *)

(** The body of a report request; [ownerId] is absent, or a number.
    [rp_id] is the id the sequence of the table gives to the new row. *)
Record report_request := {
  rp_user : option auth_user;
  rp_ownerId : option Z;
  rp_amount : option string;
  rp_currency : option string;
  rp_reference : option string;
  rp_referenceText : option string;
  rp_reference_text : option string;
  rp_proofUrl : option string;
  rp_proof_url : option string;
  rp_id : Z;
  rp_now : Z;
  rp_sql : Z
}.

(** [a ?? b]: only an absent value gives way. *)
Definition nullish {A} (a b : option A) : option A :=
  match a with
  | Some _ => a
  | None => b
  end.

(** [!id] on a number that may be absent. *)
Definition truthy_id (a : option Z) : option Z :=
  match a with
  | Some 0 => None
  | _ => a
  end.

Definition set_pending_verification (sql_now : Z) (r : subscription) : subscription :=
  {| owner_id := owner_id r; status := "pending_verification";
     current_period_start := current_period_start r;
     current_period_end := current_period_end r;
     grace_period_end := grace_period_end r;
     last_alert_sent_at := last_alert_sent_at r;
     billing_provider := billing_provider r;
     plan_code := plan_code r;
     paypal_subscription_id := paypal_subscription_id r;
     paypal_subscription_status := paypal_subscription_status r;
     pending_plan_code := pending_plan_code r;
     pending_plan_effective_at := pending_plan_effective_at r;
     updated_at := TsDate sql_now |}.

Definition createManualPaymentReport (q : report_request) (d : database)
  : database * answer :=
  match authenticated (rp_user q) with
  | None => (d, say 401 "Authentication required")
  | Some uid =>
    if negb (may_pay (rp_user q)) then (d, say 403 "Acceso denegado") else
    let finalOwnerId :=
      if JS.includes (user_role_of (rp_user q)) "admin"
      then nullish (rp_ownerId q) (Some uid)
      else Some uid in
    let finalReference :=
      nullish (rp_reference q) (nullish (rp_referenceText q) (rp_reference_text q)) in
    let finalProofUrl := nullish (rp_proofUrl q) (rp_proof_url q) in
    let finalCurrency :=
      match JS.or_else (rp_currency q) None with
      | Some c => c
      | None => "DOP"
      end in
    match truthy_id finalOwnerId with
    | None => (d, say 400 "ownerId requerido")
    | Some owner =>
      if negb (JS.truthy finalReference) && negb (JS.truthy finalProofUrl)
      then (d, say 400 "Debes enviar referencia o comprobante")
      else
        let (d1, _) := getOrCreateOwnerSubscription (rp_now q) owner d in
        let row :=
          {| report_id := rp_id q; report_owner_id := owner;
             report_amount := rp_amount q; report_currency := Some finalCurrency;
             reference_text := finalReference; proof_url := finalProofUrl;
             report_status := "pending";
             approved_by := None; rejected_by := None;
             decided_at := None; report_updated_at := Some (rp_sql q) |} in
        let d2 := with_reports d1 (manual_payment_reports d1 ++ [row]) in
        let d3 := update_owner owner (set_pending_verification (rp_sql q)) d2 in
        (d3, {| ans_status := 201; ans_payload := PReport (Some row) |})
    end
  end.

Record activate_request := {
  ac_user : option auth_user;
  ac_ownerId : option Z;
  ac_renew : renew_clock
}.

Definition adminActivateSubscription (q : activate_request) (d : database)
  : database * answer :=
  match requireAdmin (ac_user q) with
  | Throws e => (d, catch_answer e)
  | Returns _ =>
    match truthy_id (ac_ownerId q) with
    | None => (d, say 400 "ownerId requerido")
    | Some owner =>
      let (d1, renewed) := renewSubscription30Days (ac_renew q) owner d in
      (d1, {| ans_status := 200; ans_payload := PSubscription renewed |})
    end
  end.

(** ** A caller of the gate: [PUT /api/barber-availability/:barberId] *)

Record availability_row := {
  av_barber_id : Z;
  av_day : string;
  av_start_time : string;
  av_end_time : string
}.

(** The tables of the engine together with [barber_availability]. *)
Record booking_store := {
  core : database;
  barber_availability : list availability_row
}.

(** [canMutateBarber]: [None] when allowed, the refusal otherwise. *)
Definition canMutateBarber (d : database) (u : option auth_user) (barberId : Z)
  : option (Z * string) :=
  match field u userId with
  | None => Some (401, "Authentication required")
  | Some uid =>
    let r := user_role_of u in
    if JS.includes r "admin" then None
    else if JS.includes r "barber" && (uid =? barberId) then None
    else if JS.includes r "owner"
            && existsb (fun b =>
                 (user_id b =? barberId)
                 && existsb (fun bs =>
                      opt_eqb (user_shop_id b) (shop_id bs)
                      && opt_eqb (shop_owner_id bs) uid
                      && is_null (shop_deleted_at bs)) (barber_shops d))
               (users d)
    then None
    else Some (403, "Acceso denegado")
  end.

(** [if (!item.day || !item.startTime || !item.endTime) continue;] *)
Definition item_row (barberId : Z) (it : availability_item) : option availability_row :=
  match JS.or_else (it_day it) None, JS.or_else (it_startTime it) None,
        JS.or_else (it_endTime it) None with
  | Some dy, Some st, Some en =>
      Some {| av_barber_id := barberId; av_day := dy;
              av_start_time := st; av_end_time := en |}
  | _, _, _ => None
  end.

(** [res.status(e.status || 500).json({ message: e.message || 'Error del servidor' })] *)
Definition gate_refusal (e : js_error) : answer :=
  {| ans_status := http_status (catch_reply e);
     ans_payload := PMessage (match err_message e with
                              | Msg "" => Msg "Error del servidor"
                              | m => m
                              end) |}.

Section Availability.

(** What the table accepts ([day CHAR(1)], the two [TIME] columns, the
    foreign key to [users]): an [INSERT] of a row it refuses raises. *)
Variable accepts : database -> availability_row -> bool.

(** The loop of [INSERT]s; [None] when one of them raises. *)
Fixpoint insert_availability (d : database) (barberId : Z)
  (items : list availability_item) (rows : list availability_row)
  : option (list availability_row) :=
  match items with
  | [] => Some rows
  | it :: rest =>
      match item_row barberId it with
      | None => insert_availability d barberId rest rows
      | Some row =>
          if accepts d row
          then insert_availability d barberId rest (rows ++ [row])
          else None
      end
  end.

Record availability_request := {
  avq_user : option auth_user;
  avq_barberId : Z;
  avq_items : list availability_item;
  avq_clock : gate_clock
}.

Definition putBarberAvailability (q : availability_request) (s : booking_store)
  : booking_store * answer :=
  let d := core s in
  let barberId := avq_barberId q in
  match canMutateBarber d (avq_user q) barberId with
  | Some (st, msg) => (s, say st msg)
  | None =>
    let shopId :=
      match find (fun u => user_id u =? barberId) (users d) with
      | Some u => user_shop_id u
      | None => None
      end in
    let gated : database * option js_error :=
      match shopId with
      | Some sid =>
          match enforceShopSubscriptionForBooking (avq_clock q) sid d with
          | (d1, Throws e) => (d1, Some e)
          | (d1, Returns _) => (d1, None)
          end
      | None => (d, None)
      end in
    match gated with
    | (_, Some e) => (s, gate_refusal e)
    | (d1, None) =>
      let kept := filter (fun r => negb (av_barber_id r =? barberId))
                    (barber_availability s) in
      match insert_availability d1 barberId (avq_items q) kept with
      | None => (s, say 500 "Error al guardar disponibilidad de barbero")
      | Some rows =>
          ({| core := d1; barber_availability := rows |},
           {| ans_status := 200;
              ans_payload := PAvailability barberId (avq_items q) |})
      end
    end
  end.

End Availability.

(** ** Vocabulary of the further properties *)

(** [r'] has the paid window of [r]: the same owner, period start, period
    end and grace end. *)
Definition same_boundaries (r r' : subscription) : Prop :=
  owner_id r' = owner_id r
  /\ current_period_start r' = current_period_start r
  /\ current_period_end r' = current_period_end r
  /\ grace_period_end r' = grace_period_end r.

(** From [d] to [d'] the ledger is untouched and no stored subscription
    row has lost or moved its paid window. *)
Definition keeps_paid_windows (d d' : database) : Prop :=
  payments d' = payments d
  /\ forall o r, select_owner o d = Some r ->
       exists r', select_owner o d' = Some r' /\ same_boundaries r r'.

(** The owner ids of the stored subscription rows. *)
Definition subscription_owners (d : database) : list Z :=
  map owner_id (subscriptions d).

(** One subscription row per owner. *)
Definition one_row_per_owner (d : database) : Prop :=
  NoDup (subscription_owners d).

(** No shop of [o] is active: each is soft-deleted, or [o] has none. *)
Definition no_active_shop (d : database) (o : Z) : Prop :=
  forall s, In s (barber_shops d) -> shop_owner_id s = Some o ->
            shop_deleted_at s <> None.

(** The next billing time the provider announces, when it is a date. *)
Definition next_billing (f : fetch_reply paypal_subscription) : option Z :=
  match data f with
  | Some p => match pp_next_billing_time p with
              | TsDate t => Some t
              | _ => None
              end
  | None => None
  end.

(** The leading white space of a list of characters dropped. *)
Fixpoint drop_spaces (l : list ascii) : list ascii :=
  match l with
  | [] => []
  | c :: r => if JS.is_space c then drop_spaces r else l
  end.

(** The four plan ids of the configuration, trimmed, in the order of the
    tier table. *)
Definition configured_plan_ids (env : environment) : list string :=
  [ env_string (PAYPAL_PLAN_ID_BASIC_1 env);
    env_string (PAYPAL_PLAN_ID_BASIC_2 env);
    env_string (PAYPAL_PLAN_ID_PRO env);
    env_string (PAYPAL_PLAN_ID_PREMIUM env) ].

(** The rows the loop of [INSERT]s writes for a request: one per item
    that has its three fields, in the order of the array. *)
Definition stored_rows (barberId : Z) (items : list availability_item)
  : list availability_row :=
  flat_map (fun it => match item_row barberId it with
                      | Some r => [r]
                      | None => []
                      end) items.

Definition of_barber (barberId : Z) (r : availability_row) : bool :=
  av_barber_id r =? barberId.

(** The caller may write the availability of [barberId]: an admin, the
    barber themself, or the owner of the undeleted shop the barber
    belongs to. *)
Definition may_mutate (d : database) (u : option auth_user) (barberId : Z) : Prop :=
  exists uid,
    field u userId = Some uid
    /\ (JS.includes (user_role_of u) "admin" = true
        \/ (JS.includes (user_role_of u) "barber" = true /\ uid = barberId)
        \/ (JS.includes (user_role_of u) "owner" = true
            /\ exists b bs,
                 In b (users d) /\ In bs (barber_shops d)
                 /\ user_id b = barberId
                 /\ user_shop_id b = Some (shop_id bs)
                 /\ shop_owner_id bs = Some uid
                 /\ shop_deleted_at bs = None)).

Module SampleBooking.

Definition slot (d s e : string) : availability_item :=
  {| it_day := Some d; it_startTime := Some s; it_endTime := Some e |}.

Definition row (b : Z) (d s e : string) : availability_row :=
  {| av_barber_id := b; av_day := d; av_start_time := s; av_end_time := e |}.

(** Barbers 101 and 102 of shop 10 each have one stored slot. *)
Definition store : booking_store :=
  {| core := Sample.db None None;
     barber_availability := [row 101 "L" "09:00" "12:00"; row 102 "M" "10:00" "18:00"] |}.

Definition barber_user (id : Z) : option auth_user :=
  Some {| userId := Some id; role := Some "barber" |}.

(** Barber [u] sends two slots and an item without a day for barber [b]. *)
Definition request (u b day : Z) : availability_request :=
  {| avq_user := barber_user u; avq_barberId := b;
     avq_items := [slot "X" "08:00" "13:00";
                   {| it_day := None; it_startTime := Some "08:00";
                      it_endTime := Some "09:00" |};
                   slot "J" "14:00" "19:00"];
     avq_clock := Sample.gate_at day |}.

Definition any_row (_ : database) (_ : availability_row) : bool := true.

End SampleBooking.

(** * Properties *)

(** Two responses that differ by their constructors or literals. *)
Ltac differ := cbn; let H := fresh in intro H; discriminate H.

(** ** The string helpers on the values the controllers meet *)

Example js_strings :
  JS.trim "  pro " = "pro"
  /\ JS.toUpperCase "approval_pending" = "APPROVAL_PENDING"
  /\ JS.toLowerCase "Owner" = "owner"
  /\ JS.includes "superadmin" "admin" = true
  /\ JS.includes "barber" "admin" = false
  /\ JS.startsWith "BILLING.SUBSCRIPTION.ACTIVATED" "BILLING.SUBSCRIPTION." = true
  /\ JS.to_string None = "" /\ JS.or_else (Some "") (Some "x") = Some "x".
Proof. repeat split. Qed.

Example payment_success_events :
  isPaymentSuccessEvent "BILLING.SUBSCRIPTION.PAYMENT.SUCCEEDED" = true
  /\ isPaymentSuccessEvent "PAYMENT.SALE.COMPLETED" = true
  /\ isPaymentSuccessEvent "PAYMENT.CAPTURE.DENIED" = false
  /\ isPaymentSuccessEvent "BILLING.SUBSCRIPTION.PAYMENT.FAILED" = false
  /\ isPaymentSuccessEvent "PAYMENT.SALE.REFUNDED" = false
  /\ isPaymentSuccessEvent "BILLING.SUBSCRIPTION.CANCELLED" = false.
Proof. repeat split. Qed.

Example plan_ids_of_sample :
  getPaypalPlanIdForCode Sample.env (Some " pro ") = Some "P-PRO"
  /\ getPaypalPlanIdForCode Sample.env (Some "gold") = None
  /\ getPlanCodeForPaypalPlanId Sample.env (Some "P-BASIC2") = Some (OwnCode "basic_2")
  /\ getPlanCodeForPaypalPlanId Sample.env (Some "P-OTHER") = None
  /\ getPlanCodeForPaypalPlanId Sample.env None = None
  /\ getPlanCodeForPaypalPlanId Sample.env (Some "constructor")
     = Some (Inherited "constructor")
  /\ sql_text (Inherited "constructor") = "function Object() { [native code] }".
Proof. repeat split. Qed.

(** ** Pricing tier selector *)

Lemma accommodates_fits (s p : Z) (t : plan_tier) :
  0 <= shops (tier_limits t) -> 0 <= professionals (tier_limits t) ->
  accommodates (Z.max 0 s) (Z.max 0 p) t = true <-> fits s p t.
Proof.
  intros Hs Hp. unfold accommodates, fits.
  rewrite andb_true_iff, !Z.leb_le. lia.
Qed.

Lemma PLAN_TIERS_limits_nonneg (t : plan_tier) :
  In t PLAN_TIERS ->
  0 <= shops (tier_limits t) /\ 0 <= professionals (tier_limits t).
Proof.
  unfold PLAN_TIERS. cbn [In].
  intros [<- | [<- | [<- | [<- | []]]]]; cbn; lia.
Qed.

(** The table is in ascending order of limits and of price. *)
Lemma PLAN_TIERS_ascending (i j : nat) (a b : plan_tier) :
  (i <= j)%nat ->
  nth_error PLAN_TIERS i = Some a -> nth_error PLAN_TIERS j = Some b ->
  shops (tier_limits a) <= shops (tier_limits b)
  /\ professionals (tier_limits a) <= professionals (tier_limits b)
  /\ priceDop a <= priceDop b.
Proof.
  intros Hij Ha Hb.
  destruct i as [|[|[|[|i]]]]; destruct j as [|[|[|[|j]]]];
    cbn in Ha, Hb; try (exfalso; lia);
    try (destruct i; discriminate); try (destruct j; discriminate);
    injection Ha as <-; injection Hb as <-; cbn; lia.
Qed.

(** What [find] returns is the first element that satisfies the test. *)
Lemma find_first {A} (f : A -> bool) (l : list A) (x : A) :
  find f l = Some x ->
  exists i, nth_error l i = Some x /\ f x = true
            /\ forall j y, (j < i)%nat -> nth_error l j = Some y -> f y = false.
Proof.
  induction l as [|a l IH]; cbn; [discriminate|].
  destruct (f a) eqn:Ha.
  - intros [= <-]. exists 0%nat. repeat split; auto. intros j y Hj. lia.
  - intros H. destruct (IH H) as (i & Hi & Hx & Hlt).
    exists (S i). repeat split; auto.
    intros [|j] y Hj; cbn; [intros [= <-]; exact Ha|].
    apply Hlt. lia.
Qed.

Lemma find_none_all {A} (f : A -> bool) (l : list A) :
  find f l = None -> forall x, In x l -> f x = false.
Proof. intros H x Hx. exact (find_none f l H x Hx). Qed.

Lemma selectTierForUsage_none_over (s p : Z) :
  sel_tier (selectTierForUsage s p) = None ->
  sel_isOverLimit (selectTierForUsage s p) = true.
Proof.
  unfold selectTierForUsage. cbn -[Z.max Z.sub Z.ltb].
  unfold accommodates. cbn -[Z.max Z.sub Z.ltb Z.leb].
  repeat match goal with
         | |- context [(?a <=? ?b)] => destruct (Z.leb_spec a b)
         end; cbn -[Z.max Z.sub Z.ltb]; try discriminate; intros _;
    rewrite orb_true_iff, !Z.ltb_lt; lia.
Qed.

Lemma selectTierForUsage_some (s p : Z) (t : plan_tier) :
  sel_tier (selectTierForUsage s p) = Some t ->
  exists i,
    nth_error PLAN_TIERS i = Some t /\ fits s p t
    /\ forall j t', (j < i)%nat -> nth_error PLAN_TIERS j = Some t' -> ~ fits s p t'.
Proof.
  unfold selectTierForUsage. cbn [sel_tier]. intros Ht.
  destruct (find_first _ _ _ Ht) as (i & Hi & Hfit & Hfirst).
  assert (Hin : In t PLAN_TIERS) by (eapply nth_error_In; eauto).
  destruct (PLAN_TIERS_limits_nonneg t Hin) as [H0 H1].
  exists i. split; [exact Hi|]. split; [apply accommodates_fits; auto|].
  intros j t' Hj Hj' Hf.
  assert (Hin' : In t' PLAN_TIERS) by (eapply nth_error_In; eauto).
  destruct (PLAN_TIERS_limits_nonneg t' Hin') as [H0' H1'].
  apply accommodates_fits in Hf; auto.
  rewrite (Hfirst j t' Hj Hj') in Hf. discriminate.
Qed.

Lemma selectTierForUsage_none (s p : Z) :
  sel_tier (selectTierForUsage s p) = None ->
  (forall t, In t PLAN_TIERS -> ~ fits s p t)
  /\ sel_overage (selectTierForUsage s p)
     = {| shops := Z.max 0 (s - 3); professionals := Z.max 0 (p - 12) |}.
Proof.
  unfold selectTierForUsage. cbn [sel_tier sel_overage]. intros Ht.
  pose proof (find_none_all _ _ Ht) as Hall. split.
  - intros t Hin Hf.
    destruct (PLAN_TIERS_limits_nonneg t Hin) as [H0 H1].
    apply accommodates_fits in Hf; auto.
    rewrite (Hall t Hin) in Hf. discriminate.
  - assert (Hp : accommodates (Z.max 0 s) (Z.max 0 p) maxTier = false)
      by (apply Hall; cbn; auto 6).
    unfold accommodates in Hp. cbn -[Z.max Z.leb] in Hp.
    cbn -[Z.max Z.sub]. f_equal; lia.
Qed.

(** The price is read off the selection: its tier, no tier exactly when
    it is over the limit. *)
Lemma computeMonthlyPriceDop_selected (u : usage_counts) :
  let sel := selectTierForUsage (shopCount u) (professionalCount u) in
  let r := computeMonthlyPriceDop u in
  tier r = sel_tier sel
  /\ total r = option_map priceDop (sel_tier sel)
  /\ isOverLimit r = is_null (sel_tier sel)
  /\ overage r = sel_overage sel.
Proof.
  intros sel r. subst r sel. unfold computeMonthlyPriceDop.
  destruct (sel_tier (selectTierForUsage (shopCount u) (professionalCount u)))
    as [t|] eqn:Ht.
  - destruct (sel_isOverLimit (selectTierForUsage (shopCount u) (professionalCount u)));
      cbn; auto.
  - rewrite (selectTierForUsage_none_over _ _ Ht). cbn. auto.
Qed.

(** C4: the selector returns the first tier of the ascending table that
    accommodates both counts, with the tier's price as total and
    [isOverLimit = false]; that tier is also the smallest and cheapest
    accommodating one.  When no tier accommodates the usage the result is
    [isOverLimit = true], [total = null], no tier, and the overage is the
    usage minus the limits of the largest tier (3 shops, 12 professionals),
    clamped at 0. *)
Theorem pricing_selects_first_accommodating_tier (u : usage_counts) :
  let s := shopCount u in
  let p := professionalCount u in
  let r := computeMonthlyPriceDop u in
  (exists i t,
      nth_error PLAN_TIERS i = Some t /\ fits s p t
      /\ (forall j t', (j < i)%nat -> nth_error PLAN_TIERS j = Some t' -> ~ fits s p t')
      /\ (forall t', In t' PLAN_TIERS -> fits s p t' ->
            shops (tier_limits t) <= shops (tier_limits t')
            /\ professionals (tier_limits t) <= professionals (tier_limits t')
            /\ priceDop t <= priceDop t')
      /\ tier r = Some t /\ total r = Some (priceDop t) /\ isOverLimit r = false)
  \/ ((forall t, In t PLAN_TIERS -> ~ fits s p t)
      /\ tier r = None /\ isOverLimit r = true /\ total r = None
      /\ overage r = {| shops := Z.max 0 (s - 3);
                        professionals := Z.max 0 (p - 12) |}).
Proof.
  intros s p r.
  destruct (computeMonthlyPriceDop_selected u) as (Ht & Htot & Hover & Hovg).
  fold s p r in Ht, Htot, Hover, Hovg.
  destruct (sel_tier (selectTierForUsage s p)) as [t|] eqn:Hsel.
  - left. destruct (selectTierForUsage_some s p t Hsel) as (i & Hi & Hfit & Hfirst).
    exists i, t. repeat (split; [assumption|]).
    split; [|now repeat split].
    intros t' Hin' Hf.
    destruct (In_nth_error _ _ Hin') as [j Hj].
    destruct (Nat.le_gt_cases i j) as [Hle|Hgt].
    + exact (PLAN_TIERS_ascending i j t t' Hle Hi Hj).
    + exfalso. exact (Hfirst j t' Hgt Hj Hf).
  - right. destruct (selectTierForUsage_none s p Hsel) as [Hnone Hform].
    split; [exact Hnone|]. rewrite Hovg, Hform. now repeat split.
Qed.

(** Scenarios of the tier table: 1 shop and 2 professionals is [basic_1] at
    1000, 2 shops and 5 professionals is [pro] at 2000, 4 shops and 20
    professionals is over the limit by 1 shop and 8 professionals. *)
Example pricing_scenarios :
  let u s p := {| shopCount := s; professionalCount := p;
                  barbersCount := p; ownerCountsAsProfessional := false |} in
  (option_map code (tier (computeMonthlyPriceDop (u 1 2))) = Some "basic_1"
   /\ total (computeMonthlyPriceDop (u 1 2)) = Some 1000)
  /\ (option_map code (tier (computeMonthlyPriceDop (u 2 5))) = Some "pro"
      /\ total (computeMonthlyPriceDop (u 2 5)) = Some 2000)
  /\ (isOverLimit (computeMonthlyPriceDop (u 4 20)) = true
      /\ overage (computeMonthlyPriceDop (u 4 20))
         = {| shops := 1; professionals := 8 |}).
Proof. cbv. repeat split. Qed.

(** ** Entitlement state *)

(** C2, as stated, fails: with [current_period_end] null and
    [grace_period_end] at 100 the state derived at [now = 50] is Grace, not
    Blocked; and with the period end at 10 after the grace end at 5 the
    state at [now = 7] is Active although [now] is past the grace end. *)
Lemma state_blocked_claim_fails :
  (isBlocked (computeSubscriptionState 50 (row_with 1 TsNull (TsDate 100))) = false
   /\ isInGrace (computeSubscriptionState 50 (row_with 1 TsNull (TsDate 100))) = true)
  /\ (isBlocked (computeSubscriptionState 7 (row_with 1 (TsDate 10) (TsDate 5))) = false
      /\ isActive (computeSubscriptionState 7 (row_with 1 (TsDate 10) (TsDate 5))) = true).
Proof. repeat split. Qed.

(** C2, amended: the state is a function of [now] and the two stored
    boundaries alone, and exactly one of the three flags holds.  With
    period end [T] and grace end [G]: Active exactly when [now <= T], Grace
    exactly when [T < now <= G], Blocked exactly when [now] is past both
    [T] and [G] (past [G] alone when [T <= G]).  With the period end absent
    the state is never Active: it is Grace exactly while [now <= G] and
    Blocked otherwise, in particular when the grace end is absent too. *)
Theorem state_from_boundaries (now : Z) (row : subscription) :
  let st := computeSubscriptionState now row in
  st = computeSubscriptionState now
         (row_with 0 (current_period_end row) (grace_period_end row))
  /\ (isActive st = true /\ isInGrace st = false /\ isBlocked st = false
      \/ isActive st = false /\ isInGrace st = true /\ isBlocked st = false
      \/ isActive st = false /\ isInGrace st = false /\ isBlocked st = true)
  /\ match parsePgTimestamp (current_period_end row),
           parsePgTimestamp (grace_period_end row) with
     | Some T, Some G =>
         (isActive st = true <-> now <= T)
         /\ (isInGrace st = true <-> T < now <= G)
         /\ (isBlocked st = true <-> Z.max T G < now)
     | Some T, None =>
         (isActive st = true <-> now <= T)
         /\ isInGrace st = false
         /\ (isBlocked st = true <-> T < now)
     | None, Some G =>
         isActive st = false
         /\ (isInGrace st = true <-> now <= G)
         /\ (isBlocked st = true <-> G < now)
     | None, None =>
         isActive st = false /\ isInGrace st = false /\ isBlocked st = true
     end.
Proof.
  intros st. subst st. unfold computeSubscriptionState.
  cbn [row_with current_period_end grace_period_end isActive isInGrace isBlocked].
  split; [reflexivity|].
  destruct (parsePgTimestamp (current_period_end row)) as [T|];
    destruct (parsePgTimestamp (grace_period_end row)) as [G|];
    cbn [is_null negb date_leb andb];
    repeat match goal with
           | |- context [(?a <=? ?b)] => destruct (Z.leb_spec a b)
           end; cbn; repeat split; auto; try lia; try discriminate;
    intuition (try discriminate; try lia).
Qed.

(** Both boundaries belong to the lower state. *)
Lemma state_at_boundaries (T G : Z) (o : Z) :
  T <= G ->
  isActive (computeSubscriptionState T (row_with o (TsDate T) (TsDate G))) = true
  /\ (T < G ->
      isInGrace (computeSubscriptionState G (row_with o (TsDate T) (TsDate G))) = true).
Proof.
  intros H. unfold computeSubscriptionState. cbn.
  rewrite Z.leb_refl. split; [reflexivity|].
  intros Hlt. destruct (Z.leb_spec G T); [lia|]. cbn. now rewrite Z.leb_refl.
Qed.

(** ** Tables: what [UPDATE ... WHERE owner_id] and the lazy creation do *)

Section Updates.

Variable o : Z.
Variable f : subscription -> subscription.
Hypothesis f_owner : forall r, owner_id (f r) = owner_id r.

Lemma select_owner_update (d : database) :
  select_owner o (update_owner o f d) = option_map f (select_owner o d).
Proof.
  unfold select_owner, update_owner. cbn [subscriptions with_subscriptions].
  induction (subscriptions d) as [|r l IH]; cbn; [reflexivity|].
  destruct (owner_id r =? o) eqn:E; cbn.
  - now rewrite f_owner, E.
  - now rewrite E.
Qed.

Lemma select_other_update (o' : Z) (d : database) :
  o' <> o -> select_owner o' (update_owner o f d) = select_owner o' d.
Proof.
  intros Hne. unfold select_owner, update_owner.
  cbn [subscriptions with_subscriptions].
  induction (subscriptions d) as [|r l IH]; cbn; [reflexivity|].
  destruct (owner_id r =? o) eqn:E; cbn.
  - rewrite f_owner. apply Z.eqb_eq in E.
    destruct (owner_id r =? o') eqn:E'; [apply Z.eqb_eq in E'; lia | exact IH].
  - now rewrite IH.
Qed.

Lemma in_update_owner (d : database) (r' : subscription) :
  In r' (subscriptions (update_owner o f d)) ->
  (owner_id r' = o /\ exists r, In r (subscriptions d) /\ owner_id r = o /\ r' = f r)
  \/ (owner_id r' <> o /\ In r' (subscriptions d)).
Proof.
  unfold update_owner. cbn [subscriptions with_subscriptions].
  rewrite in_map_iff. intros (r & <- & Hin).
  destruct (owner_id r =? o) eqn:E.
  - apply Z.eqb_eq in E. left. rewrite f_owner. split; [exact E|]. now exists r.
  - apply Z.eqb_neq in E. right. now split.
Qed.

End Updates.

Lemma update_owner_frame (o : Z) (f : subscription -> subscription) (d : database) :
  payments (update_owner o f d) = payments d
  /\ manual_payment_reports (update_owner o f d) = manual_payment_reports d
  /\ notifications (update_owner o f d) = notifications d
  /\ barber_shops (update_owner o f d) = barber_shops d
  /\ users (update_owner o f d) = users d.
Proof. repeat split. Qed.

Lemma find_some_in {A} (g : A -> bool) (l : list A) (x : A) :
  find g l = Some x -> In x l /\ g x = true.
Proof. apply find_some. Qed.

Lemma getOrCreate_selects (t o : Z) (d : database) :
  let (d1, sub) := getOrCreateOwnerSubscription t o d in
  select_owner o d1 = Some sub /\ owner_id sub = o
  /\ payments d1 = payments d
  /\ manual_payment_reports d1 = manual_payment_reports d
  /\ barber_shops d1 = barber_shops d /\ users d1 = users d
  /\ match select_owner o d with
     | Some r => d1 = d /\ sub = r
     | None => subscriptions d1 = (subscriptions d ++ [sub])%list
               /\ sub = inserted_subscription o "active" t (t + 30 * DAY)
                          (t + 30 * DAY + 5 * DAY)
     end.
Proof.
  unfold getOrCreateOwnerSubscription.
  destruct (select_owner o d) as [r|] eqn:E.
  - rewrite E. repeat split; auto.
    unfold select_owner in E. apply find_some_in in E. now apply Z.eqb_eq.
  - repeat split; auto.
    unfold select_owner in *. cbn [subscriptions with_subscriptions].
    induction (subscriptions d) as [|r l IH]; cbn.
    + now rewrite Z.eqb_refl.
    + cbn in E. destruct (owner_id r =? o); [discriminate | now apply IH].
Qed.

Lemma set_renewed_owner (s : Z) (pc : option string) (t : Z) (r : subscription) :
  owner_id (set_renewed s pc t r) = owner_id r.
Proof. reflexivity. Qed.

Lemma renewal_start_max (now : Z) (v : tsval) :
  renewal_start now v = match v with
                        | TsDate e => Z.max now e
                        | _ => now
                        end.
Proof.
  destruct v as [|e|]; cbn; auto. destruct (Z.ltb_spec now e); lia.
Qed.

(** ** Renewal *)

(** C3: after a renewal the owner's rows have
    [current_period_start = max(now, previous current_period_end)] (the
    previous end being that of the row the renewal fetched, or of the row
    it has just created), [current_period_end] 30 days later,
    [grace_period_end] 5 days after that and [status = 'active']; the
    renewal returns such a row, and the new period end is never before the
    previous one.  This holds for the renewal of both controllers. *)
Theorem renewal_extends_period (c : renew_clock) (o : Z) (d : database) :
  let prev := snd (getOrCreateOwnerSubscription (rn_create c) o d) in
  let start := match current_period_end prev with
               | TsDate e => Z.max (rn_now c) e
               | _ => rn_now c
               end in
  let renewed (res : database * option subscription) :=
    (exists r', snd res = Some r' /\ In r' (subscriptions (fst res))
                /\ owner_id r' = o)
    /\ (forall r', In r' (subscriptions (fst res)) -> owner_id r' = o ->
          current_period_start r' = TsDate start
          /\ current_period_end r' = TsDate (start + 30 * DAY)
          /\ grace_period_end r' = TsDate (start + 30 * DAY + 5 * DAY)
          /\ status r' = "active")
    /\ (forall e, current_period_end prev = TsDate e -> e <= start + 30 * DAY) in
  match select_owner o d with
  | Some r => prev = r
  | None => current_period_end prev = TsDate (rn_create c + 30 * DAY)
  end
  /\ renewed (renewSubscription30Days c o d)
  /\ renewed (Legacy.renewSubscription30Days c o d).
Proof.
  intros prev start renewed.
  pose proof (getOrCreate_selects (rn_create c) o d) as G.
  unfold renewSubscription30Days, Legacy.renewSubscription30Days.
  subst prev.
  destruct (getOrCreateOwnerSubscription (rn_create c) o d) as [d1 sub].
  cbn [snd] in *. destruct G as (Hsel & Hown & _ & _ & _ & _ & Hprev).
  assert (Hmono : forall e, current_period_end sub = TsDate e -> e <= start + 30 * DAY).
  { intros e He. subst start. rewrite He. unfold DAY. lia. }
  assert (Hstart : renewal_start (rn_now c) (current_period_end sub) = start).
  { rewrite renewal_start_max. reflexivity. }
  assert (Hall : forall pc, renewed
            (update_owner o (set_renewed start pc (rn_sql c)) d1,
             select_owner o (update_owner o (set_renewed start pc (rn_sql c)) d1))).
  { intros pc. unfold renewed. cbn [fst snd]. split; [|split; [|exact Hmono]].
    - rewrite select_owner_update by apply set_renewed_owner.
      rewrite Hsel. cbn. eexists. split; [reflexivity|]. split; [|exact Hown].
      unfold update_owner. cbn [subscriptions with_subscriptions].
      apply in_map_iff. exists sub. split.
      + now rewrite Hown, Z.eqb_refl.
      + unfold select_owner in Hsel. now apply find_some_in in Hsel.
    - intros r' Hin Ho.
      apply in_update_owner in Hin; [|apply set_renewed_owner].
      destruct Hin as [(_ & r & _ & _ & ->) | (Hne & _)]; [|contradiction].
      cbn. repeat split. }
  split.
  - destruct (select_owner o d); [apply Hprev|].
    destruct Hprev as [_ ->]. reflexivity.
  - rewrite Hstart. split; apply Hall.
Qed.

(** ** Enforcement gate *)

Lemma getOrCreate_users (t o : Z) (d : database) :
  users (fst (getOrCreateOwnerSubscription t o d)) = users d.
Proof.
  unfold getOrCreateOwnerSubscription. destruct (select_owner o d); reflexivity.
Qed.

(** The notification step raises only through the foreign key: with a row
    of the owner in [users] it returns. *)
Lemma ensureDaily_returns (now sql o : Z) (row : subscription) (d : database) :
  has_user d o = true ->
  snd (ensureDailySubscriptionExpiredNotification now sql o row d) = Returns tt.
Proof.
  intros H. unfold ensureDailySubscriptionExpiredNotification. rewrite H. cbn [negb].
  repeat match goal with
         | |- context [if ?x then _ else _] => destruct x
         end; reflexivity.
Qed.

Lemma ensureDaily_throws (now sql o : Z) (row : subscription) (d d' : database)
  (e : js_error) :
  ensureDailySubscriptionExpiredNotification now sql o row d = (d', Throws e) ->
  d' = d /\ has_user d o = false
  /\ e = foreign_key_error "notifications" "notifications_user_id_fkey".
Proof.
  unfold ensureDailySubscriptionExpiredNotification.
  destruct (is_null _); [discriminate|].
  destruct (isActive _); [discriminate|].
  destruct (same_day _ _); [discriminate|].
  destruct (has_user d o); cbn [negb]; [discriminate|].
  intros [= <- <-]. auto.
Qed.

Lemma not_blocked_active_or_grace (now : Z) (sub : subscription) :
  isBlocked (computeSubscriptionState now sub) = false ->
  isActive (computeSubscriptionState now sub) = true
  \/ isInGrace (computeSubscriptionState now sub) = true.
Proof.
  unfold computeSubscriptionState. cbn.
  destruct (parsePgTimestamp (current_period_end sub)) as [T|];
    destruct (parsePgTimestamp (grace_period_end sub)) as [G|]; cbn;
    repeat match goal with
           | |- context [(?a <=? ?b)] => destruct (a <=? b)
           end; cbn; auto; discriminate.
Qed.

(** X25: for an owner who has a row in [users], the gate by owner, and the
    gate by shop once the shop is resolved to its owner, throw an error
    with HTTP status 402 that carries the owner id, the period end and the
    grace end when the derived state is Blocked, and return
    [{ownerId, subscription, state}] without throwing when it is Active or
    Grace. *)
Theorem gate_outcome_with_account (c : gate_clock) (d : database) (o : Z) :
  let sub := snd (getOrCreateOwnerSubscription (at_create c) o d) in
  let st := computeSubscriptionState (at_state c) sub in
  has_user d o = true ->
  gate_outcome o sub st (snd (enforceOwnerSubscriptionForManagement c (Some o) d))
  /\ forall shopId, shop_resolves d shopId o ->
       gate_outcome o sub st (snd (enforceShopSubscriptionForBooking c shopId d)).
Proof.
  intros sub st Hu.
  assert (Hbody :
    gate_outcome o sub st
      (snd (let (d1, sb) := getOrCreateOwnerSubscription (at_create c) o d in
            match ensureDailySubscriptionExpiredNotification
                    (at_notify c) (at_sql c) o sb d1 with
            | (d2, Throws e) => (d2, @Throws gate_pass e)
            | (d2, Returns _) =>
                if isBlocked (computeSubscriptionState (at_state c) sb) then
                  (d2, Throws (blocked_error
                     ("Tu plan está vencido. Renueva (bloqueado desde ", ").")
                     ("Tu plan está vencido. Renueva para continuar.", "")
                     o (computeSubscriptionState (at_state c) sb)))
                else
                  (d2, Returns {| gp_ownerId := o; gp_subscription := sb;
                                  gp_state := computeSubscriptionState (at_state c) sb |})
            end))
    /\ gate_outcome o sub st
      (snd (let (d1, sb) := getOrCreateOwnerSubscription (at_create c) o d in
            match ensureDailySubscriptionExpiredNotification
                    (at_notify c) (at_sql c) o sb d1 with
            | (d2, Throws e) => (d2, @Throws gate_pass e)
            | (d2, Returns _) =>
                if isBlocked (computeSubscriptionState (at_state c) sb) then
                  (d2, Throws (blocked_error
                     ("Este negocio tiene el plan vencido. El propietario debe renovar (bloqueado desde ", ").")
                     ("Este negocio tiene el plan vencido. El propietario debe renovar.", "")
                     o (computeSubscriptionState (at_state c) sb)))
                else
                  (d2, Returns {| gp_ownerId := o; gp_subscription := sb;
                                  gp_state := computeSubscriptionState (at_state c) sb |})
            end))).
  { subst st sub. unfold gate_outcome.
    pose proof (getOrCreate_users (at_create c) o d) as Hus.
    destruct (getOrCreateOwnerSubscription (at_create c) o d) as [d1 sb].
    cbn [fst snd] in *.
    assert (Hu1 : has_user d1 o = true) by (unfold has_user in *; now rewrite Hus).
    pose proof (ensureDaily_returns (at_notify c) (at_sql c) o sb d1 Hu1) as R.
    destruct (ensureDailySubscriptionExpiredNotification _ _ o sb d1) as [d2 [[]|e]];
      cbn [snd] in R; [|discriminate R].
    destruct (isBlocked (computeSubscriptionState (at_state c) sb)) eqn:B; cbn [snd].
    - split; unfold blocked_error; eexists; reflexivity.
    - pose proof (not_blocked_active_or_grace _ _ B). repeat split; auto. }
  destruct Hbody as [Ho Hs]. split.
  - exact Ho.
  - intros shopId (shop & Hfind & Hown).
    unfold enforceShopSubscriptionForBooking. rewrite Hfind, Hown. exact Hs.
Qed.

(** X25 at a sample: owner 1 has an account, shop 10 resolves to owner 1,
    whose row is past its grace end on day 106. *)
Lemma gate_outcome_with_account_sample :
  let d := Sample.db None None in
  let c := Sample.gate_at 106 in
  let sub := snd (getOrCreateOwnerSubscription (at_create c) 1 d) in
  let st := computeSubscriptionState (at_state c) sub in
  has_user d 1 = true
  /\ shop_resolves d 10 1
  /\ isBlocked st = true
  /\ gate_outcome 1 sub st (snd (enforceShopSubscriptionForBooking c 10 d)).
Proof.
  intros d c sub st.
  assert (U : has_user d 1 = true) by reflexivity.
  assert (H : shop_resolves d 10 1).
  { exists (Sample.shop 10 1). split; reflexivity. }
  split; [exact U|]. split; [exact H|]. split; [vm_compute; reflexivity|].
  exact (proj2 (gate_outcome_with_account c d 1 U) 10 H).
Defined.


(** The gate on the sample row of owner 1 (period end day 100, grace end
    day 105), by shop 10, the owner having an account: on day 101 the
    state is Grace, the booking goes on and one expiry notification is
    inserted; asked again the same day, no second one is; on day 106 the
    gate throws 402 with the owner id and both boundaries. *)
Example gate_sample :
  let d := Sample.db None None in
  let g1 := enforceShopSubscriptionForBooking (Sample.gate_at 101) 10 d in
  let g2 := enforceShopSubscriptionForBooking (Sample.gate_at 101) 10 (fst g1) in
  let g3 := enforceShopSubscriptionForBooking (Sample.gate_at 106) 10 d in
  (exists p, snd g1 = Returns p /\ gp_ownerId p = 1
             /\ isInGrace (gp_state p) = true /\ isBlocked (gp_state p) = false)
  /\ List.length (notifications (fst g1)) = 1%nat
  /\ List.length (notifications (fst g2)) = 1%nat
  /\ (exists e, snd g3 = Throws e /\ err_status e = Some 402
                /\ err_details e
                   = Some {| det_ownerId := 1; det_periodEnd := Some (100 * DAY);
                             det_graceEnd := Some (105 * DAY) |}).
Proof.
  vm_compute. split; [eexists; split; [reflexivity|]; repeat split|].
  split; [reflexivity|]. split; [reflexivity|].
  eexists. split; [reflexivity|]. split; reflexivity.
Qed.

(** ** Webhook: events that name no known subscription *)

Lemma or_else_none (v w : option string) :
  JS.or_else v w = None <-> JS.truthy v = false /\ w = None.
Proof.
  unfold JS.or_else. destruct (JS.truthy v) eqn:E.
  - split; [|intros [? _]; discriminate].
    intros ->. discriminate.
  - tauto.
Qed.

Lemma no_identifier_iff (res : option webhook_resource) :
  no_subscription_identifier res <-> webhook_subscriptionId res = None.
Proof.
  unfold no_subscription_identifier, webhook_subscriptionId.
  rewrite !or_else_none. destruct res as [r|]; cbn.
  - split.
    + intros H. destruct (H r eq_refl) as (? & ? & ?). auto.
    + intros (? & ? & ? & _) r' [= <-]. auto.
  - split; [auto | intros _ r' [=]].
Qed.

(** C10: a signature-verified event whose resource carries no subscription
    identifier, or whose identifier is the [paypal_subscription_id] of no
    stored row, is acknowledged with HTTP 200 and [received: true], and the
    database (the [subscriptions] and [payments] tables in particular) is
    left as it was. *)
Theorem webhook_unknown_subscription_acknowledged
  (env : environment) (q : webhook_request) (d : database) :
  verifyPaypalWebhookSignature env (wh_headers q) (wh_verify_token q) (wh_verify q)
    = Returns true ->
  no_subscription_identifier (wh_resource q) \/ unknown_subscription (wh_resource q) d ->
  let (d', r) := paypalWebhook env q d in
  http_status r = 200 /\ res_body r = BodyReceived None
  /\ d' = d /\ subscriptions d' = subscriptions d /\ payments d' = payments d.
Proof.
  intros Hv H. unfold paypalWebhook. rewrite Hv.
  destruct H as [H | (sid & Hsid & Hno)].
  - apply no_identifier_iff in H. rewrite H. cbn. auto.
  - rewrite Hsid.
    destruct (find _ (subscriptions d)) as [r|] eqn:F; [|cbn; auto].
    exfalso. apply find_some_in in F. destruct F as [Hin Heq].
    apply (Hno r Hin). unfold opt_string_eqb in Heq.
    destruct (paypal_subscription_id r) as [x|]; [|discriminate].
    apply String.eqb_eq in Heq. now subst.
Qed.

(** ** Confirm: a provider status other than ACTIVE *)

Lemma same_but_provider_status_refl (r : subscription) :
  same_but_provider_status r r.
Proof. repeat split. Qed.

Lemma Forall2_refl_on {A} (R : A -> A -> Prop) (l : list A) :
  (forall x, R x x) -> Forall2 R l l.
Proof. intros H. induction l; constructor; auto. Qed.

Lemma Forall2_map_right {A} (R : A -> A -> Prop) (g : A -> A) (l : list A) :
  (forall x, R x (g x)) -> Forall2 R l (map g l).
Proof. intros H. induction l; cbn; constructor; auto. Qed.

Lemma update_owner_status_sync (o : Z) (st : string) (t : Z) (d : database) :
  Forall2 same_but_provider_status (subscriptions d)
    (subscriptions (update_owner o (set_provider_status st t) d)).
Proof.
  unfold update_owner. cbn [subscriptions with_subscriptions].
  apply Forall2_map_right. intros r.
  destruct (owner_id r =? o); repeat split.
Qed.

Lemma or_else_some_nonempty (v : option string) (s : string) :
  JS.or_else v None = Some s -> v = Some s /\ String.eqb "" s = false.
Proof.
  unfold JS.or_else, JS.truthy. destruct v as [x|]; [|discriminate].
  destruct x; cbn; [discriminate|]. intros [= <-]. auto.
Qed.

Lemma getPaypalAccessToken_throws (env : environment)
  (r : fetch_reply token_data) (e : js_error) :
  getPaypalAccessToken env r = Throws e ->
  err_status e = Some 502 \/ err_status e = Some 500.
Proof.
  unfold getPaypalAccessToken, assertPaypalConfigured.
  destruct (negb _ || negb _); [intros [= <-]; cbn; auto|].
  destruct (negb (ok r)); [intros [= <-]; cbn; auto|].
  destruct (JS.or_else _ None); [discriminate|].
  intros [= <-]; cbn; auto.
Qed.

(** C5: when the status re-fetched from the provider is not ACTIVE, the
    confirm operation writes no ledger row and leaves [plan_code],
    [pending_plan_code], [current_period_start], [current_period_end],
    [grace_period_end] and [status] of every subscription row as they
    were (no row is added either); when it answers with success the rows
    of the owner hold the re-fetched status as
    [paypal_subscription_status]. *)
Theorem confirm_not_active_persists_status_only
  (env : environment) (q : confirm_request) (d : database) :
  provider_status (cf_fetched q) <> "ACTIVE" ->
  let (d', r) := paypalConfirmSubscription env q d in
  payments d' = payments d
  /\ Forall2 same_but_provider_status (subscriptions d) (subscriptions d')
  /\ (http_status r = 200 ->
      exists o, authenticated (cf_user q) = Some o
        /\ select_owner o d <> None
        /\ forall r', In r' (subscriptions d') -> owner_id r' = o ->
             paypal_subscription_status r' = Some (provider_status (cf_fetched q))
             /\ billing_provider r' = Some "paypal").
Proof.
  intros Hst. unfold paypalConfirmSubscription.
  assert (Hkeep : forall resp, http_status resp <> 200 ->
            payments d = payments d
            /\ Forall2 same_but_provider_status (subscriptions d) (subscriptions d)
            /\ (http_status resp = 200 -> exists o,
                  authenticated (cf_user q) = Some o
                  /\ select_owner o d <> None
                  /\ forall r', In r' (subscriptions d) -> owner_id r' = o ->
                       paypal_subscription_status r'
                         = Some (provider_status (cf_fetched q))
                       /\ billing_provider r' = Some "paypal")).
  { intros resp Hne. split; [reflexivity|]. split.
    - apply Forall2_refl_on, same_but_provider_status_refl.
    - intros E. contradiction. }
  assert (Hcatch : forall e, err_status e = Some 502 \/ err_status e = Some 500 ->
                             http_status (catch_reply e) <> 200).
  { intros e [E|E]; unfold catch_reply; rewrite E; cbn; lia. }
  destruct (authenticated (cf_user q)) as [o|]; [|apply Hkeep; cbn; lia].
  destruct (may_pay (cf_user q)); cbn [negb]; [|apply Hkeep; cbn; lia].
  destruct (JS.or_else (cf_subscriptionId q) None) as [sid|] eqn:Hsid;
    [|apply Hkeep; cbn; lia].
  destruct (getPaypalAccessToken env (cf_token q)) as [tok|e] eqn:Htok.
  2:{ apply Hkeep, Hcatch. eapply getPaypalAccessToken_throws; eauto. }
  destruct (ok (cf_fetched q)); cbn [negb];
    [|apply Hkeep, Hcatch; cbn; auto].
  destruct (String.eqb (provider_status (cf_fetched q)) "") eqn:Hempty;
    [apply Hkeep; cbn; lia|].
  pose proof (getOrCreate_selects (cf_create q) o d) as G.
  destruct (getOrCreateOwnerSubscription (cf_create q) o d) as [d1 sub].
  destruct G as (Hsel & Hown & _ & _ & _ & _ & Hprev).
  destruct (String.eqb (JS.to_string (paypal_subscription_id sub)) sid) eqn:Hmatch;
    cbn [negb]; [|apply Hkeep; cbn; lia].
  destruct (String.eqb (provider_status (cf_fetched q)) "ACTIVE") eqn:Hact.
  { apply String.eqb_eq in Hact. contradiction. }
  cbn [negb].
  destruct (select_owner o d) as [r0|] eqn:Hsel0.
  - destruct Hprev as [-> ->]. split; [reflexivity|]. split.
    + apply update_owner_status_sync.
    + intros _. exists o. split; [reflexivity|]. split; [congruence|].
      intros r' Hin Ho.
      apply in_update_owner in Hin; [|reflexivity].
      destruct Hin as [(_ & r & _ & _ & ->) | (Hne & _)]; [|contradiction].
      cbn. auto.
  - exfalso. destruct Hprev as [_ ->].
    apply or_else_some_nonempty in Hsid. destruct Hsid as [_ Hs].
    destruct sid; cbn in Hmatch, Hs; discriminate.
Qed.

(** C5 at a sample: the provider still reports [APPROVAL_PENDING]. *)
Lemma confirm_not_active_sample :
  provider_status (cf_fetched (Sample.confirm "approval_pending")) <> "ACTIVE"
  /\ let (d', r) := paypalConfirmSubscription Sample.env
                      (Sample.confirm "approval_pending")
                      (Sample.db (Some "basic_1") (Some "pro")) in
     payments d' = payments (Sample.db (Some "basic_1") (Some "pro"))
     /\ Forall2 same_but_provider_status
          (subscriptions (Sample.db (Some "basic_1") (Some "pro"))) (subscriptions d')
     /\ (http_status r = 200 ->
         exists o, authenticated (cf_user (Sample.confirm "approval_pending")) = Some o
           /\ select_owner o (Sample.db (Some "basic_1") (Some "pro")) <> None
           /\ forall r', In r' (subscriptions d') -> owner_id r' = o ->
                paypal_subscription_status r'
                  = Some (provider_status (cf_fetched (Sample.confirm "approval_pending")))
                /\ billing_provider r' = Some "paypal").
Proof.
  assert (H : provider_status (cf_fetched (Sample.confirm "approval_pending")) <> "ACTIVE")
    by (vm_compute; discriminate).
  split; [exact H|].
  exact (confirm_not_active_persists_status_only Sample.env
           (Sample.confirm "approval_pending")
           (Sample.db (Some "basic_1") (Some "pro")) H).
Defined.

Example confirm_not_active_sample_run :
  paypalConfirmSubscription Sample.env (Sample.confirm "approval_pending")
    (Sample.db (Some "basic_1") (Some "pro"))
  = (with_subscriptions (Sample.db (Some "basic_1") (Some "pro"))
       [set_provider_status "APPROVAL_PENDING" (80 * DAY)
          (Sample.sub1 (Some "basic_1") (Some "pro"))],
     json BodySuccess).
Proof. vm_compute. reflexivity. Qed.

(** C10 at a sample: a verified sale whose agreement [I-OTHER] is not
    stored. *)
Lemma webhook_unknown_subscription_sample :
  let q := Sample.sale_event (Some (Sample.sale (Some "I-OTHER")))
             (Sample.provider_sub "ACTIVE" None) in
  let d := Sample.db None None in
  verifyPaypalWebhookSignature Sample.env (wh_headers q) (wh_verify_token q)
    (wh_verify q) = Returns true
  /\ unknown_subscription (wh_resource q) d
  /\ let (d', r) := paypalWebhook Sample.env q d in
     http_status r = 200 /\ res_body r = BodyReceived None
     /\ d' = d /\ subscriptions d' = subscriptions d /\ payments d' = payments d.
Proof.
  intros q d.
  assert (Hv : verifyPaypalWebhookSignature Sample.env (wh_headers q)
                 (wh_verify_token q) (wh_verify q) = Returns true)
    by (vm_compute; reflexivity).
  assert (Hu : unknown_subscription (wh_resource q) d).
  { exists "I-OTHER". split; [vm_compute; reflexivity|].
    intros r [<- | []]. vm_compute. discriminate. }
  split; [exact Hv|]. split; [exact Hu|].
  exact (webhook_unknown_subscription_acknowledged Sample.env q d Hv (or_intror Hu)).
Defined.

(** ** Create: the requested plan against the usage *)

Lemma computeMonthlyPriceDop_tier_fits (u : usage_counts) (t : plan_tier) :
  tier (computeMonthlyPriceDop u) = Some t ->
  fits (shopCount u) (professionalCount u) t.
Proof.
  destruct (computeMonthlyPriceDop_selected u) as (Ht & _). rewrite Ht.
  intros Hsel. destruct (selectTierForUsage_some _ _ t Hsel) as (i & _ & Hfit & _).
  exact Hfit.
Qed.

(** The second check of the create operation compares the usage with the
    limits of the tier the usage itself selects, so it never rejects: no
    request is answered with its message. *)
Lemma create_never_answers_plan_too_small
  (env : environment) (q : create_request) (d : database) :
  snd (paypalCreateSubscription env q d)
  <> reply 400 "Tu uso actual excede el plan seleccionado. Elige un plan superior.".
Proof.
  unfold paypalCreateSubscription.
  destruct (authenticated (cr_user q)) as [o|]; [|differ].
  destruct (may_pay (cr_user q)); cbn [negb]; [|differ].
  destruct (valid_plan_code _); cbn [negb]; [|differ].
  destruct (getPaypalPlanIdForCode env _) as [planId|];
    [|differ].
  destruct (isOverLimit _) eqn:Hover; [differ|].
  destruct (tier _) as [t|] eqn:Ht.
  - pose proof (computeMonthlyPriceDop_tier_fits _ t Ht) as [F1 F2].
    apply Z.ltb_ge in F1, F2. rewrite F1, F2. cbn [orb].
    destruct (getPaypalAccessToken env (cr_token q)) as [tok|e] eqn:Htok.
    + destruct (ok (cr_created q)); cbn [negb]; [|differ].
      destruct (JS.or_else _ None); [|differ].
      destruct (JS.or_else _ None); [|differ].
      destruct (getOrCreateOwnerSubscription _ _ _). differ.
    + cbn. intro H. apply (f_equal http_status) in H.
      destruct (getPaypalAccessToken_throws _ _ _ Htok) as [E|E];
        unfold catch_reply in H; rewrite E in H; discriminate H.
  - destruct (getPaypalAccessToken env (cr_token q)) as [tok|e] eqn:Htok.
    + destruct (ok (cr_created q)); cbn [negb]; [|differ].
      destruct (JS.or_else _ None); [|differ].
      destruct (JS.or_else _ None); [|differ].
      destruct (getOrCreateOwnerSubscription _ _ _). differ.
    + cbn. intro H. apply (f_equal http_status) in H.
      destruct (getPaypalAccessToken_throws _ _ _ Htok) as [E|E];
        unfold catch_reply in H; rewrite E in H; discriminate H.
Qed.

(** C6 on the code: owner 1 has 2 shops and 5 professionals and asks for
    [basic_1], whose limits are 1 shop and 2 professionals.  The request
    is answered 200 with the approval link, and [pending_plan_code =
    'basic_1'] and the provider subscription id are stored. *)
Lemma create_accepts_plan_below_usage :
  let d := Sample.db None None in
  let u := computeOwnerUsageCounts d 1 in
  (shopCount u = 2 /\ professionalCount u = 5)
  /\ option_map tier_limits (getTierForCode (Some "basic_1"))
     = Some {| shops := 1; professionals := 2 |}
  /\ let (d', r) := paypalCreateSubscription Sample.env (Sample.create "basic_1") d in
     r = json (BodyApproval "I-NEW" "https://paypal.com/approve")
     /\ option_map pending_plan_code (select_owner 1 d') = Some (Some "basic_1")
     /\ option_map paypal_subscription_id (select_owner 1 d') = Some (Some "I-NEW").
Proof. vm_compute. repeat split. Qed.

(** ** Renewal from the webhook: the plan code persisted *)

Lemma usage_counts_frame (d d' : database) (o : Z) :
  barber_shops d' = barber_shops d -> users d' = users d ->
  computeOwnerUsageCounts d' o = computeOwnerUsageCounts d o.
Proof. intros Hs Hu. unfold computeOwnerUsageCounts. now rewrite Hs, Hu. Qed.

Lemma renew_existing (c : renew_clock) (o : Z) (d : database) (s : subscription) :
  select_owner o d = Some s ->
  renewSubscription30Days c o d
  = let f := set_renewed (renewal_start (rn_now c) (current_period_end s))
               (renewal_plan_code s
                  (computeMonthlyPriceDop (computeOwnerUsageCounts d o)))
               (rn_sql c) in
    (update_owner o f d, Some (f s)).
Proof.
  intros Hs. unfold renewSubscription30Days, getOrCreateOwnerSubscription.
  rewrite Hs. cbn zeta.
  rewrite select_owner_update by apply set_renewed_owner.
  now rewrite Hs.
Qed.

Lemma pricing_tier_in_table (u : usage_counts) (t : plan_tier) :
  tier (computeMonthlyPriceDop u) = Some t -> In t PLAN_TIERS.
Proof.
  destruct (computeMonthlyPriceDop_selected u) as (Ht & _). rewrite Ht.
  intros Hsel. destruct (selectTierForUsage_some _ _ t Hsel) as (i & Hi & _).
  eapply nth_error_In; eauto.
Qed.

Lemma tier_code_truthy (t : plan_tier) :
  In t PLAN_TIERS -> JS.truthy (Some (code t)) = true.
Proof.
  unfold PLAN_TIERS. cbn [In]. intros [<- | [<- | [<- | [<- | []]]]]; reflexivity.
Qed.

Lemma renewal_plan_code_resolved (s : subscription) (u : usage_counts) :
  coalesce (renewal_plan_code s (computeMonthlyPriceDop u)) (plan_code s)
  = resolved_plan_code s (tier (computeMonthlyPriceDop u)).
Proof.
  unfold renewal_plan_code, resolved_plan_code, JS.or_else.
  destruct (JS.truthy (pending_plan_code s)) eqn:P.
  { destruct (pending_plan_code s); [reflexivity | discriminate]. }
  destruct (JS.truthy (plan_code s)) eqn:C.
  { destruct (plan_code s); [reflexivity | discriminate]. }
  destruct (tier (computeMonthlyPriceDop u)) as [t|] eqn:T; cbn [option_map].
  - rewrite (tier_code_truthy t (pricing_tier_in_table u t T)). reflexivity.
  - reflexivity.
Qed.

Lemma sql_text_truthy (v : looked_up) :
  match v with
  | OwnCode c => JS.truthy (Some c) = true
  | Inherited _ => True
  end ->
  JS.truthy (Some (sql_text v)) = true.
Proof.
  destruct v as [c|m]; cbn [sql_text]; [auto|]. intros _.
  destruct (String.eqb m "__proto__"); [reflexivity|].
  destruct (String.eqb m "constructor"); reflexivity.
Qed.

Lemma getPlanCodeForPaypalPlanId_truthy (env : environment)
  (pid : option string) (v : looked_up) :
  getPlanCodeForPaypalPlanId env pid = Some v ->
  JS.truthy (Some (sql_text v)) = true.
Proof.
  unfold getPlanCodeForPaypalPlanId.
  destruct (String.eqb (JS.trim (JS.to_string pid)) ""); [discriminate|].
  cbn [rev app find fst snd].
  repeat match goal with
         | |- context [if String.eqb ?a ?b then _ else _] =>
             destruct (String.eqb a b)
         end;
    try (intros [= <-]; reflexivity).
  destruct (existsb _ _); [|discriminate].
  intros [= <-]. now apply sql_text_truthy.
Qed.

Lemma webhook_synced_plan_truthy (env : environment) (q : webhook_request)
  (v : looked_up) :
  webhook_synced_plan env q = Some v -> JS.truthy (Some (sql_text v)) = true.
Proof.
  unfold webhook_synced_plan.
  destruct (getPaypalAccessToken env (wh_sync_token q)); [|discriminate].
  destruct (ok (wh_sync q)); [|discriminate].
  apply getPlanCodeForPaypalPlanId_truthy.
Qed.

Lemma located_has_owner_row (sid : string) (d : database) (located : subscription) :
  find (fun r => opt_string_eqb (paypal_subscription_id r) sid) (subscriptions d)
    = Some located ->
  exists s0, select_owner (owner_id located) d = Some s0.
Proof.
  intros F. apply find_some_in in F. destruct F as [Hin _].
  unfold select_owner.
  destruct (find (fun r => owner_id r =? owner_id located) (subscriptions d))
    as [s0|] eqn:E; [now exists s0|].
  pose proof (find_none _ _ E located Hin) as H. cbn in H.
  rewrite Z.eqb_refl in H. discriminate.
Qed.

Lemma select_owner_insert_payment (o : Z) (p : payment) (d : database) :
  select_owner o (insert_payment p d) = select_owner o d.
Proof. reflexivity. Qed.

(** C7, amended: when the webhook renews (it answers [renewed]), the plan
    code left on the owner's row is the pending plan code when there is
    one, else the plan code the event has just synced onto the row from
    the provider's plan id (the text bound for what the reverse table
    gave), else the plan code the row already had, else the code of the
    tier the current usage selects. *)
Theorem webhook_renewal_resolves_plan_code
  (env : environment) (q : webhook_request) (d : database) (b : bool) :
  res_body (snd (paypalWebhook env q d)) = BodyReceived (Some b) ->
  exists sid located s0 r',
    webhook_subscriptionId (wh_resource q) = Some sid
    /\ find (fun r => opt_string_eqb (paypal_subscription_id r) sid)
            (subscriptions d) = Some located
    /\ select_owner (owner_id located) d = Some s0
    /\ select_owner (owner_id located) (fst (paypalWebhook env q d)) = Some r'
    /\ plan_code r'
       = resolved_after_sync s0 (option_map sql_text (webhook_synced_plan env q))
           (tier (computeMonthlyPriceDop
                    (computeOwnerUsageCounts d (owner_id located)))).
Proof.
  unfold paypalWebhook.
  destruct (verifyPaypalWebhookSignature _ _ _ _) as [[|]|e]; try (cbn; discriminate).
  destruct (webhook_subscriptionId (wh_resource q)) as [sid|]; [|cbn; discriminate].
  destruct (find _ (subscriptions d)) as [located|] eqn:F; [|cbn; discriminate].
  destruct (located_has_owner_row sid d located F) as [s0 Hs0].
  set (o := owner_id located) in *.
  set (sql := rn_sql (wh_renew q)).
  set (d1 := if JS.startsWith _ _ then _ else d).
  assert (H1 : exists g, select_owner o d1 = Some (g s0)
                 /\ pending_plan_code (g s0) = pending_plan_code s0
                 /\ plan_code (g s0) = plan_code s0
                 /\ barber_shops d1 = barber_shops d /\ users d1 = users d).
  { subst d1. destruct (JS.startsWith _ _).
    - eexists. rewrite select_owner_update by reflexivity. rewrite Hs0.
      split; [reflexivity|]. repeat split.
    - exists (fun x => x). auto. }
  destruct H1 as (g1 & Hs1 & Hp1 & Hc1 & Hb1 & Hu1).
  destruct (isPaymentSuccessEvent _); [|cbn; discriminate].
  destruct (webhook_transactionId (wh_resource q)) as [tx|]; [|cbn; discriminate].
  set (synced := webhook_synced_plan env q).
  set (d2 := match synced with Some pc => _ | None => d1 end).
  assert (H2 : exists g, select_owner o d2 = Some (g s0)
                 /\ pending_plan_code (g s0) = pending_plan_code s0
                 /\ plan_code (g s0)
                    = coalesce (option_map sql_text synced) (plan_code s0)
                 /\ barber_shops d2 = barber_shops d /\ users d2 = users d).
  { subst d2. destruct synced as [pc|].
    - exists (fun x => set_plan_code (Some (sql_text pc)) sql (g1 x)).
      rewrite select_owner_update by reflexivity. rewrite Hs1.
      split; [reflexivity|]. cbn. rewrite Hp1. repeat split; assumption.
    - exists g1. cbn. repeat split; assumption. }
  destruct H2 as (g2 & Hs2 & Hp2 & Hc2 & Hb2 & Hu2).
  destruct (payment_exists _ tx d2); [cbn; discriminate|].
  rewrite (renew_existing _ _ _ _ Hs2). cbn zeta.
  destruct (paid_at_of _ _) as [paid|e]; [|cbn; discriminate].
  intros _. cbn [fst snd].
  exists sid, located, s0. eexists.
  split; [reflexivity|]. split; [exact F|]. split; [exact Hs0|].
  rewrite select_owner_update by reflexivity.
  rewrite select_owner_insert_payment.
  rewrite select_owner_update by apply set_renewed_owner.
  rewrite Hs2. cbn [option_map]. split; [reflexivity|].
  cbn [plan_code set_active_paypal set_renewed].
  rewrite renewal_plan_code_resolved.
  rewrite (usage_counts_frame d d2 o Hb2 Hu2).
  unfold resolved_after_sync, resolved_plan_code. rewrite Hp2, Hc2.
  destruct (JS.truthy (pending_plan_code s0)); [reflexivity|].
  fold synced.
  destruct synced as [pc|] eqn:Hsync; cbn [coalesce option_map].
  - subst synced. rewrite (webhook_synced_plan_truthy env q pc Hsync). reflexivity.
  - reflexivity.
Qed.

(** C7, as stated, fails on two counts.  A verified sale of the stored
    subscription [I-SUB1] renews the row of owner 1 (2 shops, 5
    professionals: tier [pro]).  With [pending_plan_code = 'basic_2'] the
    pending code is still on the row after the renewal; with no pending
    code and [plan_code = 'premium'] the renewal persists [premium], not
    the tier of the usage. *)
Lemma webhook_renewal_claim_fails :
  let q := Sample.sale_event (Some (Sample.sale (Some "I-SUB1")))
             (Sample.provider_sub "ACTIVE" None) in
  (let (d', r) := paypalWebhook Sample.env q (Sample.db None (Some "basic_2")) in
   res_body r = BodyReceived (Some true)
   /\ option_map pending_plan_code (select_owner 1 d') = Some (Some "basic_2")
   /\ option_map pending_plan_code (select_owner 1 d') <> Some None)
  /\ (let d := Sample.db (Some "premium") None in
      let (d', r) := paypalWebhook Sample.env q d in
      res_body r = BodyReceived (Some true)
      /\ option_map code (tier (computeMonthlyPriceDop (computeOwnerUsageCounts d 1)))
         = Some "pro"
      /\ option_map plan_code (select_owner 1 d') = Some (Some "premium")).
Proof. vm_compute. repeat split. discriminate. Qed.

(** C7 at a sample: the provider's plan id maps to [pro], the row has no
    pending code and holds [basic_1]; the renewal leaves [pro]. *)
Lemma webhook_renewal_resolves_sample :
  let q := Sample.sale_event (Some (Sample.sale (Some "I-SUB1")))
             (Sample.provider_sub "ACTIVE" (Some "P-PRO")) in
  let d := Sample.db (Some "basic_1") None in
  res_body (snd (paypalWebhook Sample.env q d)) = BodyReceived (Some true)
  /\ exists sid located s0 r',
       webhook_subscriptionId (wh_resource q) = Some sid
       /\ find (fun r => opt_string_eqb (paypal_subscription_id r) sid)
               (subscriptions d) = Some located
       /\ select_owner (owner_id located) d = Some s0
       /\ select_owner (owner_id located) (fst (paypalWebhook Sample.env q d)) = Some r'
       /\ plan_code r'
          = resolved_after_sync s0
              (option_map sql_text (webhook_synced_plan Sample.env q))
              (tier (computeMonthlyPriceDop
                       (computeOwnerUsageCounts d (owner_id located)))).
Proof.
  intros q d.
  assert (H : res_body (snd (paypalWebhook Sample.env q d)) = BodyReceived (Some true))
    by (vm_compute; reflexivity).
  split; [exact H|].
  exact (webhook_renewal_resolves_plan_code Sample.env q d true H).
Defined.

Example webhook_renewal_sample_plan :
  let q := Sample.sale_event (Some (Sample.sale (Some "I-SUB1")))
             (Sample.provider_sub "ACTIVE" (Some "P-PRO")) in
  option_map plan_code
    (select_owner 1 (fst (paypalWebhook Sample.env q (Sample.db (Some "basic_1") None))))
  = Some (Some "pro").
Proof. vm_compute. reflexivity. Qed.

(** A plan id that is no configured id but names a member of
    [Object.prototype]: the lookup gives the inherited function, the sync
    stores its text on the row and the renewal keeps it. *)
Example webhook_renewal_inherited_member :
  let q := Sample.sale_event (Some (Sample.sale (Some "I-SUB1")))
             (Sample.provider_sub "ACTIVE" (Some "constructor")) in
  webhook_synced_plan Sample.env q = Some (Inherited "constructor")
  /\ option_map plan_code
       (select_owner 1 (fst (paypalWebhook Sample.env q (Sample.db (Some "basic_1") None))))
     = Some (Some "function Object() { [native code] }").
Proof. vm_compute. split; reflexivity. Qed.

(** ** Manual reports are decided once *)

Lemma select_report_update (id : Z)
  (f : manual_payment_report -> manual_payment_report) (d : database) :
  (forall r, report_id (f r) = report_id r) ->
  select_report id (update_report id f d) = option_map f (select_report id d).
Proof.
  intros Hf. unfold select_report, update_report.
  cbn [manual_payment_reports with_reports].
  induction (manual_payment_reports d) as [|r l IH]; cbn; [reflexivity|].
  destruct (report_id r =? id) eqn:E; cbn.
  - now rewrite Hf, E.
  - now rewrite E.
Qed.

Lemma renew_frame (c : renew_clock) (o : Z) (d : database) :
  payments (fst (renewSubscription30Days c o d)) = payments d
  /\ manual_payment_reports (fst (renewSubscription30Days c o d))
     = manual_payment_reports d.
Proof.
  unfold renewSubscription30Days.
  pose proof (getOrCreate_selects (rn_create c) o d) as G.
  destruct (getOrCreateOwnerSubscription (rn_create c) o d) as [d1 sub].
  destruct G as (_ & _ & Hp & Hr & _). cbn. auto.
Qed.

Lemma requireAdmin_cases (u : option auth_user) :
  requireAdmin u = Returns tt
  \/ requireAdmin u = Throws (plain_error "Acceso denegado: solo admin" 403).
Proof. unfold requireAdmin. destruct (negb _); auto. Qed.

(** The decision [k] asked by [q] went through on [d]: what held before
    and what holds after. *)
Lemma decide_success (k : decision) (q : decision_request) (d : database) :
  http_status (snd (decide k q d)) = 200 ->
  (exists rep, select_report (dc_id q) d = Some rep /\ is_pending rep = true)
  /\ (exists rep', select_report (dc_id q) (fst (decide k q d)) = Some rep'
        /\ report_status rep' = decided_status k
        /\ decided_at rep' = Some (rn_sql (dc_renew q))
        /\ decided_by k rep' = field (dc_user q) userId)
  /\ match k with
     | Approve =>
         exists p, payments (fst (decide k q d)) = (payments d ++ [p])%list
                   /\ provider p = "manual" /\ pay_status p = "confirmed"
     | Reject =>
         payments (fst (decide k q d)) = payments d
         /\ subscriptions (fst (decide k q d)) = subscriptions d
     end.
Proof.
  destruct k; cbn [decide decided_status decided_by].
  - unfold approveManualPaymentReport.
    destruct (requireAdmin_cases (dc_user q)) as [-> | ->]; [|cbn; lia].
    destruct (select_report (dc_id q) d) as [rep|] eqn:S; [|cbn; lia].
    destruct (is_pending rep) eqn:P; cbn [negb]; [|cbn; lia].
    intros _.
    pose proof (renew_frame (dc_renew q) (report_owner_id rep) d) as [Hp Hr].
    destruct (renewSubscription30Days (dc_renew q) (report_owner_id rep) d)
      as [d1 renewed].
    cbn [fst snd] in *.
    split; [now exists rep|].
    rewrite select_report_update by reflexivity.
    assert (S1 : select_report (dc_id q) (insert_payment
                   {| pay_owner_id := report_owner_id rep; provider := "manual";
                      pay_status := "confirmed"; amount := report_amount rep;
                      pay_currency := report_currency rep;
                      provider_payment_id := None;
                      metadata := MetaManual (report_id rep) (reference_text rep)
                                    (proof_url rep) (field (dc_user q) userId);
                      paid_at := rn_sql (dc_renew q) |} d1) = Some rep).
    { unfold select_report, insert_payment.
      cbn [manual_payment_reports with_payments]. rewrite Hr. exact S. }
    rewrite S1. cbn [option_map]. split.
    + eexists. split; [reflexivity|]. cbn. auto.
    + eexists. cbn. rewrite Hp. split; [reflexivity|]. auto.
  - unfold rejectManualPaymentReport.
    destruct (requireAdmin_cases (dc_user q)) as [-> | ->]; [|cbn; lia].
    destruct (select_report (dc_id q) d) as [rep|] eqn:S; [|cbn; lia].
    destruct (is_pending rep) eqn:P; cbn [negb]; [|cbn; lia].
    intros _. cbn [fst snd].
    split; [now exists rep|].
    rewrite select_report_update by reflexivity. rewrite S. cbn [option_map].
    split.
    + eexists. split; [reflexivity|]. cbn. auto.
    + cbn. auto.
Qed.

(** A decision asked on a report whose status is no longer pending. *)
Lemma decide_decided (k : decision) (q : decision_request) (d : database)
  (rep : manual_payment_report) :
  select_report (dc_id q) d = Some rep -> is_pending rep = false ->
  fst (decide k q d) = d
  /\ (http_status (snd (decide k q d)) = 400 \/ http_status (snd (decide k q d)) = 403)
  /\ (requireAdmin (dc_user q) = Returns tt ->
      snd (decide k q d) = reply 400 "Este reporte ya fue procesado").
Proof.
  intros S P.
  destruct k; cbn [decide];
    unfold approveManualPaymentReport, rejectManualPaymentReport;
    destruct (requireAdmin_cases (dc_user q)) as [-> | E]; rewrite ?E;
    rewrite ?S, ?P; cbn; repeat split; auto; discriminate.
Qed.

(** C8: a decision succeeds only on a report whose status is pending;
    afterwards the report is [approved] or [rejected] as decided, with
    [decided_at] and the deciding admin recorded (an approval has appended
    one [manual] ledger row, a rejection none and no renewal).  Any later
    decision on the same report changes nothing in the database (no ledger
    row, report and subscriptions as they were) and fails: with the
    conflict answer 400 "Este reporte ya fue procesado" when an admin asks
    (403 otherwise). *)
Theorem manual_report_decided_once (k k2 : decision) (q q2 : decision_request)
  (d : database) :
  http_status (snd (decide k q d)) = 200 ->
  dc_id q2 = dc_id q ->
  let d1 := fst (decide k q d) in
  let second := decide k2 q2 d1 in
  (exists rep, select_report (dc_id q) d = Some rep /\ is_pending rep = true)
  /\ (exists rep', select_report (dc_id q) d1 = Some rep'
        /\ report_status rep' = decided_status k
        /\ decided_at rep' = Some (rn_sql (dc_renew q))
        /\ decided_by k rep' = field (dc_user q) userId)
  /\ match k with
     | Approve =>
         exists p, payments d1 = (payments d ++ [p])%list
                   /\ provider p = "manual" /\ pay_status p = "confirmed"
     | Reject => payments d1 = payments d /\ subscriptions d1 = subscriptions d
     end
  /\ fst second = d1
  /\ payments (fst second) = payments d1
  /\ subscriptions (fst second) = subscriptions d1
  /\ manual_payment_reports (fst second) = manual_payment_reports d1
  /\ (http_status (snd second) = 400 \/ http_status (snd second) = 403)
  /\ (requireAdmin (dc_user q2) = Returns tt ->
      snd second = reply 400 "Este reporte ya fue procesado").
Proof.
  intros Hok Hid d1 second.
  destruct (decide_success k q d Hok) as (Hbefore & Hafter & Hledger).
  split; [exact Hbefore|]. split; [exact Hafter|]. split; [exact Hledger|].
  destruct Hafter as (rep' & Hsel & Hst & _).
  assert (P : is_pending rep' = false).
  { unfold is_pending. rewrite Hst. destruct k; reflexivity. }
  rewrite <- Hid in Hsel.
  destruct (decide_decided k2 q2 d1 rep' Hsel P) as (Hfst & Hcode & Hadmin).
  subst second. rewrite Hfst. repeat split; auto.
Qed.

(** C8 at a sample, both ways: admin 9 approves the pending report 7 and
    then tries to reject it; admin 9 rejects the pending report 7, which
    succeeds and leaves it [rejected] with the time and the admin recorded
    and no payment or renewal, and then tries to approve it. *)
Lemma manual_report_decided_once_sample :
  let q := Sample.decision (Sample.admin 9) in
  let d := Sample.db None None in
  (http_status (snd (decide Approve q d)) = 200
   /\ fst (decide Reject q (fst (decide Approve q d))) = fst (decide Approve q d)
   /\ snd (decide Reject q (fst (decide Approve q d)))
      = reply 400 "Este reporte ya fue procesado")
  /\ (http_status (snd (decide Reject q d)) = 200
      /\ (exists rep', select_report 7 (fst (decide Reject q d)) = Some rep'
             /\ report_status rep' = "rejected"
             /\ decided_at rep' = Some (80 * DAY)
             /\ rejected_by rep' = Some 9)
      /\ payments (fst (decide Reject q d)) = payments d
      /\ subscriptions (fst (decide Reject q d)) = subscriptions d
      /\ fst (decide Approve q (fst (decide Reject q d))) = fst (decide Reject q d)
      /\ snd (decide Approve q (fst (decide Reject q d)))
         = reply 400 "Este reporte ya fue procesado").
Proof.
  intros q d.
  assert (Hadm : requireAdmin (dc_user q) = Returns tt) by (vm_compute; reflexivity).
  split.
  - assert (H : http_status (snd (decide Approve q d)) = 200)
      by (vm_compute; reflexivity).
    split; [exact H|].
    destruct (manual_report_decided_once Approve Reject q q d H eq_refl)
      as (_ & _ & _ & Hfst & _ & _ & _ & _ & Hadmin).
    split; [exact Hfst | exact (Hadmin Hadm)].
  - assert (H : http_status (snd (decide Reject q d)) = 200)
      by (vm_compute; reflexivity).
    split; [exact H|].
    destruct (manual_report_decided_once Reject Approve q q d H eq_refl)
      as (_ & Hafter & (Hpay & Hsub) & Hfst & _ & _ & _ & _ & Hadmin).
    split; [exact Hafter|]. split; [exact Hpay|]. split; [exact Hsub|].
    split; [exact Hfst | exact (Hadmin Hadm)].
Defined.

(** An admin's rejection of a pending report succeeds. *)
Lemma rejection_of_pending_succeeds (q : decision_request) (d : database)
  (rep : manual_payment_report) :
  requireAdmin (dc_user q) = Returns tt ->
  select_report (dc_id q) d = Some rep ->
  is_pending rep = true ->
  http_status (snd (rejectManualPaymentReport q d)) = 200.
Proof.
  intros Ha Hs Hp. unfold rejectManualPaymentReport. rewrite Ha, Hs, Hp.
  reflexivity.
Qed.

(** Rejecting report 7 on day 80 marks it [rejected] by admin 9 and leaves
    the period of owner 1 and the ledger as they were. *)
Example manual_rejection_sample :
  let d := Sample.db None None in
  let d1 := fst (decide Reject (Sample.decision (Sample.admin 9)) d) in
  option_map report_status (select_report 7 d1) = Some "rejected"
  /\ option_map rejected_by (select_report 7 d1) = Some (Some 9)
  /\ option_map decided_at (select_report 7 d1) = Some (Some (80 * DAY))
  /\ option_map current_period_end (select_owner 1 d1) = Some (TsDate (100 * DAY))
  /\ payments d1 = [].
Proof. vm_compute. repeat split. Qed.

(** Approving report 7 (1500 DOP) on day 80 renews owner 1 from the stored
    period end (day 100) to day 130 and appends one [manual] ledger row. *)
Example manual_approval_sample :
  let d1 := fst (decide Approve (Sample.decision (Sample.admin 9)) (Sample.db None None)) in
  option_map current_period_end (select_owner 1 d1) = Some (TsDate (130 * DAY))
  /\ map (fun p => (provider p, amount p, pay_currency p)) (payments d1)
     = [("manual", Some "1500", Some "DOP")]
  /\ option_map report_status (select_report 7 d1) = Some "approved"
  /\ option_map approved_by (select_report 7 d1) = Some (Some 9).
Proof. vm_compute. repeat split. Qed.

(** ** Payments already in the ledger *)

Lemma same_period_refl (r : subscription) : same_period r r.
Proof. repeat split. Qed.

Lemma same_period_trans (a b c : subscription) :
  same_period a b -> same_period b c -> same_period a c.
Proof.
  unfold same_period. intros (?&?&?&?&?&?&?) (?&?&?&?&?&?&?).
  repeat split; congruence.
Qed.

Lemma Forall2_trans_on {A} (R : A -> A -> Prop) :
  (forall a b c, R a b -> R b c -> R a c) ->
  forall l1 l2 l3, Forall2 R l1 l2 -> Forall2 R l2 l3 -> Forall2 R l1 l3.
Proof.
  intros Ht l1 l2 l3 H12. revert l3.
  induction H12; intros l3 H23; inversion H23; subst; constructor; eauto.
Qed.

Lemma update_owner_same_period (o : Z) (f : subscription -> subscription)
  (d : database) :
  (forall r, same_period r (f r)) ->
  Forall2 same_period (subscriptions d) (subscriptions (update_owner o f d)).
Proof.
  intros Hf. unfold update_owner. cbn [subscriptions with_subscriptions].
  apply Forall2_map_right. intros r.
  destruct (owner_id r =? o); [apply Hf | apply same_period_refl].
Qed.

(** The webhook path: an event whose transaction id already has a
    [paypal_subscription] ledger row renews nothing and inserts nothing;
    at most the provider status and the synced plan code are written. *)
Lemma webhook_known_payment_no_renewal
  (env : environment) (q : webhook_request) (d : database) (tx : string) :
  webhook_transactionId (wh_resource q) = Some tx ->
  payment_exists "paypal_subscription" tx d = true ->
  let (d', r) := paypalWebhook env q d in
  payments d' = payments d
  /\ Forall2 same_period (subscriptions d) (subscriptions d')
  /\ forall b, res_body r <> BodyReceived (Some b).
Proof.
  intros Htx Hex. unfold paypalWebhook.
  assert (Hsame : forall resp, (forall b, res_body resp <> BodyReceived (Some b)) ->
            payments d = payments d
            /\ Forall2 same_period (subscriptions d) (subscriptions d)
            /\ forall b, res_body resp <> BodyReceived (Some b)).
  { intros resp H. split; [reflexivity|]. split; [|exact H].
    apply Forall2_refl_on, same_period_refl. }
  destruct (verifyPaypalWebhookSignature _ _ _ _) as [[|]|e];
    try (apply Hsame; intros b; differ).
  destruct (webhook_subscriptionId (wh_resource q)) as [sid|];
    [|apply Hsame; intros b; differ].
  destruct (find _ (subscriptions d)) as [located|] eqn:F;
    [|apply Hsame; intros b; differ].
  set (o := owner_id located).
  set (sql := rn_sql (wh_renew q)).
  set (d1 := if JS.startsWith _ _ then _ else d).
  assert (H1 : payments d1 = payments d
               /\ Forall2 same_period (subscriptions d) (subscriptions d1)).
  { subst d1. destruct (JS.startsWith _ _).
    - split; [reflexivity|]. apply update_owner_same_period. intros r. repeat split.
    - split; [reflexivity|]. apply Forall2_refl_on, same_period_refl. }
  destruct H1 as [Hp1 Hs1].
  rewrite Htx.
  destruct (isPaymentSuccessEvent _).
  2:{ split; [exact Hp1|]. split; [exact Hs1|]. intros b. differ. }
  set (d2 := match webhook_synced_plan env q with Some pc => _ | None => d1 end).
  assert (H2 : payments d2 = payments d
               /\ Forall2 same_period (subscriptions d) (subscriptions d2)).
  { subst d2. destruct (webhook_synced_plan env q) as [pc|]; [|now split].
    split; [exact Hp1|].
    eapply Forall2_trans_on; [apply same_period_trans | exact Hs1 |].
    apply update_owner_same_period. intros r. repeat split. }
  destruct H2 as [Hp2 Hs2].
  assert (E : payment_exists "paypal_subscription" tx d2 = true).
  { unfold payment_exists in *. now rewrite Hp2. }
  rewrite E. split; [exact Hp2|]. split; [exact Hs2|]. intros b. differ.
Qed.

(** A delivery that renews appends exactly one [paypal_subscription] ledger
    row, keyed by the transaction id of the event. *)
Lemma webhook_renewal_records_payment
  (env : environment) (q : webhook_request) (d : database) (b : bool) :
  res_body (snd (paypalWebhook env q d)) = BodyReceived (Some b) ->
  exists tx p,
    webhook_transactionId (wh_resource q) = Some tx
    /\ payment_exists "paypal_subscription" tx d = false
    /\ payments (fst (paypalWebhook env q d)) = (payments d ++ [p])%list
    /\ provider p = "paypal_subscription" /\ provider_payment_id p = Some tx
    /\ payment_exists "paypal_subscription" tx (fst (paypalWebhook env q d)) = true.
Proof.
  unfold paypalWebhook.
  destruct (verifyPaypalWebhookSignature _ _ _ _) as [[|]|e]; try (cbn; discriminate).
  destruct (webhook_subscriptionId (wh_resource q)) as [sid|]; [|cbn; discriminate].
  destruct (find _ (subscriptions d)) as [located|] eqn:F; [|cbn; discriminate].
  set (o := owner_id located).
  set (sql := rn_sql (wh_renew q)).
  set (d1 := if JS.startsWith _ _ then _ else d).
  assert (Hp1 : payments d1 = payments d).
  { subst d1. destruct (JS.startsWith _ _); reflexivity. }
  destruct (isPaymentSuccessEvent _); [|cbn; discriminate].
  destruct (webhook_transactionId (wh_resource q)) as [tx|]; [|cbn; discriminate].
  set (d2 := match webhook_synced_plan env q with Some pc => _ | None => d1 end).
  assert (Hp2 : payments d2 = payments d).
  { subst d2. destruct (webhook_synced_plan env q); exact Hp1. }
  destruct (payment_exists "paypal_subscription" tx d2) eqn:E; [cbn; discriminate|].
  pose proof (renew_frame (wh_renew q) o d2) as [Hp3 _].
  destruct (renewSubscription30Days (wh_renew q) o d2) as [d3 renewed].
  cbn [fst] in Hp3.
  destruct (paid_at_of _ _) as [paid|e]; [|cbn; discriminate].
  intros _. cbn [fst snd]. exists tx. eexists.
  split; [reflexivity|]. split.
  { unfold payment_exists in *. now rewrite <- Hp2. }
  split.
  { cbn [payments update_owner with_subscriptions insert_payment with_payments].
    rewrite Hp3, Hp2. reflexivity. }
  split; [reflexivity|]. split; [reflexivity|].
  unfold payment_exists.
  cbn [payments update_owner with_subscriptions insert_payment with_payments].
  rewrite existsb_app. cbn. rewrite String.eqb_refl. apply orb_true_r.
Qed.

(** Replaying a webhook delivery: once a delivery has renewed, every later
    delivery that carries the same transaction id leaves the ledger and
    the period boundaries as the first delivery set them. *)
Lemma webhook_replay_is_idempotent
  (env : environment) (q q2 : webhook_request) (d : database) (b : bool) :
  res_body (snd (paypalWebhook env q d)) = BodyReceived (Some b) ->
  webhook_transactionId (wh_resource q2) = webhook_transactionId (wh_resource q) ->
  let d1 := fst (paypalWebhook env q d) in
  payments (fst (paypalWebhook env q2 d1)) = payments d1
  /\ Forall2 same_period (subscriptions d1) (subscriptions (fst (paypalWebhook env q2 d1))).
Proof.
  intros Hr Htx d1.
  destruct (webhook_renewal_records_payment env q d b Hr)
    as (tx & p & Ht & _ & _ & _ & _ & Hex).
  rewrite Ht in Htx.
  pose proof (webhook_known_payment_no_renewal env q2 d1 tx Htx Hex) as H.
  destruct (paypalWebhook env q2 d1) as [d2 r2]. cbn [fst]. tauto.
Qed.

(** C1 on the code, order-capture path: the provider answers the capture
    of [ORDER-1] with the completed capture [CAP-1] twice.  Each call
    renews and appends a ledger row: after the second call the pair
    [(paypal, CAP-1)] has two rows and the period end has moved from day
    130 to day 160. *)
Lemma capture_replay_renews_twice :
  let d := Sample.db None None in
  let d1 := fst (paypalCaptureOrder Sample.env Sample.capture d) in
  let d2 := fst (paypalCaptureOrder Sample.env Sample.capture d1) in
  payment_exists "paypal" "CAP-1" d1 = true
  /\ map (fun p => (provider p, provider_payment_id p)) (payments d1)
     = [("paypal", Some "CAP-1")]
  /\ option_map current_period_end (select_owner 1 d1) = Some (TsDate (130 * DAY))
  /\ http_status (snd (paypalCaptureOrder Sample.env Sample.capture d1)) = 200
  /\ map (fun p => (provider p, provider_payment_id p)) (payments d2)
     = [("paypal", Some "CAP-1"); ("paypal", Some "CAP-1")]
  /\ option_map current_period_end (select_owner 1 d2) = Some (TsDate (160 * DAY)).
Proof. vm_compute. repeat split. Qed.

(** The webhook path at the same kind of replay: the second delivery of
    [SALE-1] leaves one ledger row and the period end of the first. *)
Example webhook_replay_sample :
  let q := Sample.sale_event (Some (Sample.sale (Some "I-SUB1")))
             (Sample.provider_sub "ACTIVE" (Some "P-PRO")) in
  let d1 := fst (paypalWebhook Sample.env q (Sample.db None None)) in
  let d2 := fst (paypalWebhook Sample.env q d1) in
  map (fun p => (provider p, provider_payment_id p)) (payments d2)
  = [("paypal_subscription", Some "SALE-1")]
  /\ option_map current_period_end (select_owner 1 d1) = Some (TsDate (130 * DAY))
  /\ option_map current_period_end (select_owner 1 d2) = Some (TsDate (130 * DAY)).
Proof. vm_compute. repeat split. Qed.

(** * Further properties of the engine *)

(** ** Pricing *)

(** The price as a function of the two counts. *)
Lemma computeMonthlyPriceDop_total (u : usage_counts) :
  let s := shopCount u in
  let p := professionalCount u in
  total (computeMonthlyPriceDop u)
  = if (s <=? 1) && (p <=? 2) then Some 1000
    else if (s <=? 1) && (p <=? 3) then Some 1500
    else if (s <=? 2) && (p <=? 6) then Some 2000
    else if (s <=? 3) && (p <=? 12) then Some 2500
    else None.
Proof.
  intros s p.
  destruct (computeMonthlyPriceDop_selected u) as (_ & -> & _).
  fold s p. unfold selectTierForUsage. cbn [sel_tier].
  unfold PLAN_TIERS, accommodates. cbn -[Z.max Z.leb].
  repeat match goal with
         | |- context [(Z.max 0 ?a <=? ?b)] =>
             replace (Z.max 0 a <=? b) with (a <=? b)
               by (destruct (Z.leb_spec a b), (Z.leb_spec (Z.max 0 a) b); lia)
         end.
  repeat match goal with
         | |- context [if ?c then _ else _] => destruct c; cbn; try reflexivity
         end.
Qed.

(** X1: the price never goes down when the usage grows: with no more
    shops and no more professionals the total is at most the total of the
    larger usage, and a usage above one that is over the limit is over the
    limit too. *)
Theorem price_is_monotone (u u' : usage_counts) :
  shopCount u <= shopCount u' ->
  professionalCount u <= professionalCount u' ->
  match total (computeMonthlyPriceDop u), total (computeMonthlyPriceDop u') with
  | Some a, Some b => a <= b
  | None, Some _ => False
  | _, None => isOverLimit (computeMonthlyPriceDop u') = true
  end.
Proof.
  intros Hs Hp.
  assert (Hover : total (computeMonthlyPriceDop u') = None ->
                  isOverLimit (computeMonthlyPriceDop u') = true).
  { destruct (computeMonthlyPriceDop_selected u') as (_ & -> & -> & _).
    destruct (sel_tier _); [discriminate | reflexivity]. }
  revert Hover. rewrite !computeMonthlyPriceDop_total.
  repeat match goal with
         | |- context [(?a <=? ?b)] => destruct (Z.leb_spec a b)
         end; cbn; intros Hover; try lia; auto.
Qed.

Lemma price_is_monotone_sample :
  let u s p := {| shopCount := s; professionalCount := p;
                  barbersCount := p; ownerCountsAsProfessional := false |} in
  (shopCount (u 1 3) <= shopCount (u 2 3)
   /\ professionalCount (u 1 3) <= professionalCount (u 2 3))
  /\ match total (computeMonthlyPriceDop (u 1 3)),
           total (computeMonthlyPriceDop (u 2 3)) with
     | Some a, Some b => a <= b
     | None, Some _ => False
     | _, None => isOverLimit (computeMonthlyPriceDop (u 2 3)) = true
     end.
Proof.
  intros u.
  assert (H1 : shopCount (u 1 3) <= shopCount (u 2 3)) by (cbn; lia).
  assert (H2 : professionalCount (u 1 3) <= professionalCount (u 2 3)) by (cbn; lia).
  split; [split; assumption|].
  exact (price_is_monotone (u 1 3) (u 2 3) H1 H2).
Defined.

(** ** The subscription store *)

Lemma same_boundaries_refl (r : subscription) : same_boundaries r r.
Proof. repeat split. Qed.

Lemma same_boundaries_trans (a b c : subscription) :
  same_boundaries a b -> same_boundaries b c -> same_boundaries a c.
Proof.
  unfold same_boundaries. intros (?&?&?&?) (?&?&?&?). repeat split; congruence.
Qed.

Lemma keeps_paid_windows_refl (d : database) : keeps_paid_windows d d.
Proof.
  split; [reflexivity|]. intros o r H. exists r. split; [exact H|].
  apply same_boundaries_refl.
Qed.

Lemma keeps_paid_windows_trans (a b c : database) :
  keeps_paid_windows a b -> keeps_paid_windows b c -> keeps_paid_windows a c.
Proof.
  intros [Hp1 H1] [Hp2 H2]. split; [congruence|].
  intros o r Hr. destruct (H1 o r Hr) as (r1 & Hr1 & S1).
  destruct (H2 o r1 Hr1) as (r2 & Hr2 & S2).
  exists r2. split; [exact Hr2|]. eapply same_boundaries_trans; eauto.
Qed.

(** An [UPDATE ... WHERE owner_id] whose [SET] list leaves the paid window
    alone. *)
Lemma update_owner_keeps_paid_windows (o : Z) (f : subscription -> subscription)
  (d : database) :
  (forall r, same_boundaries r (f r)) ->
  keeps_paid_windows d (update_owner o f d).
Proof.
  intros Hf. split; [reflexivity|]. intros o' r Hr.
  assert (Hown : forall x, owner_id (f x) = owner_id x) by (intros x; apply Hf).
  destruct (Z.eq_dec o' o) as [->|Hne].
  - rewrite select_owner_update by exact Hown. rewrite Hr. cbn.
    eexists. split; [reflexivity|]. apply Hf.
  - rewrite select_other_update by assumption.
    exists r. split; [exact Hr|]. apply same_boundaries_refl.
Qed.

Lemma select_owner_app_other (o o' : Z) (d : database) (r : subscription) :
  owner_id r = o -> o' <> o ->
  find (fun x => owner_id x =? o') (subscriptions d ++ [r])
  = select_owner o' d.
Proof.
  intros Ho Hne. unfold select_owner.
  induction (subscriptions d) as [|a l IH]; cbn.
  - rewrite Ho. destruct (o =? o') eqn:E; [apply Z.eqb_eq in E; congruence|reflexivity].
  - destruct (owner_id a =? o'); [reflexivity | exact IH].
Qed.

Lemma getOrCreate_keeps_paid_windows (t o : Z) (d : database) :
  keeps_paid_windows d (fst (getOrCreateOwnerSubscription t o d)).
Proof.
  pose proof (getOrCreate_selects t o d) as G.
  destruct (getOrCreateOwnerSubscription t o d) as [d1 sub]. cbn [fst].
  destruct G as (Hsel & Hown & Hp & _ & _ & _ & Hcase).
  destruct (select_owner o d) as [r0|] eqn:E.
  - destruct Hcase as [-> _]. apply keeps_paid_windows_refl.
  - destruct Hcase as [Hsubs _]. split; [exact Hp|].
    intros o' r Hr. exists r. split; [|apply same_boundaries_refl].
    destruct (Z.eq_dec o' o) as [->|Hne]; [congruence|].
    unfold select_owner at 1. rewrite Hsubs.
    rewrite (select_owner_app_other o o' d sub Hown Hne). exact Hr.
Qed.

(** X2: the first access of an owner without a row appends a row that is
    Active for 30 days from the creation, in Grace for 5 more days and
    Blocked after; the next access finds that row and changes nothing. *)
Theorem lazy_subscription_lifecycle (t t' now o : Z) (d : database) :
  select_owner o d = None ->
  let d1 := fst (getOrCreateOwnerSubscription t o d) in
  let sub := snd (getOrCreateOwnerSubscription t o d) in
  let st := computeSubscriptionState now sub in
  subscriptions d1 = (subscriptions d ++ [sub])%list
  /\ owner_id sub = o /\ status sub = "active"
  /\ getOrCreateOwnerSubscription t' o d1 = (d1, sub)
  /\ (isActive st = true <-> now <= t + 30 * DAY)
  /\ (isInGrace st = true <-> t + 30 * DAY < now <= t + 35 * DAY)
  /\ (isBlocked st = true <-> t + 35 * DAY < now).
Proof.
  intros Hnone d1 sub st.
  pose proof (getOrCreate_selects t o d) as G.
  subst d1 sub st.
  destruct (getOrCreateOwnerSubscription t o d) as [d1 sub]. cbn [fst snd].
  destruct G as (Hsel & Hown & _ & _ & _ & _ & Hcase).
  rewrite Hnone in Hcase. destruct Hcase as [Hsubs Hrow].
  split; [exact Hsubs|]. split; [exact Hown|].
  split; [rewrite Hrow; reflexivity|].
  split; [unfold getOrCreateOwnerSubscription; now rewrite Hsel|].
  rewrite Hrow. unfold computeSubscriptionState. cbn.
  destruct (Z.leb_spec now (t + 30 * DAY)); cbn;
    destruct (Z.leb_spec now (t + 30 * DAY + 5 * DAY)); cbn;
    unfold DAY in *; repeat split; intros; try lia; try discriminate; auto.
Qed.

Lemma lazy_subscription_lifecycle_sample :
  let d := Sample.db None None in
  select_owner 2 d = None
  /\ isInGrace (computeSubscriptionState (32 * DAY)
                  (snd (getOrCreateOwnerSubscription 0 2 d))) = true.
Proof.
  intros d.
  assert (H : select_owner 2 d = None) by reflexivity.
  split; [exact H|].
  destruct (lazy_subscription_lifecycle 0 0 (32 * DAY) 2 d H)
    as (_ & _ & _ & _ & _ & Hg & _).
  apply Hg. unfold DAY. lia.
Defined.

(** ** Expiry notifications *)

Lemma ensureDaily_cases (now sql o : Z) (row : subscription) (d : database) :
  let d1 := fst (ensureDailySubscriptionExpiredNotification now sql o row d) in
  d1 = d
  \/ (isActive (computeSubscriptionState now row) = false
      /\ parsePgTimestamp (current_period_end row) <> None
      /\ has_user d o = true
      /\ exists n,
           notif_user_id n = o /\ notif_type n = "SUBSCRIPTION_EXPIRED"
           /\ notifications d1 = (notifications d ++ [n])%list
           /\ d1 = update_owner o
                     (fun r => {| owner_id := owner_id r; status := status r;
                        current_period_start := current_period_start r;
                        current_period_end := current_period_end r;
                        grace_period_end := grace_period_end r;
                        last_alert_sent_at := TsDate sql;
                        billing_provider := billing_provider r;
                        plan_code := plan_code r;
                        paypal_subscription_id := paypal_subscription_id r;
                        paypal_subscription_status := paypal_subscription_status r;
                        pending_plan_code := pending_plan_code r;
                        pending_plan_effective_at := pending_plan_effective_at r;
                        updated_at := TsDate sql |})
                     (with_notifications d (notifications d ++ [n]))).
Proof.
  intros d1. subst d1. unfold ensureDailySubscriptionExpiredNotification.
  destruct (is_null (periodEnd (computeSubscriptionState now row))) eqn:N;
    [left; reflexivity|].
  destruct (isActive (computeSubscriptionState now row)) eqn:A; [left; reflexivity|].
  destruct (same_day _ _); [left; reflexivity|].
  destruct (has_user d o) eqn:U; cbn [negb]; [|left; reflexivity].
  right. split; [reflexivity|]. split.
  { cbn in N. destruct (parsePgTimestamp (current_period_end row));
      [discriminate | discriminate N]. }
  split; [reflexivity|].
  eexists. split; [|split; [|split; [|reflexivity]]]; reflexivity.
Qed.

(** X3: once the side effect of a read has inserted an expiry
    notification for an owner, a later read of the stamped row on the same
    UTC day inserts none: it returns and the database is left as it is. *)
Theorem expiry_notification_once_a_day
  (now sql now2 sql2 o : Z) (row row1 : subscription) (d : database) :
  let d1 := fst (ensureDailySubscriptionExpiredNotification now sql o row d) in
  notifications d1 <> notifications d ->
  select_owner o d1 = Some row1 ->
  dayKey now2 = dayKey sql ->
  ensureDailySubscriptionExpiredNotification now2 sql2 o row1 d1 = (d1, Returns tt).
Proof.
  intros d1 Hgrew Hrow Hday.
  destruct (ensureDaily_cases now sql o row d)
    as [E | (_ & _ & _ & n & _ & _ & _ & E)];
    fold d1 in E; [rewrite E in Hgrew; contradiction|].
  assert (Hlast : last_alert_sent_at row1 = TsDate sql).
  { rewrite E in Hrow. rewrite select_owner_update in Hrow by reflexivity.
    destruct (select_owner o _); [|discriminate]. cbn in Hrow.
    injection Hrow as <-. reflexivity. }
  unfold ensureDailySubscriptionExpiredNotification.
  destruct (is_null _); [reflexivity|].
  destruct (isActive _); [reflexivity|].
  rewrite Hlast. cbn [parsePgTimestamp same_day st_now computeSubscriptionState].
  rewrite Hday, Z.eqb_refl. reflexivity.
Qed.

(** X3 at a sample: owner 1 has an account, so the first read on day
    101 inserts the notification; a read an hour later inserts none. *)
Lemma expiry_notification_once_a_day_sample :
  let d := Sample.db None None in
  let row := Sample.sub1 None None in
  let d1 := fst (ensureDailySubscriptionExpiredNotification
                   (101 * DAY) (101 * DAY) 1 row d) in
  has_user d 1 = true
  /\ notifications d1 <> notifications d
  /\ dayKey (101 * DAY + 3600000) = dayKey (101 * DAY)
  /\ exists r1, select_owner 1 d1 = Some r1
       /\ ensureDailySubscriptionExpiredNotification (101 * DAY + 3600000)
            (101 * DAY + 3600000) 1 r1 d1 = (d1, Returns tt).
Proof.
  intros d row d1. split; [reflexivity|].
  assert (H1 : notifications d1 <> notifications d) by (vm_compute; discriminate).
  assert (H2 : dayKey (101 * DAY + 3600000) = dayKey (101 * DAY)) by reflexivity.
  split; [exact H1|]. split; [exact H2|].
  eexists. split; [vm_compute; reflexivity|].
  refine (expiry_notification_once_a_day (101 * DAY) (101 * DAY)
            (101 * DAY + 3600000) (101 * DAY + 3600000) 1 row _ d H1 _ H2).
  vm_compute. reflexivity.
Defined.

(** ** Usage *)

Lemma existsb_all_false {A} (f : A -> bool) (l : list A) :
  (forall x, f x = false) -> existsb f l = false.
Proof. intros H. induction l as [|a l IH]; cbn; [reflexivity | now rewrite H, IH]. Qed.

(** X4: an owner none of whose shops is active counts no shop and no
    professional, whatever staff the deleted shops or other owners have,
    and is priced at the first tier: [basic_1], 1000. *)
Theorem owner_without_active_shop_pays_basic_1 (d : database) (o : Z) :
  no_active_shop d o ->
  let u := computeOwnerUsageCounts d o in
  shopCount u = 0 /\ professionalCount u = 0
  /\ ownerCountsAsProfessional u = false
  /\ option_map code (tier (computeMonthlyPriceDop u)) = Some "basic_1"
  /\ total (computeMonthlyPriceDop u) = Some 1000
  /\ isOverLimit (computeMonthlyPriceDop u) = false.
Proof.
  intros Hno u.
  assert (Hnil : filter (fun s => opt_eqb (shop_owner_id s) o
                                  && is_null (shop_deleted_at s)) (barber_shops d) = []).
  { unfold no_active_shop in Hno. revert Hno.
    induction (barber_shops d) as [|s l IH]; intros Hno; [reflexivity|]. cbn.
    assert (IH' : filter (fun s0 => opt_eqb (shop_owner_id s0) o
                                    && is_null (shop_deleted_at s0)) l = [])
      by (apply IH; intros s' Hin; apply Hno; now right).
    destruct (opt_eqb (shop_owner_id s) o) eqn:E; cbn; [|exact IH'].
    unfold opt_eqb in E. destruct (shop_owner_id s) as [x|] eqn:Ho; [|discriminate].
    apply Z.eqb_eq in E. subst x.
    assert (Hd : shop_deleted_at s <> None) by (apply Hno; [now left | exact Ho]).
    destruct (shop_deleted_at s); [exact IH' | contradiction]. }
  assert (Hu : u = {| shopCount := 0; professionalCount := 0; barbersCount := 0;
                      ownerCountsAsProfessional := false |}).
  { subst u. unfold computeOwnerUsageCounts. rewrite Hnil. cbn [map List.length].
    assert (Hex : existsb (fun x => (user_id x =? o) && is_null (user_deleted_at x)
                     && match user_shop_id x with
                        | Some sid => existsb (Z.eqb sid) []
                        | None => false
                        end) (users d) = false).
    { apply existsb_all_false. intros x.
      destruct (user_shop_id x); cbn; apply andb_false_r. }
    rewrite Hex. reflexivity. }
  rewrite Hu. cbn. repeat split.
Qed.

Lemma owner_without_active_shop_sample :
  no_active_shop (Sample.db None None) 2
  /\ total (computeMonthlyPriceDop (computeOwnerUsageCounts (Sample.db None None) 2))
     = Some 1000.
Proof.
  assert (H : no_active_shop (Sample.db None None) 2).
  { intros s [<- | [<- | []]]; cbn; discriminate. }
  split; [exact H|].
  exact (proj1 (proj2 (proj2 (proj2 (proj2
           (owner_without_active_shop_pays_basic_1 (Sample.db None None) 2 H)))))).
Defined.

(** ** What the gate writes *)

Lemma ensureDaily_footprint (now sql o : Z) (row : subscription) (d : database) :
  let d1 := fst (ensureDailySubscriptionExpiredNotification now sql o row d) in
  keeps_paid_windows d d1
  /\ manual_payment_reports d1 = manual_payment_reports d
  /\ barber_shops d1 = barber_shops d /\ users d1 = users d
  /\ subscription_owners d1 = subscription_owners d
  /\ (notifications d1 = notifications d
      \/ exists n, notifications d1 = (notifications d ++ [n])%list
                   /\ notif_user_id n = o
                   /\ notif_type n = "SUBSCRIPTION_EXPIRED").
Proof.
  intros d1.
  destruct (ensureDaily_cases now sql o row d)
    as [E | (_ & _ & _ & n & Hu & Ht & Hn & E)]; fold d1 in E |- *.
  - rewrite E. split; [apply keeps_paid_windows_refl|]. repeat split; auto.
  - split.
    { rewrite E. eapply keeps_paid_windows_trans;
        [|apply update_owner_keeps_paid_windows; intros r; repeat split].
      split; [reflexivity|]. intros o' r Hr. exists r.
      split; [exact Hr | apply same_boundaries_refl]. }
    rewrite E. repeat split.
    + unfold subscription_owners, update_owner.
      cbn [subscriptions with_subscriptions with_notifications].
      rewrite map_map. apply map_ext. intros r. now destruct (owner_id r =? o).
    + right. exists n. rewrite <- E. auto.
Qed.



(** ** Renewal composed with itself and with the gate *)

Lemma renewal_start_ge (now : Z) (v : tsval) : now <= renewal_start now v.
Proof. rewrite renewal_start_max. destruct v; lia. Qed.

(** The row a renewal returns and stores first for the owner. *)
Lemma renew_selects (c : renew_clock) (o : Z) (d : database) :
  exists start pc sub0,
    rn_now c <= start
    /\ start = renewal_start (rn_now c) (current_period_end sub0)
    /\ sub0 = snd (getOrCreateOwnerSubscription (rn_create c) o d)
    /\ select_owner o (fst (renewSubscription30Days c o d))
       = Some (set_renewed start pc (rn_sql c) sub0)
    /\ snd (renewSubscription30Days c o d)
       = Some (set_renewed start pc (rn_sql c) sub0)
    /\ payments (fst (renewSubscription30Days c o d)) = payments d.
Proof.
  unfold renewSubscription30Days.
  pose proof (getOrCreate_selects (rn_create c) o d) as G.
  destruct (getOrCreateOwnerSubscription (rn_create c) o d) as [d1 sub].
  destruct G as (Hsel & Hown & Hp & _).
  cbn [fst snd].
  exists (renewal_start (rn_now c) (current_period_end sub)).
  eexists. exists sub.
  split; [apply renewal_start_ge|]. split; [reflexivity|]. split; [reflexivity|].
  rewrite select_owner_update by apply set_renewed_owner.
  rewrite Hsel. cbn [option_map]. repeat split. exact Hp.
Qed.

Lemma renew_users (c : renew_clock) (o : Z) (d : database) :
  users (fst (renewSubscription30Days c o d)) = users d.
Proof.
  unfold renewSubscription30Days.
  pose proof (getOrCreate_users (rn_create c) o d) as U.
  destruct (getOrCreateOwnerSubscription (rn_create c) o d) as [d1 sub].
  exact U.
Qed.

(** X6: right after a renewal the gate lets the owner through: for every
    reading of the clock up to 30 days after the renewal the gate by owner
    returns the renewed row with the state Active. The reading of the
    notification step is within the 30 days too, or else the owner has a
    row in [users]. *)
Theorem renewed_owner_passes_the_gate
  (rc : renew_clock) (gc : gate_clock) (o : Z) (d : database) :
  at_state gc <= rn_now rc + 30 * DAY ->
  at_notify gc <= rn_now rc + 30 * DAY \/ has_user d o = true ->
  let d1 := fst (renewSubscription30Days rc o d) in
  exists p,
    snd (enforceOwnerSubscriptionForManagement gc (Some o) d1) = Returns p
    /\ gp_ownerId p = o
    /\ snd (renewSubscription30Days rc o d) = Some (gp_subscription p)
    /\ isActive (gp_state p) = true /\ isBlocked (gp_state p) = false.
Proof.
  intros Hnow Hnotify d1.
  destruct (renew_selects rc o d) as (start & pc & sub0 & Hge & _ & _ & Hsel & Hret & _).
  fold d1 in Hsel.
  unfold enforceOwnerSubscriptionForManagement, getOrCreateOwnerSubscription.
  rewrite Hsel.
  assert (A : isActive (computeSubscriptionState (at_state gc)
                          (set_renewed start pc (rn_sql rc) sub0)) = true).
  { unfold computeSubscriptionState. cbn -[Z.leb Z.add Z.mul].
    apply Z.leb_le. lia. }
  assert (B : isBlocked (computeSubscriptionState (at_state gc)
                           (set_renewed start pc (rn_sql rc) sub0)) = false).
  { unfold computeSubscriptionState in *. cbn in *. now rewrite A. }
  assert (R : snd (ensureDailySubscriptionExpiredNotification (at_notify gc)
                     (at_sql gc) o (set_renewed start pc (rn_sql rc) sub0) d1)
              = Returns tt).
  { destruct Hnotify as [Hn | Hu].
    - unfold ensureDailySubscriptionExpiredNotification.
      assert (A' : isActive (computeSubscriptionState (at_notify gc)
                               (set_renewed start pc (rn_sql rc) sub0)) = true).
      { unfold computeSubscriptionState. cbn -[Z.leb Z.add Z.mul].
        apply Z.leb_le. lia. }
      rewrite A'. destruct (is_null _); reflexivity.
    - apply ensureDaily_returns. unfold has_user in *. subst d1.
      now rewrite renew_users. }
  destruct (ensureDailySubscriptionExpiredNotification _ _ o _ d1) as [d2 [[]|e]];
    cbn [snd] in R; [|discriminate R].
  rewrite B. cbn [snd]. eexists. split; [reflexivity|].
  cbn [gp_ownerId gp_subscription gp_state]. auto.
Qed.

Lemma renewed_owner_passes_the_gate_sample :
  let rc := Sample.clock 120 in
  let gc := Sample.gate_at 149 in
  let d := Sample.db None None in
  at_state gc <= rn_now rc + 30 * DAY
  /\ at_notify gc <= rn_now rc + 30 * DAY
  /\ isBlocked (computeSubscriptionState (120 * DAY) (Sample.sub1 None None)) = true
  /\ exists p,
       snd (enforceOwnerSubscriptionForManagement gc (Some 1)
              (fst (renewSubscription30Days rc 1 d))) = Returns p
       /\ gp_ownerId p = 1
       /\ snd (renewSubscription30Days rc 1 d) = Some (gp_subscription p)
       /\ isActive (gp_state p) = true /\ isBlocked (gp_state p) = false.
Proof.
  intros rc gc d.
  assert (H : at_state gc <= rn_now rc + 30 * DAY) by (vm_compute; discriminate).
  assert (H' : at_notify gc <= rn_now rc + 30 * DAY) by (vm_compute; discriminate).
  split; [exact H|]. split; [exact H'|]. split; [reflexivity|].
  exact (renewed_owner_passes_the_gate rc gc 1 d H (or_introl H')).
Defined.

(** Why the reading of the notification step matters: owner 1 has no row
    in [users] and is renewed on day 120 until day 150; a gate call reads
    the clock at the very end of day 150 for the state, which is Active,
    and one millisecond later for the notification step, which finds the
    period over and raises on the [INSERT]. *)
Example renewed_orphaned_owner_late_reading :
  let rc := Sample.clock 120 in
  let gc := {| at_create := 150 * DAY; at_state := 150 * DAY;
               at_notify := 150 * DAY + 1; at_sql := 150 * DAY + 1 |} in
  let d1 := fst (renewSubscription30Days rc 1 Sample.orphaned) in
  at_state gc <= rn_now rc + 30 * DAY
  /\ snd (enforceOwnerSubscriptionForManagement gc (Some 1) d1)
     = Throws (foreign_key_error "notifications" "notifications_user_id_fkey").
Proof. vm_compute. split; [discriminate | reflexivity]. Qed.

(** X7: renewals stack: a second renewal made before the end of the period
    the first one set (or at that end) starts its period at that end, so
    the two together give 60 days from the start of the first, with the
    grace end 5 days later. *)
Theorem renewals_stack (c1 c2 : renew_clock) (o : Z) (d : database)
  (r1 : subscription) (end1 : Z) :
  let d1 := fst (renewSubscription30Days c1 o d) in
  let d2 := fst (renewSubscription30Days c2 o d1) in
  select_owner o d1 = Some r1 ->
  current_period_end r1 = TsDate end1 ->
  rn_now c2 <= end1 ->
  exists start r2,
    rn_now c1 <= start
    /\ current_period_start r1 = TsDate start
    /\ end1 = start + 30 * DAY
    /\ select_owner o d2 = Some r2
    /\ current_period_start r2 = TsDate end1
    /\ current_period_end r2 = TsDate (start + 60 * DAY)
    /\ grace_period_end r2 = TsDate (start + 65 * DAY)
    /\ payments d2 = payments d.
Proof.
  intros d1 d2 Hr1 Hend Hnow.
  destruct (renew_selects c1 o d) as (start & pc & sub0 & Hge & _ & _ & Hsel & _ & Hp1).
  fold d1 in Hsel, Hp1.
  destruct (renew_selects c2 o d1) as (start2 & pc2 & sub1 & _ & Hs2 & Hsub1 & Hsel2 & _ & Hp2).
  fold d2 in Hsel2, Hp2.
  rewrite Hsel in Hr1. injection Hr1 as <-.
  cbn [current_period_end set_renewed] in Hend. injection Hend as <-.
  assert (E1 : sub1 = set_renewed start pc (rn_sql c1) sub0).
  { rewrite Hsub1. unfold getOrCreateOwnerSubscription. now rewrite Hsel. }
  assert (E2 : start2 = start + 30 * DAY).
  { rewrite Hs2, E1. cbn [current_period_end set_renewed renewal_start].
    destruct (Z.ltb_spec (rn_now c2) (start + 30 * DAY)); unfold DAY in *; lia. }
  exists start. eexists.
  split; [exact Hge|]. split; [reflexivity|]. split; [reflexivity|].
  split; [exact Hsel2|].
  cbn [current_period_start current_period_end grace_period_end set_renewed].
  rewrite E2. repeat split; try (f_equal; unfold DAY; lia).
  congruence.
Qed.

(** X7 at a sample: the row is paid until day 100; renewed on day 80 it
    runs to day 130, and a second renewal on day 120, more than 30 days
    after the first but before day 130, runs it to day 160. *)
Lemma renewals_stack_sample :
  let c1 := Sample.clock 80 in
  let c2 := Sample.clock 120 in
  let d := Sample.db None None in
  let d1 := fst (renewSubscription30Days c1 1 d) in
  let d2 := fst (renewSubscription30Days c2 1 d1) in
  rn_now c1 + 30 * DAY < rn_now c2 <= 130 * DAY
  /\ option_map current_period_end (select_owner 1 d1) = Some (TsDate (130 * DAY))
  /\ exists start r2,
       start = 100 * DAY
       /\ select_owner 1 d2 = Some r2
       /\ current_period_start r2 = TsDate (130 * DAY)
       /\ current_period_end r2 = TsDate (start + 60 * DAY)
       /\ grace_period_end r2 = TsDate (start + 65 * DAY).
Proof.
  intros c1 c2 d d1 d2.
  assert (H : rn_now c2 <= 130 * DAY) by (vm_compute; discriminate).
  split; [split; [vm_compute; reflexivity | exact H]|].
  split; [vm_compute; reflexivity|].
  destruct (select_owner 1 d1) as [r1|] eqn:Hr1; [|vm_compute in Hr1; discriminate Hr1].
  assert (Hend : current_period_end r1 = TsDate (130 * DAY)).
  { vm_compute in Hr1. injection Hr1 as <-. vm_compute. reflexivity. }
  assert (Hst : current_period_start r1 = TsDate (100 * DAY)).
  { vm_compute in Hr1. injection Hr1 as <-. vm_compute. reflexivity. }
  destruct (renewals_stack c1 c2 1 d r1 (130 * DAY) Hr1 Hend H)
    as (start & r2 & _ & Hs & _ & H2 & H3 & H4 & H5 & _).
  assert (E : start = 100 * DAY) by congruence.
  exists start, r2. repeat split; assumption.
Defined.

(** ** Webhook *)

Lemma verify_throws_status (env : environment) (h : webhook_headers)
  (tok : fetch_reply token_data) (r : fetch_reply verify_data) (e : js_error) :
  verifyPaypalWebhookSignature env h tok r = Throws e ->
  err_status e = Some 400 \/ err_status e = Some 500 \/ err_status e = Some 502.
Proof.
  unfold verifyPaypalWebhookSignature.
  destruct (String.eqb _ ""); [intros [= <-]; cbn; auto|].
  destruct (negb _); [intros [= <-]; cbn; auto|].
  destruct (getPaypalAccessToken env tok) as [t|e'] eqn:T.
  - destruct (negb (ok r)); [intros [= <-]; cbn; auto | discriminate].
  - intros [= <-]. destruct (getPaypalAccessToken_throws _ _ _ T); auto.
Qed.

(** X8: an event whose signature is not verified (the verification
    answers anything but SUCCESS, or cannot be made) is refused with 400,
    500 or 502 and nothing of the payload reaches the database. *)
Theorem webhook_unverified_changes_nothing
  (env : environment) (q : webhook_request) (d : database) :
  verifyPaypalWebhookSignature env (wh_headers q) (wh_verify_token q) (wh_verify q)
    <> Returns true ->
  fst (paypalWebhook env q d) = d
  /\ (http_status (snd (paypalWebhook env q d)) = 400
      \/ http_status (snd (paypalWebhook env q d)) = 500
      \/ http_status (snd (paypalWebhook env q d)) = 502).
Proof.
  intros Hv. unfold paypalWebhook.
  destruct (verifyPaypalWebhookSignature _ _ _ _) as [[|]|e] eqn:V.
  - contradiction.
  - cbn. auto.
  - cbn [fst snd]. split; [reflexivity|].
    destruct (verify_throws_status _ _ _ _ _ V) as [E|[E|E]];
      unfold catch_reply; rewrite E; cbn; auto.
Qed.

Lemma webhook_unverified_sample :
  let q := {| wh_headers := Sample.headers;
              wh_event_type := Some "PAYMENT.SALE.COMPLETED";
              wh_resource := Some (Sample.sale (Some "I-SUB1"));
              wh_verify_token := Sample.token;
              wh_verify := {| ok := true;
                              data := Some {| verification_status := Some "FAILURE";
                                              verify_message := None |} |};
              wh_sync_token := Sample.token;
              wh_sync := Sample.provider_sub "ACTIVE" None;
              wh_renew := Sample.clock 80; wh_now := 80 * DAY |} in
  let d := Sample.db None None in
  verifyPaypalWebhookSignature Sample.env (wh_headers q) (wh_verify_token q)
    (wh_verify q) <> Returns true
  /\ fst (paypalWebhook Sample.env q d) = d
  /\ http_status (snd (paypalWebhook Sample.env q d)) = 400.
Proof.
  intros q d.
  assert (H : verifyPaypalWebhookSignature Sample.env (wh_headers q)
                (wh_verify_token q) (wh_verify q) <> Returns true)
    by (vm_compute; discriminate).
  split; [exact H|].
  split; [exact (proj1 (webhook_unverified_changes_nothing Sample.env q d H))|].
  vm_compute. reflexivity.
Defined.

(** X9: the webhook renews once per transaction id: a delivery that
    renews appends exactly one [paypal_subscription] ledger row, keyed by
    the transaction id of the event, and every later delivery carrying that
    transaction id, whatever else it carries, appends no row and moves no
    period boundary. *)
Theorem webhook_renews_once_per_transaction
  (env : environment) (q q2 : webhook_request) (d : database) (b : bool) :
  res_body (snd (paypalWebhook env q d)) = BodyReceived (Some b) ->
  webhook_transactionId (wh_resource q2) = webhook_transactionId (wh_resource q) ->
  let d1 := fst (paypalWebhook env q d) in
  let d2 := fst (paypalWebhook env q2 d1) in
  (exists tx p,
      webhook_transactionId (wh_resource q) = Some tx
      /\ payments d1 = (payments d ++ [p])%list
      /\ provider p = "paypal_subscription" /\ provider_payment_id p = Some tx)
  /\ payments d2 = payments d1
  /\ Forall2 same_period (subscriptions d1) (subscriptions d2)
  /\ forall b2, res_body (snd (paypalWebhook env q2 d1)) <> BodyReceived (Some b2).
Proof.
  intros Hr Htx d1 d2.
  destruct (webhook_renewal_records_payment env q d b Hr)
    as (tx & p & Ht & _ & Hp & Hprov & Hid & Hex).
  split; [exists tx, p; auto|].
  rewrite Ht in Htx.
  pose proof (webhook_known_payment_no_renewal env q2 d1 tx Htx Hex) as H.
  subst d2. destruct (paypalWebhook env q2 d1) as [d2 r2]. cbn [fst snd]. exact H.
Qed.

Lemma webhook_renews_once_sample :
  let q := Sample.sale_event (Some (Sample.sale (Some "I-SUB1")))
             (Sample.provider_sub "ACTIVE" (Some "P-PRO")) in
  let d := Sample.db None None in
  let d1 := fst (paypalWebhook Sample.env q d) in
  res_body (snd (paypalWebhook Sample.env q d)) = BodyReceived (Some true)
  /\ payments (fst (paypalWebhook Sample.env q d1)) = payments d1
  /\ List.length (payments d1) = 1%nat.
Proof.
  intros q d d1.
  assert (H : res_body (snd (paypalWebhook Sample.env q d)) = BodyReceived (Some true))
    by (vm_compute; reflexivity).
  split; [exact H|].
  destruct (webhook_renews_once_per_transaction Sample.env q q d true H eq_refl)
    as (_ & Hp & _).
  split; [exact Hp | vm_compute; reflexivity].
Defined.

Lemma failed_event_is_not_success (et : string) :
  JS.includes et "FAILED" = true \/ JS.includes et "DENIED" = true
  \/ JS.includes et "REVERSED" = true \/ JS.includes et "REFUNDED" = true ->
  isPaymentSuccessEvent et = false.
Proof.
  intros H. unfold isPaymentSuccessEvent.
  destruct (String.eqb_spec et "BILLING.SUBSCRIPTION.PAYMENT.SUCCEEDED") as [->|_].
  { vm_compute in H. destruct H as [H|[H|[H|H]]]; discriminate. }
  destruct (String.eqb_spec et "PAYMENT.CAPTURE.COMPLETED") as [->|_].
  { vm_compute in H. destruct H as [H|[H|[H|H]]]; discriminate. }
  destruct (String.eqb_spec et "PAYMENT.SALE.COMPLETED") as [->|_].
  { vm_compute in H. destruct H as [H|[H|[H|H]]]; discriminate. }
  cbn [orb].
  destruct H as [H|[H|[H|H]]]; rewrite H; cbn;
    repeat rewrite ?andb_false_r, ?andb_false_l; reflexivity.
Qed.

Lemma webhook_not_success_no_renewal
  (env : environment) (q : webhook_request) (d : database) :
  isPaymentSuccessEvent (JS.toUpperCase (JS.to_string (wh_event_type q))) = false ->
  payments (fst (paypalWebhook env q d)) = payments d
  /\ Forall2 same_period (subscriptions d) (subscriptions (fst (paypalWebhook env q d)))
  /\ forall b, res_body (snd (paypalWebhook env q d)) <> BodyReceived (Some b).
Proof.
  intros Hno. unfold paypalWebhook.
  assert (Hsame : forall resp, (forall b, res_body resp <> BodyReceived (Some b)) ->
            payments (fst (d, resp)) = payments d
            /\ Forall2 same_period (subscriptions d) (subscriptions (fst (d, resp)))
            /\ forall b, res_body (snd (d, resp)) <> BodyReceived (Some b)).
  { intros resp H. split; [reflexivity|]. split; [|exact H].
    apply Forall2_refl_on, same_period_refl. }
  destruct (verifyPaypalWebhookSignature _ _ _ _) as [[|]|e];
    try (apply Hsame; intros b; differ).
  destruct (webhook_subscriptionId (wh_resource q)) as [sid|];
    [|apply Hsame; intros b; differ].
  destruct (find _ (subscriptions d)) as [located|] eqn:F;
    [|apply Hsame; intros b; differ].
  rewrite Hno.
  destruct (JS.startsWith _ _); cbn [fst snd].
  - split; [reflexivity|]. split; [|intros b; differ].
    apply update_owner_same_period. intros r. repeat split.
  - split; [reflexivity|]. split; [|intros b; differ].
    apply Forall2_refl_on, same_period_refl.
Qed.

(** X10: an event whose type names a failed, denied, reversed or refunded
    payment never counts as a payment: the handler appends no ledger row
    and moves no period boundary, whatever the event carries. *)
Theorem webhook_failed_payment_never_renews
  (env : environment) (q : webhook_request) (d : database) :
  let et := JS.toUpperCase (JS.to_string (wh_event_type q)) in
  JS.includes et "FAILED" = true \/ JS.includes et "DENIED" = true
  \/ JS.includes et "REVERSED" = true \/ JS.includes et "REFUNDED" = true ->
  payments (fst (paypalWebhook env q d)) = payments d
  /\ Forall2 same_period (subscriptions d) (subscriptions (fst (paypalWebhook env q d)))
  /\ forall b, res_body (snd (paypalWebhook env q d)) <> BodyReceived (Some b).
Proof.
  intros et H. apply webhook_not_success_no_renewal.
  apply failed_event_is_not_success. exact H.
Qed.

Lemma webhook_failed_payment_sample :
  let q := {| wh_headers := Sample.headers;
              wh_event_type := Some "billing.subscription.payment.failed";
              wh_resource := Some (Sample.sale (Some "I-SUB1"));
              wh_verify_token := Sample.token; wh_verify := Sample.verified;
              wh_sync_token := Sample.token;
              wh_sync := Sample.provider_sub "ACTIVE" None;
              wh_renew := Sample.clock 80; wh_now := 80 * DAY |} in
  let d := Sample.db None None in
  JS.includes (JS.toUpperCase (JS.to_string (wh_event_type q))) "FAILED" = true
  /\ payments (fst (paypalWebhook Sample.env q d)) = payments d
  /\ option_map paypal_subscription_status
       (select_owner 1 (fst (paypalWebhook Sample.env q d)))
     = Some (Some "BILLING.SUBSCRIPTION.PAYMENT.FAILED").
Proof.
  intros q d.
  assert (H : JS.includes (JS.toUpperCase (JS.to_string (wh_event_type q))) "FAILED"
              = true) by reflexivity.
  split; [exact H|].
  split; [exact (proj1 (webhook_failed_payment_never_renews Sample.env q d (or_introl H)))|].
  vm_compute. reflexivity.
Defined.

(** ** Failure leaves no trace *)

(** Case analysis on every test of a handler, ending either on the
    database it started from or on a success answer. *)
Ltac rolled_back :=
  repeat match goal with
         | |- context [match ?x with _ => _ end] => destruct x
         end;
  cbn [fst snd];
  try reflexivity;
  let H := fresh in intros H; exfalso; apply H; reflexivity.

(** X11: the handlers that run in a transaction are all-or-nothing: when
    the answer is not the success status (200, or 201 for a new report)
    the database is the one the request found, whether the failure is a
    refusal, a provider error or an error raised after the renewal. *)
Theorem failed_request_changes_nothing (env : environment) (d : database) :
  (forall q, http_status (snd (paypalCreateSubscription env q d)) <> 200 ->
             fst (paypalCreateSubscription env q d) = d)
  /\ (forall q, http_status (snd (paypalConfirmSubscription env q d)) <> 200 ->
                fst (paypalConfirmSubscription env q d) = d)
  /\ (forall q, http_status (snd (paypalWebhook env q d)) <> 200 ->
                fst (paypalWebhook env q d) = d)
  /\ (forall q, http_status (snd (paypalCaptureOrder env q d)) <> 200 ->
                fst (paypalCaptureOrder env q d) = d)
  /\ (forall q, http_status (snd (approveManualPaymentReport q d)) <> 200 ->
                fst (approveManualPaymentReport q d) = d)
  /\ (forall q, http_status (snd (rejectManualPaymentReport q d)) <> 200 ->
                fst (rejectManualPaymentReport q d) = d)
  /\ (forall q, ans_status (snd (createManualPaymentReport q d)) <> 201 ->
                fst (createManualPaymentReport q d) = d)
  /\ (forall q, ans_status (snd (adminActivateSubscription q d)) <> 200 ->
                fst (adminActivateSubscription q d) = d).
Proof.
  repeat split; intros q.
  - unfold paypalCreateSubscription. rolled_back.
  - unfold paypalConfirmSubscription. rolled_back.
  - unfold paypalWebhook. rolled_back.
  - unfold paypalCaptureOrder. rolled_back.
  - unfold approveManualPaymentReport. rolled_back.
  - unfold rejectManualPaymentReport. rolled_back.
  - unfold createManualPaymentReport. rolled_back.
  - unfold adminActivateSubscription. rolled_back.
Qed.

Lemma failed_request_sample :
  let r := {| billing_agreement_id := Some "I-SUB1"; res_id := Some "SALE-9";
              subscription_id := None; sale_id := None; transaction_id := None;
              res_status := None;
              amount_total := Some "35.00"; amount_value := None;
              amount_amount := None;
              amount_currency := Some "usd"; amount_currency_code := None;
              amount_currencyCode := None;
              res_time := TsInvalid; res_create_time := TsNull |} in
  let q := Sample.sale_event (Some r) (Sample.provider_sub "ACTIVE" None) in
  let d := Sample.db None None in
  http_status (snd (paypalWebhook Sample.env q d)) = 500
  /\ fst (paypalWebhook Sample.env q d) = d.
Proof.
  intros r q d.
  assert (H : http_status (snd (paypalWebhook Sample.env q d)) = 500)
    by (vm_compute; reflexivity).
  split; [exact H|].
  apply (proj1 (proj2 (proj2 (failed_request_changes_nothing Sample.env d))) q).
  rewrite H. discriminate.
Defined.

(** ** Confirm *)

(** A success of Confirm names the caller's own stored row. *)
Lemma confirm_success_own_row
  (env : environment) (q : confirm_request) (d : database) :
  http_status (snd (paypalConfirmSubscription env q d)) = 200 ->
  payments (fst (paypalConfirmSubscription env q d)) = payments d
  /\ exists o row sid,
       authenticated (cf_user q) = Some o
       /\ select_owner o d = Some row
       /\ cf_subscriptionId q = Some sid
       /\ paypal_subscription_id row = Some sid.
Proof.
  unfold paypalConfirmSubscription.
  destruct (authenticated (cf_user q)) as [o|]; [|cbn; discriminate].
  destruct (may_pay (cf_user q)); cbn [negb]; [|cbn; discriminate].
  destruct (JS.or_else (cf_subscriptionId q) None) as [sid|] eqn:Hsid;
    [|cbn; discriminate].
  apply or_else_some_nonempty in Hsid. destruct Hsid as [Hsid Hne].
  destruct (getPaypalAccessToken env (cf_token q)) as [tok|e] eqn:Htok.
  2:{ cbn. intros H. exfalso.
      destruct (getPaypalAccessToken_throws _ _ _ Htok) as [E|E];
        unfold catch_reply in H; rewrite E in H; discriminate H. }
  destruct (ok (cf_fetched q)); cbn [negb]; [|cbn; discriminate].
  destruct (String.eqb (provider_status (cf_fetched q)) ""); [cbn; discriminate|].
  pose proof (getOrCreate_selects (cf_create q) o d) as G.
  destruct (getOrCreateOwnerSubscription (cf_create q) o d) as [d1 sub].
  destruct G as (_ & _ & Hp & _ & _ & _ & Hcase).
  destruct (String.eqb (JS.to_string (paypal_subscription_id sub)) sid) eqn:Hmatch;
    cbn [negb]; [|cbn; discriminate].
  intros _.
  assert (Hrow : select_owner o d = Some sub /\ paypal_subscription_id sub = Some sid).
  { apply String.eqb_eq in Hmatch.
    assert (Hid : paypal_subscription_id sub = Some sid).
    { unfold JS.to_string, JS.or_else, JS.truthy in Hmatch.
      destruct (paypal_subscription_id sub) as [x|].
      - destruct (String.eqb x "") eqn:X; cbn in Hmatch.
        + subst sid. discriminate.
        + now subst.
      - subst sid. discriminate. }
    split; [|exact Hid].
    destruct (select_owner o d) as [r0|].
    - destruct Hcase as [_ ->]. reflexivity.
    - exfalso. destruct Hcase as [_ E]. rewrite E in Hid. discriminate. }
  split.
  - destruct (negb _); cbn [fst]; exact Hp.
  - exists o, sub, sid. tauto.
Qed.

(** X12: Confirm answers success only for the provider subscription that
    is stored on the caller's own row: a success implies that the caller
    had a row before the request and that its [paypal_subscription_id] is
    the requested id; no ledger row is ever written by Confirm. *)
Theorem confirm_only_own_subscription
  (env : environment) (q : confirm_request) (d : database) :
  http_status (snd (paypalConfirmSubscription env q d)) = 200 ->
  payments (fst (paypalConfirmSubscription env q d)) = payments d
  /\ exists o row sid,
       authenticated (cf_user q) = Some o
       /\ select_owner o d = Some row
       /\ cf_subscriptionId q = Some sid
       /\ paypal_subscription_id row = Some sid.
Proof. exact (confirm_success_own_row env q d). Qed.

Lemma confirm_only_own_subscription_sample :
  let d := Sample.db None (Some "pro") in
  http_status (snd (paypalConfirmSubscription Sample.env (Sample.confirm "ACTIVE") d)) = 200
  /\ payments (fst (paypalConfirmSubscription Sample.env (Sample.confirm "ACTIVE") d))
     = payments d.
Proof.
  intros d.
  assert (H : http_status (snd (paypalConfirmSubscription Sample.env
                                  (Sample.confirm "ACTIVE") d)) = 200)
    by (vm_compute; reflexivity).
  split; [exact H|].
  exact (proj1 (confirm_only_own_subscription Sample.env (Sample.confirm "ACTIVE") d H)).
Defined.

(** X13: a Confirm that succeeds on the provider status ACTIVE activates
    the caller's row: [status = 'active'], the period runs from now to the
    next billing time the provider announces (30 days from now when it
    announces none), the grace end is 5 days later, the pending plan is
    cleared, and [plan_code] becomes what the reverse table gives for the
    provider's plan id (the local code under a configured id, the text of
    the inherited member for an id that names a member of
    [Object.prototype]), else the pending code, else stays as it was. *)
Theorem confirm_active_activates
  (env : environment) (q : confirm_request) (d : database) :
  http_status (snd (paypalConfirmSubscription env q d)) = 200 ->
  provider_status (cf_fetched q) = "ACTIVE" ->
  exists o row row' e,
    authenticated (cf_user q) = Some o
    /\ select_owner o d = Some row
    /\ select_owner o (fst (paypalConfirmSubscription env q d)) = Some row'
    /\ status row' = "active"
    /\ paypal_subscription_status row' = Some "ACTIVE"
    /\ pending_plan_code row' = None
    /\ current_period_start row' = TsDate (cf_now q)
    /\ current_period_end row' = TsDate e
    /\ grace_period_end row' = TsDate (e + 5 * DAY)
    /\ e = match next_billing (cf_fetched q) with
           | Some t => t
           | None => cf_now q + 30 * DAY
           end
    /\ plan_code row'
       = match getPlanCodeForPaypalPlanId env
                 (field (data (cf_fetched q)) pp_plan_id) with
         | Some v => Some (sql_text v)
         | None => if JS.truthy (pending_plan_code row)
                   then pending_plan_code row
                   else plan_code row
         end.
Proof.
  intros Hok Hact.
  destruct (confirm_success_own_row env q d Hok)
    as (_ & o & row & sid & Hauth & Hrow & Hsid & Hid).
  revert Hok. unfold paypalConfirmSubscription.
  rewrite Hauth.
  destruct (may_pay (cf_user q)); cbn [negb]; [|cbn; discriminate].
  destruct (JS.or_else (cf_subscriptionId q) None) as [sid'|]; [|cbn; discriminate].
  destruct (getPaypalAccessToken env (cf_token q)) as [tok|e0] eqn:Htok.
  2:{ cbn. intros H. exfalso.
      destruct (getPaypalAccessToken_throws _ _ _ Htok) as [E|E];
        unfold catch_reply in H; rewrite E in H; discriminate H. }
  destruct (ok (cf_fetched q)); cbn [negb]; [|cbn; discriminate].
  rewrite Hact. cbv zeta.
  change (String.eqb "ACTIVE" "") with false.
  change (String.eqb "ACTIVE" "ACTIVE") with true. cbv iota. cbn [negb].
  unfold getOrCreateOwnerSubscription. rewrite Hrow.
  destruct (String.eqb (JS.to_string (paypal_subscription_id row)) sid');
    cbn [negb]; [|cbn; discriminate].
  intros _. cbn [fst].
  exists o, row. eexists. eexists.
  split; [reflexivity|]. split; [exact Hrow|].
  rewrite select_owner_update by reflexivity. rewrite Hrow. cbn [option_map].
  split; [reflexivity|].
  cbn [status paypal_subscription_status pending_plan_code current_period_start
       current_period_end grace_period_end plan_code set_confirmed].
  split; [reflexivity|]. split; [reflexivity|]. split; [reflexivity|].
  split; [reflexivity|]. split; [reflexivity|]. split; [reflexivity|].
  split.
  - unfold next_billing, field.
    destruct (data (cf_fetched q)) as [p|]; [|reflexivity].
    destruct (pp_next_billing_time p); reflexivity.
  - destruct (getPlanCodeForPaypalPlanId env _) as [c|] eqn:Hc.
    + reflexivity.
    + unfold JS.or_else. cbn [JS.truthy].
      destruct (JS.truthy (pending_plan_code row)) eqn:P.
      * destruct (pending_plan_code row); [reflexivity | discriminate].
      * destruct (JS.truthy (plan_code row)) eqn:C; [|reflexivity].
        destruct (plan_code row); [reflexivity | discriminate].
Qed.

Lemma confirm_active_sample :
  let d := Sample.db (Some "basic_1") (Some "basic_2") in
  let q := Sample.confirm "ACTIVE" in
  http_status (snd (paypalConfirmSubscription Sample.env q d)) = 200
  /\ provider_status (cf_fetched q) = "ACTIVE"
  /\ option_map plan_code (select_owner 1 (fst (paypalConfirmSubscription Sample.env q d)))
     = Some (Some "pro")
  /\ exists o row row' e,
       authenticated (cf_user q) = Some o
       /\ select_owner o d = Some row
       /\ select_owner o (fst (paypalConfirmSubscription Sample.env q d)) = Some row'
       /\ status row' = "active"
       /\ paypal_subscription_status row' = Some "ACTIVE"
       /\ pending_plan_code row' = None
       /\ current_period_start row' = TsDate (cf_now q)
       /\ current_period_end row' = TsDate e
       /\ grace_period_end row' = TsDate (e + 5 * DAY)
       /\ e = match next_billing (cf_fetched q) with
              | Some t => t
              | None => cf_now q + 30 * DAY
              end
       /\ plan_code row'
          = match getPlanCodeForPaypalPlanId Sample.env
                    (field (data (cf_fetched q)) pp_plan_id) with
            | Some v => Some (sql_text v)
            | None => if JS.truthy (pending_plan_code row)
                      then pending_plan_code row
                      else plan_code row
            end.
Proof.
  intros d q.
  assert (H1 : http_status (snd (paypalConfirmSubscription Sample.env q d)) = 200)
    by (vm_compute; reflexivity).
  assert (H2 : provider_status (cf_fetched q) = "ACTIVE") by (vm_compute; reflexivity).
  split; [exact H1|]. split; [exact H2|]. split; [vm_compute; reflexivity|].
  exact (confirm_active_activates Sample.env q d H1 H2).
Defined.

(** The provider names the plan id [constructor], which is no configured
    id: the lookup reaches [Object.prototype] and Confirm stores the text
    of the function, not the pending code [basic_2]. *)
Example confirm_inherited_member :
  let d := Sample.db (Some "basic_1") (Some "basic_2") in
  let q := {| cf_user := Sample.owner 1; cf_subscriptionId := Some "I-SUB1";
              cf_token := Sample.token;
              cf_fetched := Sample.provider_sub "ACTIVE" (Some "constructor");
              cf_create := 80 * DAY; cf_now := 80 * DAY; cf_sql := 80 * DAY |} in
  http_status (snd (paypalConfirmSubscription Sample.env q d)) = 200
  /\ option_map plan_code (select_owner 1 (fst (paypalConfirmSubscription Sample.env q d)))
     = Some (Some "function Object() { [native code] }").
Proof. vm_compute. split; reflexivity. Qed.

(** ** Cancel and change of plan *)

Lemma state_of_same_boundaries (now : Z) (r r' : subscription) :
  same_boundaries r r' ->
  computeSubscriptionState now r' = computeSubscriptionState now r.
Proof.
  intros (_ & _ & He & Hg). unfold computeSubscriptionState. now rewrite He, Hg.
Qed.

(** X14: cancelling never shortens access and never touches the ledger:
    whatever the outcome, every stored row keeps its paid window.  On
    success the caller's row only gets the provider status [CANCELLED]:
    status, plan, provider link and the state derived at any time are as
    before.  On failure every stored row is exactly as it was. *)
Theorem cancel_keeps_access (env : environment) (q : cancel_request) (d : database) :
  let d' := fst (paypalCancelSubscription env q d) in
  let a := snd (paypalCancelSubscription env q d) in
  keeps_paid_windows d d'
  /\ (ans_status a = 200 ->
      exists o row row',
        authenticated (cn_user q) = Some o
        /\ select_owner o d = Some row /\ select_owner o d' = Some row'
        /\ JS.truthy (paypal_subscription_id row) = true
        /\ paypal_subscription_status row' = Some "CANCELLED"
        /\ status row' = status row /\ plan_code row' = plan_code row
        /\ pending_plan_code row' = pending_plan_code row
        /\ paypal_subscription_id row' = paypal_subscription_id row
        /\ forall now, computeSubscriptionState now row'
                       = computeSubscriptionState now row)
  /\ (ans_status a <> 200 ->
      forall o r, select_owner o d = Some r -> select_owner o d' = Some r).
Proof.
  intros d' a. subst d' a. unfold paypalCancelSubscription.
  assert (Hrefl : forall ans, ans_status ans <> 200 ->
            keeps_paid_windows d d
            /\ (ans_status ans = 200 -> exists o row row',
                  authenticated (cn_user q) = Some o
                  /\ select_owner o d = Some row /\ select_owner o d = Some row'
                  /\ JS.truthy (paypal_subscription_id row) = true
                  /\ paypal_subscription_status row' = Some "CANCELLED"
                  /\ status row' = status row /\ plan_code row' = plan_code row
                  /\ pending_plan_code row' = pending_plan_code row
                  /\ paypal_subscription_id row' = paypal_subscription_id row
                  /\ forall now, computeSubscriptionState now row'
                                 = computeSubscriptionState now row)
            /\ (ans_status ans <> 200 ->
                forall o r, select_owner o d = Some r -> select_owner o d = Some r)).
  { intros ans Hne. split; [apply keeps_paid_windows_refl|].
    split; [intros E; contradiction | auto]. }
  destruct (authenticated (cn_user q)) as [o|] eqn:Hauth;
    [|apply Hrefl; cbn; lia].
  destruct (may_pay (cn_user q)); cbn [negb]; [|apply Hrefl; cbn; lia].
  pose proof (getOrCreate_keeps_paid_windows (cn_now q) o d) as K.
  pose proof (getOrCreate_selects (cn_now q) o d) as G.
  destruct (getOrCreateOwnerSubscription (cn_now q) o d) as [d1 sub].
  cbn [fst snd] in *. destruct G as (Hsel & Hown & _ & _ & _ & _ & Hcase).
  assert (Hkeep1 : forall o' r, select_owner o' d = Some r -> select_owner o' d1 = Some r).
  { intros o' r Hr. destruct (select_owner o d) as [r0|] eqn:E.
    - destruct Hcase as [-> _]. exact Hr.
    - destruct Hcase as [Hsubs _].
      destruct (Z.eq_dec o' o) as [->|Hne]; [congruence|].
      unfold select_owner at 1. rewrite Hsubs.
      now rewrite (select_owner_app_other o o' d sub Hown Hne). }
  assert (Hfail : forall ans, ans_status ans <> 200 ->
            keeps_paid_windows d d1
            /\ (ans_status ans = 200 -> exists o0 row row',
                  Some o = Some o0
                  /\ select_owner o0 d = Some row /\ select_owner o0 d1 = Some row'
                  /\ JS.truthy (paypal_subscription_id row) = true
                  /\ paypal_subscription_status row' = Some "CANCELLED"
                  /\ status row' = status row /\ plan_code row' = plan_code row
                  /\ pending_plan_code row' = pending_plan_code row
                  /\ paypal_subscription_id row' = paypal_subscription_id row
                  /\ forall now, computeSubscriptionState now row'
                                 = computeSubscriptionState now row)
            /\ (ans_status ans <> 200 ->
                forall o0 r, select_owner o0 d = Some r -> select_owner o0 d1 = Some r)).
  { intros ans Hne. split; [exact K|]. split; [intros E; contradiction | auto]. }
  destruct (JS.or_else (paypal_subscription_id sub) None) as [sid|] eqn:Hsid;
    [|apply Hfail; cbn; lia].
  destruct (getPaypalAccessToken env (cn_token q)) as [tok|e] eqn:Htok.
  2:{ apply Hfail. unfold catch_answer, catch_reply.
      destruct (getPaypalAccessToken_throws _ _ _ Htok) as [E|E]; rewrite E; cbn; lia. }
  destruct (ok (cn_cancelled q)); cbn [negb]; [|apply Hfail; cbn; lia].
  cbn [fst snd ans_status].
  assert (Hexisting : select_owner o d = Some sub).
  { destruct (select_owner o d) as [r0|]; [destruct Hcase as [_ ->]; reflexivity|].
    exfalso. destruct Hcase as [_ E]. rewrite E in Hsid. discriminate. }
  assert (Hd1 : d1 = d).
  { rewrite Hexisting in Hcase. tauto. }
  subst d1. split.
  - apply update_owner_keeps_paid_windows. intros r. repeat split.
  - split; [|intros H; exfalso; apply H; reflexivity].
    intros _. exists o, sub. eexists.
    split; [reflexivity|]. split; [exact Hexisting|].
    rewrite select_owner_update by reflexivity. rewrite Hsel. cbn [option_map].
    split; [reflexivity|].
    split.
    { unfold JS.or_else in Hsid.
      destruct (JS.truthy (paypal_subscription_id sub)); [reflexivity | discriminate]. }
    repeat split.
Qed.

Example cancel_sample :
  let q := {| cn_user := Sample.owner 1; cn_token := Sample.token;
              cn_cancelled := Sample.provider_sub "CANCELLED" None;
              cn_now := 80 * DAY; cn_sql := 80 * DAY |} in
  let d := Sample.db (Some "pro") None in
  ans_status (snd (paypalCancelSubscription Sample.env q d)) = 200
  /\ option_map paypal_subscription_status
       (select_owner 1 (fst (paypalCancelSubscription Sample.env q d)))
     = Some (Some "CANCELLED")
  /\ option_map current_period_end
       (select_owner 1 (fst (paypalCancelSubscription Sample.env q d)))
     = Some (TsDate (100 * DAY)).
Proof. vm_compute. repeat split. Qed.

Lemma getOrCreate_keeps_rows (t o : Z) (d : database) :
  forall o' r, select_owner o' d = Some r ->
    select_owner o' (fst (getOrCreateOwnerSubscription t o d)) = Some r.
Proof.
  intros o' r Hr.
  pose proof (getOrCreate_selects t o d) as G.
  destruct (getOrCreateOwnerSubscription t o d) as [d1 sub]. cbn [fst].
  destruct G as (_ & Hown & _ & _ & _ & _ & Hcase).
  destruct (select_owner o d) as [r0|] eqn:E.
  - destruct Hcase as [-> _]. exact Hr.
  - destruct Hcase as [Hsubs _].
    destruct (Z.eq_dec o' o) as [->|Hne]; [congruence|].
    unfold select_owner at 1. rewrite Hsubs.
    now rewrite (select_owner_app_other o o' d sub Hown Hne).
Qed.

(** X15: a change of plan only records the request: on success the
    caller's row, which was already linked to a provider subscription, gets
    the requested (valid) code as [pending_plan_code] while [plan_code],
    status and the derived state stay as they were; whatever the outcome no
    paid window moves and no ledger row is written, and on failure every
    stored row is exactly as it was. *)
Theorem change_plan_only_sets_pending
  (env : environment) (q : change_request) (d : database) :
  let d' := fst (paypalChangeSubscriptionPlan env q d) in
  let a := snd (paypalChangeSubscriptionPlan env q d) in
  keeps_paid_windows d d'
  /\ (ans_status a = 200 ->
      exists o row row',
        authenticated (ch_user q) = Some o
        /\ select_owner o d = Some row /\ select_owner o d' = Some row'
        /\ JS.truthy (paypal_subscription_id row) = true
        /\ valid_plan_code (JS.trim (JS.to_string (ch_planCode q))) = true
        /\ pending_plan_code row' = Some (JS.trim (JS.to_string (ch_planCode q)))
        /\ plan_code row' = plan_code row /\ status row' = status row
        /\ paypal_subscription_status row' = paypal_subscription_status row
        /\ forall now, computeSubscriptionState now row'
                       = computeSubscriptionState now row)
  /\ (ans_status a <> 200 ->
      forall o r, select_owner o d = Some r -> select_owner o d' = Some r).
Proof.
  intros d' a. subst d' a. unfold paypalChangeSubscriptionPlan.
  assert (Hrefl : forall (d1 : database) (ans : answer),
            keeps_paid_windows d d1 ->
            (forall o r, select_owner o d = Some r -> select_owner o d1 = Some r) ->
            ans_status ans <> 200 ->
            keeps_paid_windows d (fst (d1, ans))
            /\ (ans_status (snd (d1, ans)) = 200 -> exists o row row',
                  authenticated (ch_user q) = Some o
                  /\ select_owner o d = Some row
                  /\ select_owner o (fst (d1, ans)) = Some row'
                  /\ JS.truthy (paypal_subscription_id row) = true
                  /\ valid_plan_code (JS.trim (JS.to_string (ch_planCode q))) = true
                  /\ pending_plan_code row'
                     = Some (JS.trim (JS.to_string (ch_planCode q)))
                  /\ plan_code row' = plan_code row /\ status row' = status row
                  /\ paypal_subscription_status row' = paypal_subscription_status row
                  /\ forall now, computeSubscriptionState now row'
                                 = computeSubscriptionState now row)
            /\ (ans_status (snd (d1, ans)) <> 200 ->
                forall o r, select_owner o d = Some r ->
                            select_owner o (fst (d1, ans)) = Some r)).
  { intros d1 ans K R Hne. cbn [fst snd]. split; [exact K|].
    split; [intros E; contradiction | auto]. }
  destruct (authenticated (ch_user q)) as [o|] eqn:Hauth;
    [|apply Hrefl; [apply keeps_paid_windows_refl | auto | cbn; lia]].
  destruct (may_pay (ch_user q)); cbn [negb];
    [|apply Hrefl; [apply keeps_paid_windows_refl | auto | cbn; lia]].
  destruct (valid_plan_code _) eqn:Hvalid; cbn [negb];
    [|apply Hrefl; [apply keeps_paid_windows_refl | auto | cbn; lia]].
  destruct (getPaypalPlanIdForCode env _);
    [|apply Hrefl; [apply keeps_paid_windows_refl | auto | cbn; lia]].
  pose proof (getOrCreate_keeps_paid_windows (ch_now q) o d) as K.
  pose proof (getOrCreate_keeps_rows (ch_now q) o d) as R.
  pose proof (getOrCreate_selects (ch_now q) o d) as G.
  destruct (getOrCreateOwnerSubscription (ch_now q) o d) as [d1 sub].
  cbn [fst snd] in K, R. destruct G as (Hsel & Hown & _ & _ & _ & _ & Hcase).
  destruct (JS.or_else (paypal_subscription_id sub) None) as [sid|] eqn:Hsid;
    [|apply Hrefl; [exact K | exact R | cbn; lia]].
  destruct (getPaypalAccessToken env (ch_token q)) as [tok|e] eqn:Htok.
  2:{ apply Hrefl; [exact K | exact R |]. unfold catch_answer, catch_reply.
      destruct (getPaypalAccessToken_throws _ _ _ Htok) as [E|E]; rewrite E; cbn; lia. }
  destruct (ok (ch_revised q)); cbn [negb];
    [|apply Hrefl; [exact K | exact R | cbn; lia]].
  cbn [fst snd ans_status].
  assert (Hexisting : select_owner o d = Some sub).
  { destruct (select_owner o d) as [r0|]; [destruct Hcase as [_ ->]; reflexivity|].
    exfalso. destruct Hcase as [_ E]. rewrite E in Hsid. discriminate. }
  assert (Hd1 : d1 = d) by (rewrite Hexisting in Hcase; tauto).
  subst d1. split.
  - apply update_owner_keeps_paid_windows. intros r. repeat split.
  - split; [|intros H; exfalso; apply H; reflexivity].
    intros _. exists o, sub. eexists.
    split; [reflexivity|]. split; [exact Hexisting|].
    rewrite select_owner_update by reflexivity. rewrite Hsel. cbn [option_map].
    split; [reflexivity|].
    split.
    { unfold JS.or_else in Hsid.
      destruct (JS.truthy (paypal_subscription_id sub)); [reflexivity | discriminate]. }
    repeat split.
Qed.

Example change_plan_sample :
  let q := {| ch_user := Sample.owner 1; ch_planCode := Some " premium ";
              ch_token := Sample.token;
              ch_revised := Sample.provider_sub "ACTIVE" (Some "P-PREMIUM");
              ch_now := 80 * DAY; ch_sql := 80 * DAY |} in
  let d := Sample.db (Some "pro") None in
  let d' := fst (paypalChangeSubscriptionPlan Sample.env q d) in
  ans_status (snd (paypalChangeSubscriptionPlan Sample.env q d)) = 200
  /\ option_map pending_plan_code (select_owner 1 d') = Some (Some "premium")
  /\ option_map plan_code (select_owner 1 d') = Some (Some "pro").
Proof. vm_compute. repeat split. Qed.

(** ** Manual reports and activation *)

(** X16: a manual report that is accepted (201) appends exactly one report,
    [pending], for the final owner, and marks that owner's row
    [pending_verification] without moving any paid window or writing the
    ledger; it carries a reference or a proof; and a caller who is not an
    admin can only report for themself, whatever owner id the body names. *)
Theorem manual_report_is_filed_pending (q : report_request) (d : database) :
  ans_status (snd (createManualPaymentReport q d)) = 201 ->
  let d' := fst (createManualPaymentReport q d) in
  exists uid owner row sub',
    authenticated (rp_user q) = Some uid
    /\ (JS.includes (user_role_of (rp_user q)) "admin" = false -> owner = uid)
    /\ manual_payment_reports d' = (manual_payment_reports d ++ [row])%list
    /\ ans_payload (snd (createManualPaymentReport q d)) = PReport (Some row)
    /\ report_id row = rp_id q /\ report_owner_id row = owner
    /\ report_status row = "pending" /\ decided_at row = None
    /\ (JS.truthy (reference_text row) = true \/ JS.truthy (proof_url row) = true)
    /\ select_owner owner d' = Some sub'
    /\ status sub' = "pending_verification"
    /\ keeps_paid_windows d d'.
Proof.
  unfold createManualPaymentReport.
  destruct (authenticated (rp_user q)) as [uid|]; [|cbn; discriminate].
  destruct (may_pay (rp_user q)); cbn [negb]; [|cbn; discriminate].
  set (finalOwner := if JS.includes _ "admin" then _ else Some uid).
  destruct (truthy_id finalOwner) as [owner|] eqn:Hown; [|cbn; discriminate].
  destruct (negb (JS.truthy _) && negb (JS.truthy _)) eqn:Href; [cbn; discriminate|].
  pose proof (getOrCreate_keeps_paid_windows (rp_now q) owner d) as K.
  pose proof (getOrCreate_selects (rp_now q) owner d) as G.
  destruct (getOrCreateOwnerSubscription (rp_now q) owner d) as [d1 sub].
  cbn [fst snd] in *. destruct G as (Hsel & Hso & _ & Hrep & _).
  intros _. exists uid, owner. eexists. eexists.
  split; [reflexivity|]. split.
  { intros Hna. subst finalOwner. rewrite Hna in Hown. cbn in Hown.
    destruct uid; congruence. }
  split; [cbn; rewrite Hrep; reflexivity|].
  split; [reflexivity|].
  cbn [report_id report_owner_id report_status decided_at reference_text proof_url].
  split; [reflexivity|]. split; [reflexivity|]. split; [reflexivity|].
  split; [reflexivity|]. split.
  { apply andb_false_iff in Href. destruct Href as [H|H];
      apply negb_false_iff in H; auto. }
  rewrite select_owner_update by reflexivity.
  assert (Hsel' : select_owner owner
                    (with_reports d1 (manual_payment_reports d1 ++ [
                       {| report_id := rp_id q; report_owner_id := owner;
                          report_amount := rp_amount q;
                          report_currency :=
                            Some match JS.or_else (rp_currency q) None with
                                 | Some c => c
                                 | None => "DOP"
                                 end;
                          reference_text :=
                            nullish (rp_reference q)
                              (nullish (rp_referenceText q) (rp_reference_text q));
                          proof_url := nullish (rp_proofUrl q) (rp_proof_url q);
                          report_status := "pending";
                          approved_by := None; rejected_by := None;
                          decided_at := None;
                          report_updated_at := Some (rp_sql q) |}])) = Some sub)
    by exact Hsel.
  rewrite Hsel'. cbn [option_map]. split; [reflexivity|]. split; [reflexivity|].
  eapply keeps_paid_windows_trans; [exact K|].
  eapply keeps_paid_windows_trans;
    [|apply update_owner_keeps_paid_windows; intros r; repeat split].
  split; [reflexivity|]. intros o r Hr. exists r.
  split; [exact Hr | apply same_boundaries_refl].
Qed.

Lemma manual_report_sample :
  let q := {| rp_user := Sample.owner 1; rp_ownerId := Some 2;
              rp_amount := Some "2000"; rp_currency := None;
              rp_reference := None; rp_referenceText := Some "TRX-9";
              rp_reference_text := None; rp_proofUrl := None; rp_proof_url := None;
              rp_id := 8; rp_now := 80 * DAY; rp_sql := 80 * DAY |} in
  let d := Sample.db None None in
  ans_status (snd (createManualPaymentReport q d)) = 201
  /\ map (fun r => (report_id r, report_owner_id r, report_status r, report_currency r))
         (manual_payment_reports (fst (createManualPaymentReport q d)))
     = [(7, 1, "pending", Some "DOP"); (8, 1, "pending", Some "DOP")]
  /\ keeps_paid_windows d (fst (createManualPaymentReport q d)).
Proof.
  intros q d.
  assert (H : ans_status (snd (createManualPaymentReport q d)) = 201)
    by (vm_compute; reflexivity).
  split; [exact H|]. split; [vm_compute; reflexivity|].
  destruct (manual_report_is_filed_pending q d H)
    as (uid & owner & row & sub' & _ & _ & _ & _ & _ & _ & _ & _ & _ & _ & _ & K).
  exact K.
Defined.

(** X17: the activation by an admin renews the named owner without any
    payment: a success implies an admin caller, returns the owner's renewed
    row, [active] and in the state Active at the time of the renewal, and
    leaves the ledger as it was; a caller who is not an admin is answered
    403 and nothing changes. *)
Theorem admin_activation_renews_without_payment (q : activate_request) (d : database) :
  let d' := fst (adminActivateSubscription q d) in
  let a := snd (adminActivateSubscription q d) in
  (ans_status a = 200 ->
     JS.includes (user_role_of (ac_user q)) "admin" = true
     /\ payments d' = payments d
     /\ exists owner r',
          ac_ownerId q = Some owner
          /\ select_owner owner d' = Some r'
          /\ ans_payload a = PSubscription (Some r')
          /\ status r' = "active"
          /\ isActive (computeSubscriptionState (rn_now (ac_renew q)) r') = true)
  /\ (JS.includes (user_role_of (ac_user q)) "admin" = false ->
      ans_status a = 403 /\ d' = d).
Proof.
  intros d' a. subst d' a. unfold adminActivateSubscription, requireAdmin.
  destruct (JS.includes (user_role_of (ac_user q)) "admin") eqn:Hadm; cbn [negb].
  2:{ cbn. split; [discriminate | auto]. }
  split; [|discriminate].
  destruct (truthy_id (ac_ownerId q)) as [owner|] eqn:Hown; [|cbn; discriminate].
  destruct (renew_selects (ac_renew q) owner d)
    as (start & pc & sub0 & Hge & _ & _ & Hsel & Hret & Hpay).
  destruct (renewSubscription30Days (ac_renew q) owner d) as [d1 renewed].
  cbn [fst snd] in *. intros _.
  split; [reflexivity|]. split; [exact Hpay|].
  exists owner. eexists.
  split; [destruct (ac_ownerId q) as [[| |]|]; cbn in Hown; congruence|].
  split; [exact Hsel|]. split; [now rewrite Hret|].
  split; [reflexivity|].
  unfold computeSubscriptionState. cbn -[Z.leb Z.add Z.mul].
  apply Z.leb_le. unfold DAY. lia.
Qed.

Example admin_activation_sample :
  let q := {| ac_user := Sample.admin 9; ac_ownerId := Some 1;
              ac_renew := Sample.clock 120 |} in
  let d := Sample.db None None in
  ans_status (snd (adminActivateSubscription q d)) = 200
  /\ payments (fst (adminActivateSubscription q d)) = []
  /\ option_map current_period_end (select_owner 1 (fst (adminActivateSubscription q d)))
     = Some (TsDate (150 * DAY)).
Proof. vm_compute. repeat split. Qed.

(** ** Capture of a one-off order *)

Lemma paid_at_of_throws (t : tsval) (now : Z) (e : js_error) :
  paid_at_of t now = Throws e -> err_status e = None.
Proof. destruct t; cbn; try discriminate. now intros [= <-]. Qed.

(** X18: a capture succeeds only when the provider reports the order
    COMPLETED, and then appends exactly one [paypal] ledger row for the
    caller, keyed by the capture id (by the order id when the provider
    names no capture), and answers with the caller's renewed row. *)
Theorem capture_records_one_payment
  (env : environment) (q : capture_request) (d : database) :
  http_status (snd (paypalCaptureOrder env q d)) = 200 ->
  let d' := fst (paypalCaptureOrder env q d) in
  exists o orderId p r',
    authenticated (cp_user q) = Some o
    /\ cp_orderId q = Some orderId
    /\ JS.toUpperCase (JS.to_string (field (data (cp_captured q)) ord_status))
       = "COMPLETED"
    /\ payments d' = (payments d ++ [p])%list
    /\ provider p = "paypal" /\ pay_status p = "confirmed" /\ pay_owner_id p = o
    /\ provider_payment_id p
       = Some match JS.or_else (field (field (data (cp_captured q)) ord_capture) cap_id)
                      None with
              | Some c => c
              | None => orderId
              end
    /\ select_owner o d' = Some r'
    /\ res_body (snd (paypalCaptureOrder env q d)) = BodyCaptured (Some r')
    /\ status r' = "active".
Proof.
  unfold paypalCaptureOrder.
  destruct (authenticated (cp_user q)) as [o|]; [|cbn; discriminate].
  destruct (may_pay (cp_user q)); cbn [negb]; [|cbn; discriminate].
  destruct (JS.or_else (cp_orderId q) None) as [orderId|] eqn:Hord;
    [|cbn; discriminate].
  apply or_else_some_nonempty in Hord. destruct Hord as [Hord _].
  destruct (getPaypalAccessToken env (cp_token q)) as [tok|e] eqn:Htok.
  2:{ cbn. intros H. exfalso.
      destruct (getPaypalAccessToken_throws _ _ _ Htok) as [E|E];
        unfold catch_reply in H; rewrite E in H; discriminate H. }
  destruct (ok (cp_captured q)); cbn [negb]; [|cbn; discriminate].
  destruct (String.eqb _ "COMPLETED") eqn:Hst; cbn [negb]; [|cbn; discriminate].
  apply String.eqb_eq in Hst.
  destruct (renew_selects (cp_renew q) o d)
    as (start & pc & sub0 & _ & _ & _ & Hsel & Hret & Hpay).
  destruct (renewSubscription30Days (cp_renew q) o d) as [d1 renewed].
  cbn [fst snd] in *.
  destruct (paid_at_of _ _) as [paid|e] eqn:Hpaid.
  2:{ cbn. unfold catch_reply. rewrite (paid_at_of_throws _ _ _ Hpaid). discriminate. }
  intros _. cbn [fst snd].
  exists o, orderId. eexists. eexists.
  split; [reflexivity|]. split; [exact Hord|]. split; [exact Hst|].
  split; [unfold insert_payment; cbn [payments with_payments]; rewrite Hpay; reflexivity|].
  cbn [provider pay_status pay_owner_id provider_payment_id].
  split; [reflexivity|]. split; [reflexivity|]. split; [reflexivity|].
  split; [reflexivity|].
  rewrite select_owner_insert_payment.
  split; [exact Hsel|]. split; [cbn; now rewrite Hret | reflexivity].
Qed.

Lemma capture_records_one_payment_sample :
  let d := Sample.db None None in
  http_status (snd (paypalCaptureOrder Sample.env Sample.capture d)) = 200
  /\ map (fun p => (pay_owner_id p, provider p, provider_payment_id p))
         (payments (fst (paypalCaptureOrder Sample.env Sample.capture d)))
     = [(1, "paypal", Some "CAP-1")].
Proof.
  intros d.
  assert (H : http_status (snd (paypalCaptureOrder Sample.env Sample.capture d)) = 200)
    by (vm_compute; reflexivity).
  split; [exact H|].
  destruct (capture_records_one_payment Sample.env Sample.capture d H)
    as (o & orderId & p & r' & _ & _ & _ & Hp & _).
  vm_compute. reflexivity.
Defined.

(** ** Tenants are isolated *)

Lemma getOrCreate_other (t o o' : Z) (d : database) :
  o' <> o ->
  select_owner o' (fst (getOrCreateOwnerSubscription t o d)) = select_owner o' d.
Proof.
  intros Hne.
  pose proof (getOrCreate_selects t o d) as G.
  destruct (getOrCreateOwnerSubscription t o d) as [d1 sub]. cbn [fst].
  destruct G as (_ & Hown & _ & _ & _ & _ & Hcase).
  destruct (select_owner o d) as [r0|].
  - destruct Hcase as [-> _]. reflexivity.
  - destruct Hcase as [Hsubs _]. unfold select_owner at 1. rewrite Hsubs.
    apply (select_owner_app_other o); assumption.
Qed.

Lemma renew_other (c : renew_clock) (o o' : Z) (d : database) :
  o' <> o ->
  select_owner o' (fst (renewSubscription30Days c o d)) = select_owner o' d.
Proof.
  intros Hne. unfold renewSubscription30Days.
  pose proof (getOrCreate_other (rn_create c) o o' d Hne) as G.
  destruct (getOrCreateOwnerSubscription (rn_create c) o d) as [d1 sub].
  cbn [fst] in G. cbv beta iota zeta. cbn [fst].
  rewrite select_other_update by (reflexivity || assumption). exact G.
Qed.

(** Every test of a handler, then the rows of [o'] through the writes. *)
Ltac other_rows Hne :=
  repeat match goal with
         | |- context [match ?x with _ => _ end] => destruct x
         end;
  cbn [fst snd] in *;
  try reflexivity;
  repeat (rewrite select_other_update by (reflexivity || exact Hne));
  try rewrite select_owner_insert_payment;
  try assumption; try reflexivity.

(** X19: the operations an owner runs on their own subscription never
    touch another owner's row: after create, confirm, capture, cancel and
    change of plan, and after a report filed by a caller who is not an
    admin, the row of every owner other than the caller is the one that
    was stored, whatever the request and the provider say. *)
Theorem rails_touch_only_the_caller (env : environment) (d : database) (o' : Z) :
  (forall q, authenticated (cr_user q) <> Some o' ->
     select_owner o' (fst (paypalCreateSubscription env q d)) = select_owner o' d)
  /\ (forall q, authenticated (cf_user q) <> Some o' ->
        select_owner o' (fst (paypalConfirmSubscription env q d)) = select_owner o' d)
  /\ (forall q, authenticated (cp_user q) <> Some o' ->
        select_owner o' (fst (paypalCaptureOrder env q d)) = select_owner o' d)
  /\ (forall q, authenticated (cn_user q) <> Some o' ->
        select_owner o' (fst (paypalCancelSubscription env q d)) = select_owner o' d)
  /\ (forall q, authenticated (ch_user q) <> Some o' ->
        select_owner o' (fst (paypalChangeSubscriptionPlan env q d)) = select_owner o' d)
  /\ (forall q, authenticated (rp_user q) <> Some o' ->
        JS.includes (user_role_of (rp_user q)) "admin" = false ->
        select_owner o' (fst (createManualPaymentReport q d)) = select_owner o' d).
Proof.
  repeat split; intros q Hq.
  - unfold paypalCreateSubscription.
    destruct (authenticated (cr_user q)) as [o|]; [|reflexivity].
    assert (Hne : o' <> o) by congruence.
    pose proof (getOrCreate_other (cr_now q) o o' d Hne) as G.
    other_rows Hne.
  - unfold paypalConfirmSubscription.
    destruct (authenticated (cf_user q)) as [o|]; [|reflexivity].
    assert (Hne : o' <> o) by congruence.
    pose proof (getOrCreate_other (cf_create q) o o' d Hne) as G.
    other_rows Hne.
  - unfold paypalCaptureOrder.
    destruct (authenticated (cp_user q)) as [o|]; [|reflexivity].
    assert (Hne : o' <> o) by congruence.
    pose proof (renew_other (cp_renew q) o o' d Hne) as G.
    other_rows Hne.
  - unfold paypalCancelSubscription.
    destruct (authenticated (cn_user q)) as [o|]; [|reflexivity].
    assert (Hne : o' <> o) by congruence.
    pose proof (getOrCreate_other (cn_now q) o o' d Hne) as G.
    other_rows Hne.
  - unfold paypalChangeSubscriptionPlan.
    destruct (authenticated (ch_user q)) as [o|]; [|reflexivity].
    assert (Hne : o' <> o) by congruence.
    pose proof (getOrCreate_other (ch_now q) o o' d Hne) as G.
    other_rows Hne.
  - intros Hna. unfold createManualPaymentReport. rewrite Hna.
    destruct (authenticated (rp_user q)) as [o|]; [|reflexivity].
    assert (Hne : o' <> o) by congruence.
    destruct (may_pay (rp_user q)); cbn [negb]; [|reflexivity].
    destruct (truthy_id (Some o)) as [owner|] eqn:Ho; [|reflexivity].
    assert (owner = o) by (destruct o; cbn in Ho; congruence). subst owner.
    pose proof (getOrCreate_other (rp_now q) o o' d Hne) as G.
    other_rows Hne.
Qed.

Lemma rails_touch_only_the_caller_sample :
  let d := with_subscriptions (Sample.db None None)
             [Sample.sub1 None None; row_with 2 (TsDate (90 * DAY)) (TsDate (95 * DAY))] in
  authenticated (cp_user Sample.capture) <> Some 2
  /\ select_owner 2 (fst (paypalCaptureOrder Sample.env Sample.capture d))
     = Some (row_with 2 (TsDate (90 * DAY)) (TsDate (95 * DAY)))
  /\ option_map current_period_end
       (select_owner 1 (fst (paypalCaptureOrder Sample.env Sample.capture d)))
     = Some (TsDate (130 * DAY)).
Proof.
  intros d.
  assert (H : authenticated (cp_user Sample.capture) <> Some 2)
    by (vm_compute; discriminate).
  split; [exact H|]. split; [|vm_compute; reflexivity].
  destruct (rails_touch_only_the_caller Sample.env d 2) as (_ & _ & Hc & _).
  rewrite (Hc Sample.capture H). reflexivity.
Defined.

(** ** One row per owner *)

Lemma update_owner_owners (o : Z) (f : subscription -> subscription) (d : database) :
  (forall r, owner_id (f r) = owner_id r) ->
  subscription_owners (update_owner o f d) = subscription_owners d.
Proof.
  intros Hf. unfold subscription_owners, update_owner.
  cbn [subscriptions with_subscriptions]. rewrite map_map. apply map_ext.
  intros r. destruct (owner_id r =? o); [apply Hf | reflexivity].
Qed.

Lemma update_owner_one_row (o : Z) (f : subscription -> subscription) (d : database) :
  (forall r, owner_id (f r) = owner_id r) ->
  one_row_per_owner d -> one_row_per_owner (update_owner o f d).
Proof.
  intros Hf H. unfold one_row_per_owner. now rewrite update_owner_owners.
Qed.

Lemma select_owner_none_not_in (o : Z) (d : database) :
  select_owner o d = None -> ~ In o (subscription_owners d).
Proof.
  intros Hn Hin. unfold subscription_owners in Hin. apply in_map_iff in Hin.
  destruct Hin as (r & Hr & Hin).
  pose proof (find_none _ _ Hn r Hin) as H. cbn in H.
  rewrite Hr, Z.eqb_refl in H. discriminate.
Qed.

Lemma NoDup_snoc {A} (l : list A) (x : A) :
  NoDup l -> ~ In x l -> NoDup (l ++ [x]).
Proof.
  induction l as [|a l IH]; cbn; intros Hnd Hx.
  - constructor; [intros [] | constructor].
  - inversion Hnd as [|? ? Ha Hl]; subst. constructor.
    + rewrite in_app_iff. cbn. intros [H | [H | []]]; [contradiction|].
      subst. apply Hx. now left.
    + apply IH; [exact Hl|]. intros H. apply Hx. now right.
Qed.

Lemma getOrCreate_one_row (t o : Z) (d : database) :
  one_row_per_owner d ->
  one_row_per_owner (fst (getOrCreateOwnerSubscription t o d)).
Proof.
  intros H.
  pose proof (getOrCreate_selects t o d) as G.
  destruct (getOrCreateOwnerSubscription t o d) as [d1 sub]. cbn [fst].
  destruct G as (_ & Hown & _ & _ & _ & _ & Hcase).
  destruct (select_owner o d) as [r0|] eqn:E.
  - destruct Hcase as [-> _]. exact H.
  - destruct Hcase as [Hsubs _].
    unfold one_row_per_owner, subscription_owners. rewrite Hsubs, map_app. cbn.
    rewrite Hown. apply NoDup_snoc; [exact H|].
    now apply select_owner_none_not_in.
Qed.

Lemma renew_one_row (c : renew_clock) (o : Z) (d : database) :
  one_row_per_owner d ->
  one_row_per_owner (fst (renewSubscription30Days c o d)).
Proof.
  intros H. unfold renewSubscription30Days.
  pose proof (getOrCreate_one_row (rn_create c) o d H) as G.
  destruct (getOrCreateOwnerSubscription (rn_create c) o d) as [d1 sub].
  cbn [fst] in G. cbv beta iota zeta. cbn [fst].
  apply update_owner_one_row; [reflexivity | exact G].
Qed.

Lemma ensureDaily_one_row (now sql o : Z) (row : subscription) (d : database) :
  one_row_per_owner d ->
  one_row_per_owner (fst (ensureDailySubscriptionExpiredNotification now sql o row d)).
Proof.
  intros H. unfold one_row_per_owner.
  destruct (ensureDaily_footprint now sql o row d) as (_ & _ & _ & _ & -> & _).
  exact H.
Qed.

(** Every test of a handler, keeping what is known of the database after
    a renewal or a lazy creation, then the owners through the writes. *)
Ltac one_row :=
  repeat first
    [ assumption
    | progress cbn [fst snd core]
    | apply update_owner_one_row; [reflexivity|]
    | match goal with
      | H : _ -> one_row_per_owner ?d |- one_row_per_owner ?d => apply H
      | |- one_row_per_owner (insert_payment _ ?d) =>
          change (one_row_per_owner d)
      | |- one_row_per_owner (update_report _ _ ?d) =>
          change (one_row_per_owner d)
      | |- one_row_per_owner (with_reports ?d _) =>
          change (one_row_per_owner d)
      | |- context [match renewSubscription30Days ?c ?o ?x with _ => _ end] =>
          let H := fresh "R" in
          pose proof (renew_one_row c o x) as H;
          destruct (renewSubscription30Days c o x); cbn [fst] in H
      | |- context [match getOrCreateOwnerSubscription ?t ?o ?x with _ => _ end] =>
          let H := fresh "G" in
          pose proof (getOrCreate_one_row t o x) as H;
          destruct (getOrCreateOwnerSubscription t o x); cbn [fst] in H
      | |- context [match ensureDailySubscriptionExpiredNotification
                            ?n ?s ?o ?r ?x with _ => _ end] =>
          let H := fresh "N" in
          pose proof (ensureDaily_one_row n s o r x) as H;
          destruct (ensureDailySubscriptionExpiredNotification n s o r x);
          cbn [fst] in H
      | |- context [match ?x with _ => _ end] => destruct x
      end ].

(** X20: one subscription row per owner is an invariant of the engine: if
    no owner has two rows, none has after a lazy creation, a renewal, a
    gate call or any of the rail handlers, whatever they answer. *)
Theorem one_row_per_owner_is_kept (env : environment) (d : database) :
  one_row_per_owner d ->
  (forall t o, one_row_per_owner (fst (getOrCreateOwnerSubscription t o d)))
  /\ (forall c o, one_row_per_owner (fst (renewSubscription30Days c o d)))
  /\ (forall c o, one_row_per_owner (fst (enforceOwnerSubscriptionForManagement c o d)))
  /\ (forall c s, one_row_per_owner (fst (enforceShopSubscriptionForBooking c s d)))
  /\ (forall q, one_row_per_owner (fst (paypalCreateSubscription env q d)))
  /\ (forall q, one_row_per_owner (fst (paypalConfirmSubscription env q d)))
  /\ (forall q, one_row_per_owner (fst (paypalCancelSubscription env q d)))
  /\ (forall q, one_row_per_owner (fst (paypalChangeSubscriptionPlan env q d)))
  /\ (forall q, one_row_per_owner (fst (paypalWebhook env q d)))
  /\ (forall q, one_row_per_owner (fst (paypalCaptureOrder env q d)))
  /\ (forall q, one_row_per_owner (fst (createManualPaymentReport q d)))
  /\ (forall q, one_row_per_owner (fst (approveManualPaymentReport q d)))
  /\ (forall q, one_row_per_owner (fst (rejectManualPaymentReport q d)))
  /\ (forall q, one_row_per_owner (fst (adminActivateSubscription q d))).
Proof.
  intros H. repeat split.
  - intros t o. now apply getOrCreate_one_row.
  - intros c o. now apply renew_one_row.
  - intros c o. unfold enforceOwnerSubscriptionForManagement. one_row.
  - intros c s. unfold enforceShopSubscriptionForBooking. one_row.
  - intros q. unfold paypalCreateSubscription. one_row.
  - intros q. unfold paypalConfirmSubscription. one_row.
  - intros q. unfold paypalCancelSubscription. one_row.
  - intros q. unfold paypalChangeSubscriptionPlan. one_row.
  - intros q. unfold paypalWebhook. one_row.
  - intros q. unfold paypalCaptureOrder. one_row.
  - intros q. unfold createManualPaymentReport. one_row.
  - intros q. unfold approveManualPaymentReport. one_row.
  - intros q. unfold rejectManualPaymentReport. one_row.
  - intros q. unfold adminActivateSubscription. one_row.
Qed.

Lemma one_row_per_owner_sample :
  one_row_per_owner (Sample.db None None)
  /\ one_row_per_owner
       (fst (paypalCaptureOrder Sample.env
               {| cp_user := Sample.owner 2; cp_orderId := Some "ORDER-2";
                  cp_token := Sample.token;
                  cp_captured := cp_captured Sample.capture;
                  cp_renew := Sample.clock 80; cp_now := 80 * DAY |}
               (Sample.db None None)))
  /\ subscription_owners
       (fst (paypalCaptureOrder Sample.env
               {| cp_user := Sample.owner 2; cp_orderId := Some "ORDER-2";
                  cp_token := Sample.token;
                  cp_captured := cp_captured Sample.capture;
                  cp_renew := Sample.clock 80; cp_now := 80 * DAY |}
               (Sample.db None None))) = [1; 2].
Proof.
  assert (H : one_row_per_owner (Sample.db None None)).
  { unfold one_row_per_owner. cbn. constructor; [intros [] | constructor]. }
  split; [exact H|]. split; [|vm_compute; reflexivity].
  destruct (one_row_per_owner_is_kept Sample.env (Sample.db None None) H)
    as (_ & _ & _ & _ & _ & _ & _ & _ & _ & Hc & _).
  apply Hc.
Defined.

(** ** Plan codes and provider plan ids *)

Lemma list_of_trim_start (s : string) :
  list_ascii_of_string (JS.trim_start s) = drop_spaces (list_ascii_of_string s).
Proof.
  induction s as [|c r IH]; cbn; [reflexivity|].
  destruct (JS.is_space c); [exact IH | reflexivity].
Qed.

Lemma list_of_rev_string (s acc : string) :
  list_ascii_of_string (JS.rev_string acc s)
  = (rev (list_ascii_of_string s) ++ list_ascii_of_string acc)%list.
Proof.
  revert acc. induction s as [|c r IH]; intros acc; cbn; [reflexivity|].
  rewrite IH. cbn. now rewrite <- app_assoc.
Qed.

Lemma list_of_trim (s : string) :
  list_ascii_of_string (JS.trim s)
  = rev (drop_spaces (rev (drop_spaces (list_ascii_of_string s)))).
Proof.
  unfold JS.trim.
  rewrite list_of_rev_string, list_of_trim_start, list_of_rev_string,
    list_of_trim_start. cbn. now rewrite !app_nil_r.
Qed.

Lemma drop_spaces_suffix (l : list ascii) :
  exists p, l = (p ++ drop_spaces l)%list.
Proof.
  induction l as [|c r [p Hp]]; cbn; [now exists []|].
  destruct (JS.is_space c).
  - exists (c :: p). cbn. now rewrite <- Hp.
  - now exists [].
Qed.

Lemma drop_spaces_head (l : list ascii) (c : ascii) (t : list ascii) :
  drop_spaces l = c :: t -> JS.is_space c = false.
Proof.
  induction l as [|a r IH]; cbn; [discriminate|].
  destruct (JS.is_space a) eqn:E; [exact IH|].
  intros [= <- _]. exact E.
Qed.

Lemma drop_spaces_clean (l : list ascii) :
  match l with
  | [] => True
  | c :: _ => JS.is_space c = false
  end -> drop_spaces l = l.
Proof. destruct l as [|c r]; cbn; [reflexivity|]. now intros ->. Qed.

Lemma drop_spaces_idem (l : list ascii) :
  drop_spaces (drop_spaces l) = drop_spaces l.
Proof.
  apply drop_spaces_clean. destruct (drop_spaces l) as [|c t] eqn:E; [exact I|].
  exact (drop_spaces_head l c t E).
Qed.

(** [trim] is idempotent. *)
Lemma trim_idem (s : string) : JS.trim (JS.trim s) = JS.trim s.
Proof.
  rewrite <- (string_of_list_ascii_of_string (JS.trim (JS.trim s))).
  rewrite <- (string_of_list_ascii_of_string (JS.trim s)) at 2.
  f_equal. rewrite (list_of_trim (JS.trim s)), (list_of_trim s).
  set (l := list_ascii_of_string s).
  set (u := drop_spaces (rev (drop_spaces l))).
  assert (Hclean : drop_spaces (rev u) = rev u).
  { apply drop_spaces_clean. destruct (rev u) as [|c t] eqn:E; [exact I|].
    destruct (drop_spaces_suffix (rev (drop_spaces l))) as [p Hp].
    fold u in Hp. apply (f_equal (@rev ascii)) in Hp.
    rewrite rev_involutive, rev_app_distr, E in Hp. cbn in Hp.
    exact (drop_spaces_head l c _ Hp). }
  rewrite Hclean, rev_involutive. subst u. now rewrite drop_spaces_idem.
Qed.

Lemma env_string_trimmed (v : option string) :
  env_string v <> "" ->
  JS.trim (JS.to_string (Some (env_string v))) = env_string v.
Proof.
  intros Hne. unfold JS.to_string, JS.or_else, JS.truthy.
  destruct (String.eqb_spec (env_string v) ""); [contradiction|]. cbn.
  apply trim_idem.
Qed.

(** X21: the two tables between plan codes and provider plan ids are
    inverse of each other: when the four configured plan ids are set and
    pairwise distinct, every valid plan code has a plan id, and that plan
    id maps back to the code. *)
Theorem plan_code_round_trip (env : environment) (c : string) :
  In c VALID_PLAN_CODES ->
  NoDup (configured_plan_ids env) ->
  ~ In "" (configured_plan_ids env) ->
  exists pid,
    getPaypalPlanIdForCode env (Some c) = Some pid
    /\ getPlanCodeForPaypalPlanId env (Some pid) = Some (OwnCode c).
Proof.
  intros Hc Hnd Hne. unfold configured_plan_ids in *.
  set (a := env_string (PAYPAL_PLAN_ID_BASIC_1 env)) in *.
  set (b := env_string (PAYPAL_PLAN_ID_BASIC_2 env)) in *.
  set (p := env_string (PAYPAL_PLAN_ID_PRO env)) in *.
  set (m := env_string (PAYPAL_PLAN_ID_PREMIUM env)) in *.
  assert (Ha : a <> "" /\ b <> "" /\ p <> "" /\ m <> "").
  { repeat split; intros E; apply Hne; cbn; auto. }
  destruct Ha as (Ha & Hb & Hp & Hm).
  inversion Hnd as [|? ? N1 Hnd1]; subst.
  inversion Hnd1 as [|? ? N2 Hnd2]; subst.
  inversion Hnd2 as [|? ? N3 _]; subst.
  cbn in N1, N2, N3.
  assert (Hab : a <> b) by (intros E; apply N1; auto).
  assert (Hap : a <> p) by (intros E; apply N1; auto).
  assert (Ham : a <> m) by (intros E; apply N1; auto).
  assert (Hbp : b <> p) by (intros E; apply N2; auto).
  assert (Hbm : b <> m) by (intros E; apply N2; auto).
  assert (Hpm : p <> m) by (intros E; apply N3; auto).
  assert (Hback : forall v, env_string v <> "" ->
            getPlanCodeForPaypalPlanId env (Some (env_string v))
            = match find (fun kv => String.eqb (fst kv) (env_string v))
                         [(m, "premium"); (p, "pro"); (b, "basic_2"); (a, "basic_1")] with
              | Some kv => Some (OwnCode (snd kv))
              | None =>
                  if existsb (String.eqb (env_string v)) Object_prototype
                  then Some (Inherited (env_string v))
                  else None
              end).
  { intros v Hv. unfold getPlanCodeForPaypalPlanId.
    rewrite (env_string_trimmed v Hv).
    destruct (String.eqb_spec (env_string v) ""); [contradiction|]. reflexivity. }
  assert (Hor : forall s, s <> "" -> JS.or_null s = Some s).
  { intros s Hs. unfold JS.or_null. destruct (String.eqb_spec s ""); congruence. }
  cbn in Hc. destruct Hc as [<- | [<- | [<- | [<- | []]]]].
  - exists a. split.
    + unfold getPaypalPlanIdForCode. cbn. fold a. now apply Hor.
    + unfold a at 1. rewrite Hback by exact Ha. fold a. cbn.
      destruct (String.eqb_spec m a); [congruence|].
      destruct (String.eqb_spec p a); [congruence|].
      destruct (String.eqb_spec b a); [congruence|].
      now rewrite String.eqb_refl.
  - exists b. split.
    + unfold getPaypalPlanIdForCode. cbn. fold b. now apply Hor.
    + unfold b at 1. rewrite Hback by exact Hb. fold b. cbn.
      destruct (String.eqb_spec m b); [congruence|].
      destruct (String.eqb_spec p b); [congruence|].
      now rewrite String.eqb_refl.
  - exists p. split.
    + unfold getPaypalPlanIdForCode. cbn. fold p. now apply Hor.
    + unfold p at 1. rewrite Hback by exact Hp. fold p. cbn.
      destruct (String.eqb_spec m p); [congruence|].
      now rewrite String.eqb_refl.
  - exists m. split.
    + unfold getPaypalPlanIdForCode. cbn. fold m. now apply Hor.
    + unfold m at 1. rewrite Hback by exact Hm. fold m. cbn.
      now rewrite String.eqb_refl.
Qed.

Lemma plan_code_round_trip_sample :
  In "pro" VALID_PLAN_CODES
  /\ NoDup (configured_plan_ids Sample.env)
  /\ ~ In "" (configured_plan_ids Sample.env)
  /\ exists pid,
       getPaypalPlanIdForCode Sample.env (Some "pro") = Some pid
       /\ getPlanCodeForPaypalPlanId Sample.env (Some pid) = Some (OwnCode "pro").
Proof.
  assert (H1 : In "pro" VALID_PLAN_CODES) by (cbn; auto).
  assert (H2 : NoDup (configured_plan_ids Sample.env)).
  { cbn. repeat constructor; cbn; intuition discriminate. }
  assert (H3 : ~ In "" (configured_plan_ids Sample.env)).
  { cbn. intuition discriminate. }
  split; [exact H1|]. split; [exact H2|]. split; [exact H3|].
  exact (plan_code_round_trip Sample.env "pro" H1 H2 H3).
Defined.

(** ** The availability route behind the booking gate *)

Lemma insert_availability_some (accepts : database -> availability_row -> bool)
  (d : database) (b : Z) (items : list availability_item)
  (rows rows' : list availability_row) :
  insert_availability accepts d b items rows = Some rows' ->
  rows' = (rows ++ stored_rows b items)%list
  /\ forallb (accepts d) (stored_rows b items) = true.
Proof.
  revert rows. induction items as [|it rest IH]; intros rows; cbn.
  - intros [= <-]. now rewrite app_nil_r.
  - unfold stored_rows in *. cbn.
    destruct (item_row b it) as [r|]; cbn.
    + destruct (accepts d r); [|discriminate].
      intros H. destruct (IH _ H) as [-> Hall].
      rewrite <- app_assoc. cbn. auto.
    + apply IH.
Qed.

Lemma stored_rows_of_barber (b : Z) (items : list availability_item) :
  forall r, In r (stored_rows b items) -> av_barber_id r = b.
Proof.
  intros r. unfold stored_rows. rewrite in_flat_map. intros (it & _ & Hr).
  unfold item_row in Hr.
  destruct (JS.or_else (it_day it) None); [|destruct Hr].
  destruct (JS.or_else (it_startTime it) None); [|destruct Hr].
  destruct (JS.or_else (it_endTime it) None); [|destruct Hr].
  destruct Hr as [<- | []]. reflexivity.
Qed.

Lemma canMutateBarber_refusal (d : database) (u : option auth_user) (b st : Z)
  (msg : string) :
  canMutateBarber d u b = Some (st, msg) -> st = 401 \/ st = 403.
Proof.
  unfold canMutateBarber.
  destruct (field u userId); [|intros [= <- _]; auto].
  repeat match goal with
         | |- context [if ?x then _ else _] => destruct x
         end; try discriminate.
  intros [= <- _]. auto.
Qed.

Lemma canMutateBarber_allowed (d : database) (u : option auth_user) (b : Z) :
  canMutateBarber d u b = None -> may_mutate d u b.
Proof.
  unfold canMutateBarber, may_mutate.
  destruct (field u userId) as [uid|]; [|discriminate].
  intros H. exists uid. split; [reflexivity|].
  destruct (JS.includes (user_role_of u) "admin"); [auto|].
  destruct (JS.includes (user_role_of u) "barber" && (uid =? b)) eqn:B.
  { apply andb_true_iff in B. destruct B as [B1 B2].
    right. left. split; [exact B1 | lia]. }
  destruct (JS.includes (user_role_of u) "owner") eqn:O; [|discriminate H].
  cbn [andb] in H.
  match type of H with
  | (if ?x then _ else _) = _ => destruct x eqn:E; [|discriminate H]
  end.
  right. right. split; [reflexivity|].
  apply existsb_exists in E. destruct E as (usr & Hin & E).
  apply andb_true_iff in E. destruct E as [E1 E2].
  apply existsb_exists in E2. destruct E2 as (bs & Hbs & E2).
  apply andb_true_iff in E2. destruct E2 as [E2 E3].
  apply andb_true_iff in E2. destruct E2 as [E2 E4].
  exists usr, bs. repeat split; auto.
  - lia.
  - unfold opt_eqb in E2. destruct (user_shop_id usr) as [x|]; [|discriminate].
    f_equal. lia.
  - unfold opt_eqb in E4. destruct (shop_owner_id bs) as [x|]; [|discriminate].
    f_equal. lia.
  - destruct (shop_deleted_at bs); [discriminate | reflexivity].
Qed.

Lemma shop_gate_throws_status (c : gate_clock) (sid : Z) (d d1 : database)
  (e : js_error) :
  enforceShopSubscriptionForBooking c sid d = (d1, Throws e) ->
  err_status e = Some 404 \/ err_status e = Some 409 \/ err_status e = Some 402
  \/ err_status e = None.
Proof.
  unfold enforceShopSubscriptionForBooking.
  destruct (find _ (barber_shops d)) as [shop|]; [|intros [= _ <-]; auto].
  destruct (shop_owner_id shop) as [o|]; [|intros [= _ <-]; auto].
  destruct (getOrCreateOwnerSubscription (at_create c) o d) as [d0 sub].
  destruct (ensureDailySubscriptionExpiredNotification _ _ o sub d0)
    as [d2 [u|e']] eqn:N.
  - destruct (isBlocked _); [|discriminate].
    intros [= _ <-]. auto.
  - intros [= _ <-]. destruct (ensureDaily_throws _ _ _ _ _ _ _ N) as (_ & _ & ->).
    auto.
Qed.

(** What a call of the route can be: a refusal with the store as it was,
    or the success with the rows replaced. *)
Lemma putBarberAvailability_cases (accepts : database -> availability_row -> bool)
  (q : availability_request) (s : booking_store) :
  let r := putBarberAvailability accepts q s in
  (fst r = s /\ ans_status (snd r) <> 200)
  \/ (canMutateBarber (core s) (avq_user q) (avq_barberId q) = None
      /\ snd r = {| ans_status := 200;
                    ans_payload := PAvailability (avq_barberId q) (avq_items q) |}
      /\ barber_availability (fst r)
         = (filter (fun x => negb (of_barber (avq_barberId q) x))
                   (barber_availability s)
            ++ stored_rows (avq_barberId q) (avq_items q))%list
      /\ (core (fst r) = core s
          \/ exists sid, core (fst r)
                         = fst (enforceShopSubscriptionForBooking
                                  (avq_clock q) sid (core s)))
      /\ forall x, In x (stored_rows (avq_barberId q) (avq_items q)) ->
                   accepts (core (fst r)) x = true).
Proof.
  cbv zeta. unfold putBarberAvailability.
  destruct (canMutateBarber (core s) (avq_user q) (avq_barberId q))
    as [[st msg]|] eqn:A.
  { left. split; [reflexivity|]. cbn.
    destruct (canMutateBarber_refusal _ _ _ _ _ A); lia. }
  set (shopId := match find _ (users (core s)) with
                 | Some u => user_shop_id u
                 | None => None
                 end).
  destruct shopId as [sid|].
  - destruct (enforceShopSubscriptionForBooking (avq_clock q) sid (core s))
      as [d1 [p|e]] eqn:G.
    + destruct (insert_availability accepts d1 (avq_barberId q) (avq_items q) _)
        as [rows|] eqn:I.
      * right. destruct (insert_availability_some _ _ _ _ _ _ I) as [-> Hall].
        cbn. repeat split; auto.
        -- right. exists sid. now rewrite G.
        -- intros x Hx. rewrite forallb_forall in Hall. now apply Hall.
      * left. split; [reflexivity|]. cbn. lia.
    + left. split; [reflexivity|]. cbn.
      destruct (shop_gate_throws_status _ _ _ _ _ G) as [-> | [-> | [-> | ->]]]; lia.
  - destruct (insert_availability accepts (core s) (avq_barberId q) (avq_items q) _)
      as [rows|] eqn:I.
    + right. destruct (insert_availability_some _ _ _ _ _ _ I) as [-> Hall].
      cbn. repeat split; auto.
      intros x Hx. rewrite forallb_forall in Hall. now apply Hall.
    + left. split; [reflexivity|]. cbn. lia.
Qed.

Lemma filter_of_other (b : Z) (l : list availability_row) :
  filter (of_barber b) (filter (fun x => negb (of_barber b x)) l) = [].
Proof.
  induction l as [|x l IH]; cbn; [reflexivity|].
  destruct (of_barber b x) eqn:E; cbn; [exact IH|]. now rewrite E.
Qed.

Lemma filter_all (A : Type) (f : A -> bool) (l : list A) :
  (forall x, In x l -> f x = true) -> filter f l = l.
Proof.
  induction l as [|x l IH]; cbn; [reflexivity|]. intros H.
  rewrite (H x) by auto. f_equal. apply IH. auto.
Qed.

Lemma filter_none (A : Type) (f : A -> bool) (l : list A) :
  (forall x, In x l -> f x = false) -> filter f l = [].
Proof.
  induction l as [|x l IH]; cbn; [reflexivity|]. intros H.
  rewrite (H x) by auto. apply IH. auto.
Qed.

Lemma filter_idem (A : Type) (f : A -> bool) (l : list A) :
  filter f (filter f l) = filter f l.
Proof.
  apply filter_all. intros x Hx. apply filter_In in Hx. tauto.
Qed.

(** X22: a successful save of a barber's availability replaces exactly
    that barber's rows: afterwards the barber's rows are the items of the
    request that carry a day, a start and an end, in the order sent (items
    lacking a field are skipped without an error), every other barber's
    rows are as before, in their order, and the answer echoes the whole
    array sent, skipped items included. *)
Theorem availability_save_replaces_own_rows
  (accepts : database -> availability_row -> bool)
  (q : availability_request) (s : booking_store) :
  let b := avq_barberId q in
  let r := putBarberAvailability accepts q s in
  ans_status (snd r) = 200 ->
  filter (of_barber b) (barber_availability (fst r)) = stored_rows b (avq_items q)
  /\ filter (fun x => negb (of_barber b x)) (barber_availability (fst r))
     = filter (fun x => negb (of_barber b x)) (barber_availability s)
  /\ ans_payload (snd r) = PAvailability b (avq_items q).
Proof.
  intros b r H200.
  destruct (putBarberAvailability_cases accepts q s) as [[_ Hn] | (_ & Hans & Hrows & _)].
  { contradiction. }
  fold r in Hans, Hrows. fold b in Hans, Hrows.
  rewrite Hrows, !filter_app, filter_of_other, filter_idem. cbn [app].
  assert (Hb : forall x, In x (stored_rows b (avq_items q)) -> of_barber b x = true).
  { intros x Hx. unfold of_barber. rewrite (stored_rows_of_barber b _ x Hx).
    apply Z.eqb_refl. }
  split; [apply filter_all; exact Hb|]. split.
  - rewrite (filter_none _ (fun x => negb (of_barber b x)) (stored_rows b (avq_items q))).
    + apply app_nil_r.
    + intros x Hx. now rewrite (Hb x Hx).
  - now rewrite Hans.
Qed.

Lemma availability_save_sample :
  let q := SampleBooking.request 101 101 80 in
  let r := putBarberAvailability SampleBooking.any_row q SampleBooking.store in
  ans_status (snd r) = 200
  /\ filter (of_barber 101) (barber_availability (fst r))
     = [SampleBooking.row 101 "X" "08:00" "13:00";
        SampleBooking.row 101 "J" "14:00" "19:00"]
  /\ filter (fun x => negb (of_barber 101 x)) (barber_availability (fst r))
     = [SampleBooking.row 102 "M" "10:00" "18:00"].
Proof.
  intros q r.
  assert (H : ans_status (snd r) = 200) by (vm_compute; reflexivity).
  split; [exact H|].
  pose proof (availability_save_replaces_own_rows SampleBooking.any_row q
                SampleBooking.store H) as (H1 & H2 & _).
  split; [exact H1 | exact H2].
Defined.

(** X23: the availability of a barber is only ever written for a caller
    who is an admin, the barber themself, or the owner of the undeleted
    shop the barber belongs to: whenever the call changes the store or
    answers 200, the caller is one of the three; anyone else gets 401
    (no user id) or 403 with nothing written. *)
Theorem availability_written_only_by_authorized
  (accepts : database -> availability_row -> bool)
  (q : availability_request) (s : booking_store) :
  let r := putBarberAvailability accepts q s in
  (fst r <> s \/ ans_status (snd r) = 200 ->
   may_mutate (core s) (avq_user q) (avq_barberId q))
  /\ (canMutateBarber (core s) (avq_user q) (avq_barberId q) <> None ->
      fst r = s /\ (ans_status (snd r) = 401 \/ ans_status (snd r) = 403)).
Proof.
  intros r. split.
  - intros H.
    destruct (putBarberAvailability_cases accepts q s) as [[Hs Hn] | (A & _)].
    + fold r in Hs, Hn. destruct H; contradiction.
    + exact (canMutateBarber_allowed _ _ _ A).
  - intros H. subst r. unfold putBarberAvailability.
    destruct (canMutateBarber (core s) (avq_user q) (avq_barberId q))
      as [[st msg]|] eqn:A; [|contradiction].
    split; [reflexivity|]. cbn. exact (canMutateBarber_refusal _ _ _ _ _ A).
Qed.

(** X23 at a sample: barber 102 asks to write the slots of barber 101. *)
Example availability_foreign_barber_sample :
  let q := SampleBooking.request 102 101 80 in
  let r := putBarberAvailability SampleBooking.any_row q SampleBooking.store in
  fst r = SampleBooking.store /\ ans_status (snd r) = 403.
Proof. vm_compute. split; reflexivity. Qed.

(** X24: the save is refused while the owner of the barber's shop is
    Blocked: for an authorized caller and a barber whose shop resolves to
    owner [o], a Blocked state leaves the whole store as it was. When the
    owner has a row in [users] the answer is 402 with the gate's message,
    and the expiry notification the gate inserted before throwing does not
    survive the rollback; when the owner has none the answer is 402 or,
    if the notification [INSERT] raised, 500. *)
Theorem availability_blocked_shop_is_refused
  (accepts : database -> availability_row -> bool)
  (q : availability_request) (s : booking_store) (usr : user_row) (sid o : Z) :
  let d := core s in
  let c := avq_clock q in
  let sub := snd (getOrCreateOwnerSubscription (at_create c) o d) in
  canMutateBarber d (avq_user q) (avq_barberId q) = None ->
  find (fun u => user_id u =? avq_barberId q) (users d) = Some usr ->
  user_shop_id usr = Some sid ->
  shop_resolves d sid o ->
  isBlocked (computeSubscriptionState (at_state c) sub) = true ->
  fst (putBarberAvailability accepts q s) = s
  /\ (has_user d o = true ->
      putBarberAvailability accepts q s
      = (s, gate_refusal (blocked_error
              ("Este negocio tiene el plan vencido. El propietario debe renovar (bloqueado desde ", ").")
              ("Este negocio tiene el plan vencido. El propietario debe renovar.", "")
              o (computeSubscriptionState (at_state c) sub)))
      /\ ans_status (snd (putBarberAvailability accepts q s)) = 402)
  /\ (ans_status (snd (putBarberAvailability accepts q s)) = 402
      \/ ans_status (snd (putBarberAvailability accepts q s)) = 500).
Proof.
  intros d c sub A F S (shop & Hfind & Hown) B.
  unfold putBarberAvailability. fold d. rewrite A, F, S.
  unfold enforceShopSubscriptionForBooking. rewrite Hfind, Hown.
  subst sub. fold c.
  pose proof (getOrCreate_users (at_create c) o d) as Hus.
  destruct (getOrCreateOwnerSubscription (at_create c) o d) as [d1 sb].
  cbn [fst snd] in B, Hus |- *.
  destruct (ensureDailySubscriptionExpiredNotification (at_notify c) (at_sql c) o sb d1)
    as [d2 [u|e]] eqn:N.
  - rewrite B. cbn [fst snd]. split; [reflexivity|].
    split; [intros _; split; reflexivity | left; reflexivity].
  - destruct (ensureDaily_throws _ _ _ _ _ _ _ N) as (_ & Hno & ->).
    cbn [fst snd]. split; [reflexivity|]. split; [|right; reflexivity].
    intros Hu. unfold has_user in *. rewrite Hus, Hu in Hno. discriminate Hno.
Qed.

(** X24 at a sample: owner 1 has an account and is Blocked on day 106;
    the gate inserts the expiry notification and throws, the route answers
    402 and the store is the one the request found. *)
Lemma availability_blocked_sample :
  let q := SampleBooking.request 101 101 106 in
  let r := putBarberAvailability SampleBooking.any_row q SampleBooking.store in
  has_user (core SampleBooking.store) 1 = true
  /\ fst r = SampleBooking.store /\ ans_status (snd r) = 402
  /\ notifications
       (fst (enforceShopSubscriptionForBooking (avq_clock q) 10
               (core SampleBooking.store))) <> [].
Proof.
  intros q r.
  assert (A : canMutateBarber (core SampleBooking.store) (avq_user q)
                (avq_barberId q) = None) by (vm_compute; reflexivity).
  assert (F : find (fun u => user_id u =? avq_barberId q)
                (users (core SampleBooking.store))
              = Some (Sample.barber 101 10)) by reflexivity.
  assert (R : shop_resolves (core SampleBooking.store) 10 1).
  { exists (Sample.shop 10 1). split; reflexivity. }
  assert (B : isBlocked (computeSubscriptionState (at_state (avq_clock q))
                (snd (getOrCreateOwnerSubscription (at_create (avq_clock q)) 1
                        (core SampleBooking.store)))) = true)
    by (vm_compute; reflexivity).
  assert (U : has_user (core SampleBooking.store) 1 = true) by reflexivity.
  pose proof (availability_blocked_shop_is_refused SampleBooking.any_row q
                SampleBooking.store (Sample.barber 101 10) 10 1 A F eq_refl R B)
    as (E & H402 & _).
  split; [exact U|]. split; [exact E|]. split; [exact (proj2 (H402 U))|].
  vm_compute. intro H. discriminate H.
Defined.

(** The same request when the account of owner 1 is gone from [users]: the
    notification [INSERT] raises, the route answers 500 with the message
    of the database, and the store is the one the request found. *)
Example availability_orphaned_owner_sample :
  let q := SampleBooking.request 101 101 106 in
  let s := {| core := Sample.orphaned;
              barber_availability := barber_availability SampleBooking.store |} in
  let r := putBarberAvailability SampleBooking.any_row q s in
  fst r = s /\ ans_status (snd r) = 500.
Proof. vm_compute. split; reflexivity. Qed.
